(** * alicat: a shallow embedding of the serial/TCP client and the flow-meter driver

    Sources embedded here:
      - [src/alicat/util.py]   : [Client] (timeout accounting, reconnection,
                                 one command / one line exchanges);
      - [src/alicat/driver.py] : [FlowMeter] and [FlowController].

    Modelling conventions.
      - Text is a [string] whose characters stand for the code points 0 to
        255; the wire protocol is ASCII.  Blanks are those of Python on
        these code points.  Text with a code point above 255 is not
        represented.
      - A Python [float] is an IEEE-754 binary64 value, represented by
        [spec_float] with precision 53 and maximal exponent 1024; the
        arithmetic is the executable specification of the standard library.
      - An [async] method is a state transformer that may raise: the monad
        [M] threads the object state and returns [Ok v] or [Raise e].  State
        changes made before an exception is raised are kept, as in Python.
      - The device and the cable are an oracle: [Link] lists the outcome of
        every future connection attempt, of every future wait for a line
        and of every future read of stale bytes, and records the frames
        handed to the stream writer.  A read may fail with any exception,
        among them the [UnicodeDecodeError] of bytes that are not UTF-8;
        which ones the client catches is read off its [except] clauses.
        Writing to a stream and closing it do not fail.
      - [asyncio.TimeoutError] is the built-in [TimeoutError], as from
        Python 3.11 on.  [int()] and [str()] are taken without the limit on
        the number of digits, which is a setting of the interpreter.
      - One caller at a time: the [asyncio.Lock] of the client serialises
        the exchanges, so a sequential model is the behaviour of each call. *)

From Stdlib Require Import ZArith List String Ascii Bool Lia DecimalString.
From Stdlib Require Import DecimalPos.
From Stdlib Require Import Floats.SpecFloat.
Import ListNotations.

Local Open Scope string_scope.
Local Open Scope list_scope.

(** ** Python built-ins used by the driver *)

Module Py.

(** *** [str] *)

(** [str.isspace] on one character: TAB, LF, VT, FF, CR, the four
    separators FS, GS, RS, US, the space, and above 127 the next-line
    control (133) and the no-break space (160).  These are the blanks of
    [split()] and [strip()]. *)
Definition isspace (c : ascii) : bool :=
  let n := nat_of_ascii c in
  ((9 <=? n) && (n <=? 13) || (28 <=? n) && (n <=? 32) ||
   (n =? 133) || (n =? 160))%nat.

(** The blanks that [int()] and [float()] skip around a number: TAB, LF,
    VT, FF, CR and the space, and the blanks above 127, which the
    interpreter turns into spaces first.  The separators FS, GS, RS, US are
    not among them. *)
Definition isspace_number (c : ascii) : bool :=
  let n := nat_of_ascii c in
  ((9 <=? n) && (n <=? 13) || (n =? 32) || (n =? 133) || (n =? 160))%nat.

Definition is_empty (s : string) : bool :=
  match s with EmptyString => true | _ => false end.

(** [s.split()]: maximal runs of non-blank characters, in order. *)
Fixpoint split_from (cur : string) (s : string) : list string :=
  match s with
  | EmptyString => if is_empty cur then [] else [cur]
  | String c s' =>
      if isspace c
      then (if is_empty cur then split_from "" s' else cur :: split_from "" s')
      else split_from (cur ++ String c "") s'
  end.

Definition split (s : string) : list string := split_from "" s.

(** [s.split(sep)] for a one-character separator: never empty, keeps empty
    fields. *)
Fixpoint split_on_from (sep : ascii) (cur : string) (s : string) : list string :=
  match s with
  | EmptyString => [cur]
  | String c s' =>
      if Ascii.eqb c sep
      then cur :: split_on_from sep "" s'
      else split_on_from sep (cur ++ String c "") s'
  end.

Definition split_on (sep : ascii) (s : string) : list string :=
  split_on_from sep "" s.

(** Dropping the leading characters that [blank] accepts. *)
Fixpoint lstrip_by (blank : ascii -> bool) (s : string) : string :=
  match s with
  | String c s' => if blank c then lstrip_by blank s' else s
  | EmptyString => EmptyString
  end.

Fixpoint rev_string (acc : string) (s : string) : string :=
  match s with
  | EmptyString => acc
  | String c s' => rev_string (String c acc) s'
  end.

Definition rstrip_by (blank : ascii -> bool) (s : string) : string :=
  rev_string "" (lstrip_by blank (rev_string "" s)).

Definition strip_by (blank : ascii -> bool) (s : string) : string :=
  rstrip_by blank (lstrip_by blank s).

(** [s.strip()] *)
Definition strip (s : string) : string := strip_by isspace s.

(** What [int()] and [float()] parse: the text without the blanks around
    it. *)
Definition strip_number (s : string) : string := strip_by isspace_number s.

(** [s.replace(c, '')] for a single character [c]. *)
Fixpoint remove_char (c : ascii) (s : string) : string :=
  match s with
  | EmptyString => EmptyString
  | String d s' =>
      if Ascii.eqb d c then remove_char c s' else String d (remove_char c s')
  end.

Definition upper_char (c : ascii) : ascii :=
  let n := nat_of_ascii c in
  if ((97 <=? n) && (n <=? 122))%nat then ascii_of_nat (n - 32) else c.

Definition lower_char (c : ascii) : ascii :=
  let n := nat_of_ascii c in
  if ((65 <=? n) && (n <=? 90))%nat then ascii_of_nat (n + 32) else c.

Fixpoint map_string (f : ascii -> ascii) (s : string) : string :=
  match s with
  | EmptyString => EmptyString
  | String c s' => String (f c) (map_string f s')
  end.

(** [s.upper()] and [s.lower()] on ASCII letters.  The driver compares the
    result of [upper()] with [MOV], [VOV], [POV] and [LCK]; a character
    above 127 never becomes one of their letters, so leaving it as it is
    gives the same comparisons as Python. *)
Definition upper : string -> string := map_string upper_char.
Definition lower : string -> string := map_string lower_char.

(** [sub in s] for strings *)
Fixpoint contains (sub s : string) : bool :=
  String.prefix sub s ||
  match s with
  | EmptyString => false
  | String _ s' => contains sub s'
  end.

(** [s.startswith(p)] *)
Definition startswith (s p : string) : bool := String.prefix p s.

(** *** [list] *)

(** [x in l] for a list of strings *)
Definition mem (x : string) (l : list string) : bool :=
  existsb (String.eqb x) l.

(** [l.index(x)], [None] standing for the [ValueError] of a missing item *)
Fixpoint index (x : string) (l : list string) : option Z :=
  match l with
  | [] => None
  | y :: l' =>
      if String.eqb x y then Some 0%Z
      else option_map Z.succ (index x l')
  end.

(** [l.insert(i, x)] for [i >= 0]: past the end it appends. *)
Definition insert {A} (i : nat) (x : A) (l : list A) : list A :=
  firstn i l ++ x :: skipn i l.

(** [del l[-k]] for [1 <= k <= len(l)]; Python raises [IndexError] outside
    that range, which the caller's guard excludes. *)
Definition del_from_end {A} (k : nat) (l : list A) : list A :=
  let i := (List.length l - k)%nat in firstn i l ++ skipn (S i) l.

(** [l[-1]] *)
Definition last_opt {A} (l : list A) : option A :=
  match rev l with [] => None | x :: _ => Some x end.

(** *** [int] *)

Local Open Scope Z_scope.

Definition is_digit (c : ascii) : bool :=
  let n := nat_of_ascii c in ((48 <=? n) && (n <=? 57))%nat.

Definition digit_val (c : ascii) : Z := Z.of_nat (nat_of_ascii c) - 48.

(** The [digitpart] of the grammar shared by [int()] and [float()]: digits,
    with a single underscore allowed between two digits.  [digits_tail acc
    n s] continues after at least one digit and returns the accumulated
    value, the number of digits read and the unread rest. *)
Fixpoint digits_tail (acc : Z) (n : Z) (s : string) : Z * Z * string :=
  match s with
  | String c s' =>
      if is_digit c then digits_tail (10 * acc + digit_val c) (n + 1) s'
      else if Ascii.eqb c "_" then
        match s' with
        | String d s'' =>
            if is_digit d
            then digits_tail (10 * acc + digit_val d) (n + 1) s''
            else (acc, n, s)
        | EmptyString => (acc, n, s)
        end
      else (acc, n, s)
  | EmptyString => (acc, n, s)
  end.

Definition digitpart (acc : Z) (s : string) : option (Z * Z * string) :=
  match s with
  | String c s' =>
      if is_digit c then Some (digits_tail (10 * acc + digit_val c) 1 s')
      else None
  | EmptyString => None
  end.

(** An optional sign: [true] for a minus. *)
Definition sign_of (s : string) : bool * string :=
  match s with
  | String "-" s' => (true, s')
  | String "+" s' => (false, s')
  | _ => (false, s)
  end.

(** [int(s)] in base 10; [None] stands for [ValueError]. *)
Definition int_of_str (s : string) : option Z :=
  let (neg, body) := sign_of (strip_number s) in
  match digitpart 0 body with
  | Some (v, _, EmptyString) => Some (if neg then - v else v)
  | _ => None
  end.

(** [str(n)] for an [int] *)
Definition str_of_int (n : Z) : string :=
  NilZero.string_of_int (Z.to_int n).

(** *** [float] *)

(** Python floats are binary64. *)
Definition float : Type := spec_float.
Definition prec : Z := 53.
Definition emax : Z := 1024.

(** The binary64 value nearest to [(-1)^neg * m * 10^e10], ties to even:
    what [float()] returns for a decimal literal with digits [m] and decimal
    exponent [e10].  An integer is rounded once; a fraction is one correctly
    rounded division of two exact integers.  Overflow gives an infinity and
    underflow a zero, as in Python. *)
Definition of_decimal (neg : bool) (m : Z) (e10 : Z) : float :=
  match m with
  | Z0 => S754_zero neg
  | Zpos p =>
      if 0 <=? e10
      then binary_round prec emax neg (p * Z.to_pos (10 ^ e10)) 0
      else SFdiv prec emax (S754_finite neg p 0)
                           (S754_finite false (Z.to_pos (10 ^ (- e10))) 0)
  | Zneg _ => S754_nan
  end.

(** The optional exponent that ends a [floatnumber], after the digits [m]
    of which [nfrac] follow the point. *)
Definition float_exponent (neg : bool) (m nfrac : Z) (rest : string)
  : option float :=
  match rest with
  | EmptyString => Some (of_decimal neg m (- nfrac))
  | String c rest' =>
      if Ascii.eqb c "e" || Ascii.eqb c "E" then
        let (eneg, digits) := sign_of rest' in
        match digitpart 0 digits with
        | Some (ev, _, EmptyString) =>
            Some (of_decimal neg m ((if eneg then - ev else ev) - nfrac))
        | _ => None
        end
      else None
  end.

(** [float(s)] for a string; [None] stands for [ValueError].  The grammar is
    the one of the language reference: blanks around, a sign, then [inf],
    [infinity] or [nan] in any case, or digits with a point and an
    exponent. *)
Definition float_of_str (s : string) : option float :=
  let (neg, body) := sign_of (strip_number s) in
  let low := lower body in
  if String.eqb low "inf" || String.eqb low "infinity"
  then Some (S754_infinity neg)
  else if String.eqb low "nan" then Some S754_nan
  else
    match digitpart 0 body with
    | Some (ip, _, String "." rest) =>
        match digitpart ip rest with
        | Some (m, nfrac, rest') => float_exponent neg m nfrac rest'
        | None => float_exponent neg ip 0 rest
        end
    | Some (ip, _, rest) => float_exponent neg ip 0 rest
    | None =>
        match body with
        | String "." rest =>
            match digitpart 0 rest with
            | Some (m, nfrac, rest') => float_exponent neg m nfrac rest'
            | None => None
            end
        | _ => None
        end
    end.

(** [a / b] rounded to the nearest integer, ties to even ([0 <= a], [0 < b]). *)
Definition div_nearest_even (a b : Z) : Z :=
  let q := a / b in
  match 2 * (a mod b) ?= b with
  | Lt => q
  | Gt => q + 1
  | Eq => if Z.even q then q else q + 1
  end.

(** [|x| * 100] rounded to an integer, for the finite [x = m * 2^e]. *)
Definition hundredths (m : positive) (e : Z) : Z :=
  if 0 <=? e then Zpos m * 2 ^ e * 100
  else div_nearest_even (Zpos m * 100) (2 ^ (- e)).

Definition two_digits (n : Z) : string :=
  str_of_int (n / 10) ++ str_of_int (n mod 10).

(** [f'{x:.2f}']: the exact value of [x] rounded to two decimals, ties to
    even. *)
Definition format_2f (x : float) : string :=
  match x with
  | S754_nan => "nan"
  | S754_infinity s => if s then "-inf" else "inf"
  | S754_zero s => (if s then "-" else "") ++ "0.00"
  | S754_finite s m e =>
      let n := hundredths m e in
      (if s then "-" else "") ++
      str_of_int (n / 100) ++ "." ++ two_digits (n mod 100)
  end.

Definition fsub : float -> float -> float := SFsub prec emax.
Definition fabs : float -> float := SFabs.

(** [a > b]: false as soon as one side is a NaN. *)
Definition fgt (a b : float) : bool := SFltb b a.

End Py.

(** ** Exceptions and the call monad *)

(** The exception classes that occur.  A message is kept for the errors the
    driver raises itself; an error raised by a built-in ([int()], [float()])
    carries the constant part of the interpreter's message.  The last two
    come from the streams: [bytes.decode] on bytes that are not UTF-8, and
    [readuntil] on a line longer than the buffer of the reader.  No
    [except] clause of the two modules names them or a class above them
    other than [Exception]. *)
Inductive exn : Type :=
  | OSError (msg : string)
  | ValueError (msg : string)
  | IndexError
  | AttributeError
  | TypeError
  | TimeoutError
  | IncompleteReadError
  | UnicodeDecodeError
  | LimitOverrunError.

Inductive Res (A : Type) : Type :=
  | Ok (a : A)
  | Raise (e : exn).
Arguments Ok {A} a.
Arguments Raise {A} e.

(** A method call on an object whose state has type [S]. *)
Definition M (S A : Type) : Type := S -> Res A * S.

Definition ret {S A} (a : A) : M S A := fun s => (Ok a, s).

Definition raise {S A} (e : exn) : M S A := fun s => (Raise e, s).

Definition bind {S A B} (c : M S A) (k : A -> M S B) : M S B :=
  fun s =>
    match c s with
    | (Ok a, s') => k a s'
    | (Raise e, s') => (Raise e, s')
    end.

Definition gets {S A} (f : S -> A) : M S A := fun s => (Ok (f s), s).

Definition modify {S} (f : S -> S) : M S unit := fun s => (Ok tt, f s).

(** [try: c  except <classes>: h]: [handles e] tells whether the clause
    catches [e]. *)
Definition try_except {S A} (c : M S A) (handles : exn -> bool) (h : M S A)
  : M S A :=
  fun s =>
    match c s with
    | (Raise e, s') => if handles e then h s' else (Raise e, s')
    | r => r
    end.

(** Running a method of a component stored in a field of the object. *)
Definition zoom {S T A} (proj : S -> T) (inj : T -> S -> S) (c : M T A)
  : M S A :=
  fun s => let (r, t') := c (proj s) in (r, inj t' s).

Declare Scope call_scope.
Delimit Scope call_scope with call.
Notation "x <- c ;; k" := (bind c (fun x => k))
  (at level 61, c at next level, right associativity) : call_scope.
Notation "c ;; k" := (bind c (fun _ => k))
  (at level 61, right associativity) : call_scope.
Local Open Scope call_scope.

(** ** [util.py]: the reconnecting client *)

Module util.

(** What a read of the stream gives: bytes arrive and decode to a text
    ([Line]; for [readuntil] the text up to the terminator), nothing
    arrives in time ([Timeout]), the stream has ended ([IncompleteRead]),
    or the read, or the decoding of what was read, raises the given
    exception ([Fails]). *)
Inductive outcome : Type :=
  | Line (raw : string)
  | Timeout
  | IncompleteRead
  | Fails (e : exn).

(** The other end of the connection.  [connects], [replies] and
    [leftovers] are consumed from the head: one per connection attempt
    ([true] when the streams are opened, [false] when the attempt times out
    or ends in an [OSError]), one per awaited line, and one per read of
    stale bytes by [_clear]; an exhausted list is a device that no longer
    answers and a stream that holds nothing.  [wire] is what was handed to
    [writer.write], oldest first. *)
Record Link : Type := mkLink {
  connects : list bool;
  replies : list outcome;
  leftovers : list outcome;
  wire : list string
}.

(** The attributes of [Client] set by [__init__], and [streams]: whether
    [reader] and [writer] have been assigned, which [_handle_connection]
    does after the first successful [_connect]. *)
Record Client : Type := mkClient {
  address : string;
  open : bool;
  timeouts : Z;
  max_timeouts : Z;
  reconnecting : bool;
  eol : string;
  streams : bool
}.

Definition CR : string := String "013" EmptyString.
Definition NUL : ascii := "000"%char.

(** [Client.__init__] *)
Definition init : Client :=
  {| address := ""; open := false; timeouts := 0; max_timeouts := 10;
     reconnecting := false; eol := CR; streams := false |}.

(** [SerialClient.__init__] *)
Definition SerialClient (addr : string) : Client :=
  {| address := addr; open := open init; timeouts := timeouts init;
     max_timeouts := max_timeouts init; reconnecting := reconnecting init;
     eol := eol init; streams := streams init |}.

(** [TcpClient.__init__]: the address must split in two at the colons. *)
Definition TcpClient (addr : string) : Res Client :=
  match Py.split_on ":" addr with
  | [host; _] =>
      Ok {| address := host; open := open init; timeouts := timeouts init;
            max_timeouts := max_timeouts init;
            reconnecting := reconnecting init; eol := eol init;
            streams := streams init |}
  | _ => Raise (ValueError "address must be hostname:port")
  end.

Definition set_open (b : bool) (c : Client) : Client :=
  {| address := address c; open := b; timeouts := timeouts c;
     max_timeouts := max_timeouts c; reconnecting := reconnecting c;
     eol := eol c; streams := streams c |}.

Definition set_timeouts (n : Z) (c : Client) : Client :=
  {| address := address c; open := open c; timeouts := n;
     max_timeouts := max_timeouts c; reconnecting := reconnecting c;
     eol := eol c; streams := streams c |}.

Definition set_reconnecting (b : bool) (c : Client) : Client :=
  {| address := address c; open := open c; timeouts := timeouts c;
     max_timeouts := max_timeouts c; reconnecting := b; eol := eol c;
     streams := streams c |}.

(** [self.reader, self.writer = ...] *)
Definition set_streams (b : bool) (c : Client) : Client :=
  {| address := address c; open := open c; timeouts := timeouts c;
     max_timeouts := max_timeouts c; reconnecting := reconnecting c;
     eol := eol c; streams := b |}.

(** A client together with its streams. *)
Definition Conn : Type := Client * Link.

Definition on_client (f : Client -> Client) : M Conn unit :=
  modify (fun s : Conn => (f (fst s), snd s)).

Definition on_link (f : Link -> Link) : M Conn unit :=
  modify (fun s : Conn => (fst s, f (snd s))).

Definition attr {A} (f : Client -> A) : M Conn A :=
  gets (fun s : Conn => f (fst s)).

(** [Client._write]: the message and the terminator go to the writer.  It
    is called on an open client only, whose writer is set. *)
Definition _write (message : string) : M Conn unit :=
  e <- attr eol ;;
  on_link (fun l =>
    {| connects := connects l; replies := replies l;
       leftovers := leftovers l;
       wire := wire l ++ [(message ++ e)%string] |}).

(** [Client._read] under the [wait_for] of [_clear]: without a reader the
    attribute lookup fails; otherwise the next outcome of a read of stale
    bytes, stripped.  At the end of the stream [read] returns no bytes. *)
Definition _read : M Conn string :=
  fun s =>
    let (c, l) := s in
    if negb (streams c) then (Raise AttributeError, s)
    else
      match leftovers l with
      | [] => (Raise TimeoutError, s)
      | o :: rest =>
          let s' := (c, {| connects := connects l; replies := replies l;
                           leftovers := rest; wire := wire l |}) in
          match o with
          | Line raw => (Ok (Py.strip raw), s')
          | Timeout => (Raise TimeoutError, s')
          | IncompleteRead => (Ok "", s')
          | Fails e => (Raise e, s')
          end
      end.

(** [Client._readline] under the [wait_for] of [_handle_communication]:
    the next outcome of the stream; a line is stripped and its NUL
    characters removed. *)
Definition _readline : M Conn string :=
  fun s =>
    let (c, l) := s in
    match replies l with
    | [] => (Raise TimeoutError, s)
    | o :: rest =>
        let s' := (c, {| connects := connects l; replies := rest;
                         leftovers := leftovers l; wire := wire l |}) in
        match o with
        | Line raw => (Ok (Py.remove_char NUL (Py.strip raw)), s')
        | Timeout => (Raise TimeoutError, s')
        | IncompleteRead => (Raise IncompleteReadError, s')
        | Fails e => (Raise e, s')
        end
    end.

(** [Client.close] *)
Definition close : M Conn unit :=
  on_client (set_open false).

(** [_connect] of [SerialClient] and of [TcpClient]: close, open the
    streams, mark the client open.  The attempt succeeds when the oracle
    says so. *)
Definition _connect : M Conn unit :=
  close ;;
  fun s =>
    let (c, l) := s in
    match connects l with
    | true :: rest =>
        (Ok tt, (set_open true c,
                 {| connects := rest; replies := replies l;
                    leftovers := leftovers l; wire := wire l |}))
    | false :: rest =>
        (Raise TimeoutError,
         (c, {| connects := rest; replies := replies l;
                leftovers := leftovers l; wire := wire l |}))
    | [] => (Raise TimeoutError, s)
    end.

(** [Client._clear]: one read of stale bytes, whose text is logged; only
    the timeout of the read is swallowed. *)
Definition _clear : M Conn unit :=
  try_except
    (junk <- _read ;;
     ret tt)
    (fun e => match e with TimeoutError => true | _ => false end)
    (ret tt).

(** [Client._handle_communication] *)
Definition _handle_communication (command : string) : M Conn (option string) :=
  try_except
    (_write command ;;
     result <- _readline ;;
     on_client (set_timeouts 0) ;;
     ret (Some result))
    (fun e => match e with
              | TimeoutError | TypeError | OSError _ => true
              | _ => false
              end)
    (n <- attr timeouts ;;
     on_client (set_timeouts (n + 1)) ;;
     n <- attr timeouts ;;
     m <- attr max_timeouts ;;
     (if Z.eqb n m then close else ret tt) ;;
     ret None).

(** [Client._handle_connection] *)
Definition _handle_connection : M Conn unit :=
  o <- attr open ;;
  if o then ret tt
  else
    try_except
      (_connect ;;
       on_client (set_streams true) ;;
       _clear ;;
       on_client (set_reconnecting false))
      (fun e => match e with
                | TimeoutError | OSError _ => true
                | _ => false
                end)
      (on_client (set_reconnecting true)).

(** [Client._write_and_read] *)
Definition _write_and_read (command : string) : M Conn (option string) :=
  _handle_connection ;;
  o <- attr open ;;
  if o then
    try_except
      (response <- _handle_communication command ;;
       ret response)
      (fun e => match e with IncompleteReadError => true | _ => false end)
      (ret None)
  else ret None.

(** *** Notions used in the statements about the client *)

(** The frame that [_write] hands to the writer for a command. *)
Definition frame (c : Client) (command : string) : string :=
  (command ++ eol c)%string.

(** What a line becomes in [_readline]. *)
Definition cleaned (raw : string) : string :=
  Py.remove_char NUL (Py.strip raw).

(** The state of the client after one more failure. *)
Definition after_failure (c : Client) : Client :=
  let c1 := set_timeouts (timeouts c + 1) c in
  if Z.eqb (timeouts c1) (max_timeouts c1) then set_open false c1 else c1.

(** The exception with which a read ends, if it ends with one. *)
Definition failure (o : outcome) : option exn :=
  match o with
  | Line _ => None
  | Timeout => Some TimeoutError
  | IncompleteRead => Some IncompleteReadError
  | Fails e => Some e
  end.

(** The classes named by the [except] clause of [_handle_communication],
    which counts the failure; by the clause of [_write_and_read]; and by the
    clause of [_handle_connection]. *)
Definition counted (e : exn) : bool :=
  match e with TimeoutError | TypeError | OSError _ => true | _ => false end.

Definition ends_stream (e : exn) : bool :=
  match e with IncompleteReadError => true | _ => false end.

Definition refused (e : exn) : bool :=
  match e with TimeoutError | OSError _ => true | _ => false end.

(** The exception that leaves [_write_and_read] when the awaited line is
    the given outcome: the one that neither clause catches. *)
Definition escapes_exchange (o : outcome) : option exn :=
  match failure o with
  | Some e => if counted e || ends_stream e then None else Some e
  | None => None
  end.

(** The exception that leaves [_handle_connection] when [_clear] reads the
    given outcome after a successful connection. *)
Definition escapes_clear (o : outcome) : option exn :=
  match o with
  | Fails e => if refused e then None else Some e
  | _ => None
  end.

(** The next outcome of a list of the oracle; an exhausted list is silence. *)
Definition next (os : list outcome) : outcome := hd Timeout os.



(** The client after a connection attempt that succeeded, [o] being what
    [_clear] read then: the streams are set and the client is open;
    [reconnecting] is cleared when [_clear] returns, set when its read
    ends in an [OSError], and left as it was when another exception
    leaves. *)
Definition reconnected (c : Client) (o : outcome) : Client :=
  let c1 := set_streams true (set_open true (set_open false c)) in
  match o with
  | Fails TimeoutError => set_reconnecting false c1
  | Fails e => if refused e then set_reconnecting true c1 else c1
  | _ => set_reconnecting false c1
  end.

End util.

(** ** [driver.py]: [FlowMeter] and [FlowController] *)

Module driver.

(** A value of the mapping returned by [get]. *)
Inductive value : Type :=
  | VFloat (f : Py.float)
  | VStr (s : string)
  | VNone.

(** A [dict] with string keys, in insertion order. *)
Definition dict : Type := list (string * value).

(** [d[k] = v]: an existing key keeps its place and takes the new value. *)
Fixpoint dict_set (k : string) (v : value) (d : dict) : dict :=
  match d with
  | [] => [(k, v)]
  | (k', v') :: d' =>
      if String.eqb k k' then (k, v) :: d' else (k', v') :: dict_set k v d'
  end.

(** [{k: v for k, v in items}] *)
Definition dict_of (items : list (string * value)) : dict :=
  fold_left (fun d kv => dict_set (fst kv) (snd kv) d) items [].

(** [FlowMeter.gases] *)
Definition gases : list string :=
  ["Air"; "Ar"; "CH4"; "CO"; "CO2"; "C2H6"; "H2"; "He";
   "N2"; "N2O"; "Ne"; "O2"; "C3H8"; "n-C4H10"; "C2H2";
   "C2H4"; "i-C2H10"; "Kr"; "Xe"; "SF6"; "C-25"; "C-10";
   "C-8"; "C-2"; "C-75"; "A-75"; "A-25"; "A1025"; "Star29";
   "P-5"].

(** [FlowController.registers] *)
Definition registers : list (string * Z) :=
  [("mass flow", 37%Z); ("vol flow", 36%Z); ("abs pressure", 34%Z);
   ("gauge pressure", 38%Z); ("diff pressure", 39%Z)].

Fixpoint lookup (k : string) (d : list (string * Z)) : option Z :=
  match d with
  | [] => None
  | (k', v) :: d' => if String.eqb k k' then Some v else lookup k d'
  end.

(** The instance attributes.  [control_point] is the one [FlowController]
    adds; [button_lock] does not exist before the first [get]. *)
Record FlowMeter : Type := mkFlowMeter {
  hw : util.Client;
  unit_id : string;
  keys : list string;
  open : bool;
  firmware : option string;
  button_lock : option bool;
  control_point : option string
}.

Definition baseline_keys : list string :=
  ["pressure"; "temperature"; "volumetric_flow"; "mass_flow";
   "setpoint"; "gas"].

(** [FlowMeter.__init__], [FlowController.__init__] *)
Definition init (address unit : string) : Res FlowMeter :=
  let make c :=
    {| hw := c; unit_id := unit; keys := baseline_keys; open := true;
       firmware := None; button_lock := None; control_point := None |} in
  if Py.startswith address "/dev" || Py.startswith address "COM"
  then Ok (make (util.SerialClient address))
  else match util.TcpClient address with
       | Ok c => Ok (make c)
       | Raise e => Raise e
       end.

Definition set_hw (c : util.Client) (d : FlowMeter) : FlowMeter :=
  {| hw := c; unit_id := unit_id d; keys := keys d; open := open d;
     firmware := firmware d; button_lock := button_lock d;
     control_point := control_point d |}.

Definition set_keys (ks : list string) (d : FlowMeter) : FlowMeter :=
  {| hw := hw d; unit_id := unit_id d; keys := ks; open := open d;
     firmware := firmware d; button_lock := button_lock d;
     control_point := control_point d |}.

Definition set_open (b : bool) (d : FlowMeter) : FlowMeter :=
  {| hw := hw d; unit_id := unit_id d; keys := keys d; open := b;
     firmware := firmware d; button_lock := button_lock d;
     control_point := control_point d |}.

Definition set_firmware (f : option string) (d : FlowMeter) : FlowMeter :=
  {| hw := hw d; unit_id := unit_id d; keys := keys d; open := open d;
     firmware := f; button_lock := button_lock d;
     control_point := control_point d |}.

Definition set_button_lock (b : bool) (d : FlowMeter) : FlowMeter :=
  {| hw := hw d; unit_id := unit_id d; keys := keys d; open := open d;
     firmware := firmware d; button_lock := Some b;
     control_point := control_point d |}.

Definition set_control_point_attr (p : string) (d : FlowMeter) : FlowMeter :=
  {| hw := hw d; unit_id := unit_id d; keys := keys d; open := open d;
     firmware := firmware d; button_lock := button_lock d;
     control_point := Some p |}.

(** A driver object and the other end of its connection. *)
Definition World : Type := FlowMeter * util.Link.

Definition self {A} (f : FlowMeter -> A) : M World A :=
  gets (fun w : World => f (fst w)).

Definition assign (f : FlowMeter -> FlowMeter) : M World unit :=
  modify (fun w : World => (f (fst w), snd w)).

(** [await self.hw.<method>(...)] *)
Definition hw_call {A} (c : M util.Conn A) : M World A :=
  zoom (fun w : World => (hw (fst w), snd w))
       (fun (t : util.Conn) (w : World) => (set_hw (fst t) (fst w), snd t))
       c.

Definition not_open_message (unit : string) : string :=
  "The FlowMeter with unit ID " ++ unit ++
  " and port {self.hw.address} is not open".

(** [FlowMeter._test_controller_open] *)
Definition _test_controller_open : M World unit :=
  o <- self open ;;
  if negb o
  then u <- self unit_id ;; raise (OSError (not_open_message u))
  else ret tt.

(** [FlowMeter.close]: [self.hw.close] is named, not called. *)
Definition close : M World unit :=
  o <- self open ;;
  if negb o then ret tt else assign (set_open false).

Definition is_overrange (tok : string) : bool :=
  Py.mem (Py.upper tok) ["MOV"; "VOV"; "POV"].

Definition is_lock (tok : string) : bool :=
  String.eqb (Py.upper tok) "LCK".

(** [while values[-1].upper() in ['MOV', 'VOV', 'POV']: del values[-1]], on
    the list read from its end.  [None] is the [IndexError] of [values[-1]]
    on an empty list. *)
Fixpoint strip_overrange_rev (rvalues : list string) : option (list string) :=
  match rvalues with
  | [] => None
  | last :: before =>
      if is_overrange last then strip_overrange_rev before else Some rvalues
  end.

Definition strip_overrange (values : list string) : option (list string) :=
  option_map (@rev string) (strip_overrange_rev (rev values)).

(** [if values[-1].upper() == 'LCK': ... del values[-1]]: the lock flag and
    the remaining values. *)
Definition extract_lock (values : list string) : option (bool * list string) :=
  match rev values with
  | [] => None
  | last :: before =>
      if is_lock last then Some (true, rev before) else Some (false, values)
  end.

(** Lines 125-138 of [get]: from the line to the lock flag and the value
    tokens, or the exception raised on the way. *)
Definition decode (unit line : string) : Res (bool * list string) :=
  match Py.split line with
  | [] => Raise IndexError
  | echoed :: values =>
      match strip_overrange values with
      | None => Raise IndexError
      | Some values =>
          if negb (String.eqb echoed unit)
          then Raise (ValueError "Flow controller unit ID mismatch.")
          else match extract_lock values with
               | None => Raise IndexError
               | Some r => Ok r
               end
      end
  end.

(** Lines 139-144 of [get]: the schema after a response of [n] values. *)
Definition adjust_keys (n : nat) (ks : list string) : list string :=
  if ((n =? 5) && (List.length ks =? 6))%nat then Py.del_from_end 2 ks
  else if ((n =? 7) && (List.length ks =? 6))%nat
       then Py.insert 5 "total flow" ks
  else if ((n =? 2) && (List.length ks =? 6))%nat
       then Py.insert 1 "setpoint" ks
  else ks.

(** [float(v) if self._is_float(v) else v] *)
Definition coerce (v : string) : value :=
  match Py.float_of_str v with
  | Some f => VFloat f
  | None => VStr v
  end.

(** [FlowMeter.get] *)
Definition get : M World dict :=
  _test_controller_open ;;
  command <- self unit_id ;;
  line <- hw_call (util._write_and_read command) ;;
  match line with
  | None => raise AttributeError
  | Some line =>
      unit <- self unit_id ;;
      match decode unit line with
      | Raise e => raise e
      | Ok (lck, values) =>
          assign (set_button_lock lck) ;;
          ks <- self keys ;;
          assign (set_keys (adjust_keys (List.length values) ks)) ;;
          ks <- self keys ;;
          ret (dict_of (combine ks (map coerce values)))
      end
  end.

(** [FlowMeter.is_locked]; the attribute exists once [get] has returned. *)
Definition is_locked : M World bool :=
  get ;;
  b <- self button_lock ;;
  match b with
  | Some b => ret b
  | None => raise AttributeError
  end.

(** [FlowMeter.get_firmware] *)
Definition get_firmware : M World (option string) :=
  f <- self firmware ;;
  match f with
  | None =>
      _test_controller_open ;;
      u <- self unit_id ;;
      r <- hw_call (util._write_and_read (u ++ "VE")) ;;
      assign (set_firmware r) ;;
      self firmware
  | Some _ => self firmware
  end.

(** The argument of [set_gas]: a name or a number. *)
Inductive gas_arg : Type :=
  | GasName (name : string)
  | GasNumber (n : Z).

(** [FlowMeter.set_gas].  The read-back command is the literal of the
    source, whose [f] stands inside the quotes. *)
Definition set_gas (gas : gas_arg) : M World unit :=
  _test_controller_open ;;
  gas_number <-
    match gas with
    | GasName g =>
        if negb (Py.mem g gases)
        then raise (ValueError (g ++ " not supported!"))
        else match Py.index g gases with
             | Some i => ret i
             | None => raise (ValueError "list.index(x): x not in list")
             end
    | GasNumber n => ret n
    end ;;
  u <- self unit_id ;;
  hw_call (util._write_and_read (u ++ "$$W46=" ++ Py.str_of_int gas_number)) ;;
  reg46 <- hw_call (util._write_and_read "f{self.unit}$$R46") ;;
  match reg46 with
  | None => raise AttributeError
  | Some reg46 =>
      match Py.last_opt (Py.split reg46) with
      | None => raise IndexError
      | Some tok =>
          match Py.int_of_str tok with
          | None => raise (ValueError "invalid literal for int() with base 10")
          | Some v =>
              let reg46_gasbit := Z.land v 511 in
              if negb (Z.eqb gas_number reg46_gasbit)
              then raise (OSError "Cannot set gas.")
              else ret tt
          end
      end
  end.

(** [' '.join(parts)] *)
Definition join_spaces (parts : list string) : string :=
  String.concat " " parts.

(** The text of the mix command; every gas is in the table when it is
    built, so the default index is never used. *)
Definition mix_command (unit name : string) (mix_no : Z)
    (mix : list (string * Z)) : string :=
  let gas_list :=
    join_spaces
      (map (fun gp : string * Z =>
              join_spaces
                [Py.str_of_int (snd gp);
                 Py.str_of_int (match Py.index (fst gp) gases with
                                | Some i => i
                                | None => 0%Z
                                end)])
           mix) in
  join_spaces [unit; "GM"; name; Py.str_of_int mix_no; gas_list].

(** [FlowMeter.create_mix]; the percentages are Python [int]s. *)
Definition create_mix (mix_no : Z) (name : string) (mix : list (string * Z))
  : M World unit :=
  _test_controller_open ;;
  fw <- get_firmware ;;
  match fw with
  | None => raise TypeError
  | Some fw =>
      if existsb (fun v => Py.contains v fw) ["2v"; "3v"; "4v"; "GP"]
      then raise (OSError "This unit does not support COMPOSER gas mixes.")
      else if (mix_no <? 236)%Z || (mix_no >? 255)%Z
      then raise (ValueError "Mix number must be between 236-255!")
      else
        let total_percent := fold_left Z.add (map snd mix) 0%Z in
        if negb (Z.eqb total_percent 100)
        then raise (ValueError "Percentages of gas mix must add to 100%!")
        else if existsb (fun gp : string * Z => negb (Py.mem (fst gp) gases)) mix
        then raise (ValueError "Gas not supported!")
        else
          u <- self unit_id ;;
          line <- hw_call (util._write_and_read (mix_command u name mix_no mix)) ;;
          match line with
          | Some "?" => raise (OSError "Unable to create mix.")
          | _ => ret tt
          end
  end.

(** [FlowController.get] *)
Definition controller_get : M World dict :=
  state <- get ;;
  cp <- self control_point ;;
  ret (dict_set "control_point"
         (match cp with Some p => VStr p | None => VNone end) state).

(** The literal [0.01]. *)
Definition tolerance : Py.float := Py.of_decimal false 1 (-2).

(** [FlowController._set_setpoint].  The setpoint is a [float]; an [int]
    argument such as the [0] of [set_pressure] formats and subtracts as the
    float of the same value. *)
Definition _set_setpoint (setpoint : Py.float) : M World unit :=
  _test_controller_open ;;
  u <- self unit_id ;;
  line <- hw_call (util._write_and_read (u ++ "S" ++ Py.format_2f setpoint)) ;;
  match line with
  | None => raise AttributeError
  | Some line =>
      current <-
        match nth_error (Py.split line) 5 with
        | None => ret None
        | Some tok =>
            match Py.float_of_str tok with
            | Some c => ret (Some c)
            | None => raise (ValueError "could not convert string to float")
            end
        end ;;
      match current with
      | Some c =>
          if Py.fgt (Py.fabs (Py.fsub c setpoint)) tolerance
          then raise (OSError "Could not set setpoint.")
          else ret tt
      | None => ret tt
      end
  end.

(** [FlowController._set_control_point] *)
Definition _set_control_point (point : string) : M World unit :=
  match lookup point registers with
  | None => raise (ValueError "Control point must be 'flow' or 'pressure'.")
  | Some reg =>
      u <- self unit_id ;;
      line <- hw_call (util._write_and_read (u ++ "W122=" ++ Py.str_of_int reg)) ;;
      match line with
      | None => raise AttributeError
      | Some line =>
          match Py.last_opt (Py.split_on "=" line) with
          | None => raise IndexError
          | Some tok =>
              match Py.int_of_str tok with
              | None => raise (ValueError "invalid literal for int() with base 10")
              | Some v =>
                  if negb (Z.eqb v reg)
                  then raise (OSError "Could not set control point.")
                  else assign (set_control_point_attr point)
              end
          end
      end
  end.

Definition zero : Py.float := S754_zero false.

Definition cp_in (cp : option string) (l : list string) : bool :=
  match cp with
  | Some p => Py.mem p l
  | None => false
  end.

(** [FlowController.set_flow_rate] *)
Definition set_flow_rate (flowrate : Py.float) : M World unit :=
  cp <- self control_point ;;
  (if cp_in cp ["abs pressure"; "gauge pressure"; "diff pressure"]
   then _set_setpoint zero ;; _set_control_point "mass flow"
   else ret tt) ;;
  _set_setpoint flowrate.

(** [FlowController.set_pressure] *)
Definition set_pressure (pressure : Py.float) : M World unit :=
  cp <- self control_point ;;
  (if cp_in cp ["mass flow"; "vol flow"]
   then _set_setpoint zero ;; _set_control_point "abs pressure"
   else ret tt) ;;
  _set_setpoint pressure.

(** *** Notions used in the statements about the driver *)

(** What a call leaves of the object apart from its client. *)
Definition same_object (d d' : FlowMeter) : Prop :=
  d' = set_hw (hw d') d /\ util.eol (hw d') = util.eol (hw d).

(** The frames written by a call: [sent] extends the wire, is a prefix of
    the frames of [commands], and is all of them when the call returns. *)
Definition writes {A} (c : M World A) (commands : string -> list string)
  : Prop :=
  forall w : World,
    exists sent : list string,
      util.wire (snd (snd (c w))) = util.wire (snd w) ++ sent /\
      (exists rest,
          map (util.frame (hw (fst w))) (commands (unit_id (fst w))) = sent ++ rest) /\
      (forall a, fst (c w) = Ok a ->
          sent = map (util.frame (hw (fst w))) (commands (unit_id (fst w)))) /\
      unit_id (fst (snd (c w))) = unit_id (fst w) /\
      util.eol (hw (fst (snd (c w)))) = util.eol (hw (fst w)).

(** The text of the setpoint command. *)
Definition setpoint_command (unit : string) (setpoint : Py.float) : string :=
  unit ++ "S" ++ Py.format_2f setpoint.

(** What [_set_setpoint] does with the answer to its command: the lines
    after the exchange. *)
Definition check_setpoint (line : option string) (setpoint : Py.float)
  : Res unit :=
  match line with
  | None => Raise AttributeError
  | Some line =>
      match nth_error (Py.split line) 5 with
      | None => Ok tt
      | Some tok =>
          match Py.float_of_str tok with
          | None => Raise (ValueError "could not convert string to float")
          | Some c =>
              if Py.fgt (Py.fabs (Py.fsub c setpoint)) tolerance
              then Raise (OSError "Could not set setpoint.")
              else Ok tt
          end
      end
  end.

(** The text of the command that writes register 122. *)
Definition register_command (unit : string) (reg : Z) : string :=
  unit ++ "W122=" ++ Py.str_of_int reg.

(** What [_set_control_point] does with the answer to its command. *)
Definition check_register (line : option string) (reg : Z) : Res unit :=
  match line with
  | None => Raise AttributeError
  | Some line =>
      match Py.last_opt (Py.split_on "=" line) with
      | None => Raise IndexError
      | Some tok =>
          match Py.int_of_str tok with
          | None => Raise (ValueError "invalid literal for int() with base 10")
          | Some v =>
              if negb (Z.eqb v reg)
              then Raise (OSError "Could not set control point.")
              else Ok tt
          end
      end
  end.

(** What [get] takes off the end of an answer: the overrange markers that
    end it and, before them, at most one lock token.  Without a lock token
    the last value is neither a marker nor a lock token; with one, no
    condition bears on the values before it. *)
Definition stripped_tail (values lock_tok markers : list string) : Prop :=
  Forall (fun t => is_overrange t = true) markers /\
  ((exists t, lock_tok = [t] /\ is_lock t = true) \/
   (lock_tok = [] /\
    exists v, Py.last_opt values = Some v /\
              is_overrange v = false /\ is_lock v = false)).

(** The firmware test of [create_mix]. *)
Definition unsupported_firmware (fw : string) : bool :=
  existsb (fun v => Py.contains v fw) ["2v"; "3v"; "4v"; "GP"].

End driver.

(** ** Sessions and devices used in the examples *)

Module scenarios.
Import util driver.

(** The client of a session on [/dev/ttyUSB0], connected. *)
Definition connected : Client :=
  set_streams true (util.set_open true (SerialClient "/dev/ttyUSB0")).

(** A session for unit [A] as [__init__] leaves it, with the given cached
    control point, over a connected client. *)
Definition session (cp : option string) : FlowMeter :=
  {| hw := connected; unit_id := "A"; keys := baseline_keys; open := true;
     firmware := None; button_lock := None; control_point := cp |}.

(** A device that answers the next commands with the given lines. *)
Definition answering (lines : list string) : Link :=
  {| connects := []; replies := map Line lines; leftovers := [];
     wire := [] |}.

(** 14.5 *)
Definition p14_5 : Py.float := Py.of_decimal false 145 (-1).

(** A controller in mass-flow mode that confirms a zero setpoint, the
    switch of register 122 to 34 and a setpoint of 14.50. *)
Definition flow_mode_world : World :=
  (session (Some "mass flow"),
   answering ["A +014.70 +025.00 +00.000 +00.000 0.00 Air";
              "A   122 = 34";
              "A +014.70 +025.00 +00.000 +00.000 14.50 Air"]).

(** A controller in gauge-pressure mode that confirms a setpoint of 14.50. *)
Definition pressure_mode_world : World :=
  (session (Some "gauge pressure"),
   answering ["A +014.70 +025.00 +00.000 +00.000 14.50 Air"]).

(** [n] exchanges in a row, whatever they return: a caller that keeps
    polling until an exchange raises. *)
Fixpoint exchanges (n : nat) (command : string) : M Conn unit :=
  match n with
  | O => ret tt
  | S k => _write_and_read command ;; exchanges k command
  end.

(** A device that lets the next [n] exchanges time out, then is silent and
    unreachable. *)
Definition silent (n : nat) : Link :=
  {| connects := []; replies := repeat Timeout n; leftovers := [];
     wire := [] |}.

(** A fresh session that has polled a silent device ten times. *)
Definition after_ten_timeouts : World :=
  snd (hw_call (exchanges 10 "A") (session None, silent 10)).

(** A fresh session that has polled ten times a device that then becomes
    reachable again and answers. *)
Definition after_ten_timeouts_reachable : World :=
  snd (hw_call (exchanges 10 "A")
         (session None,
          {| connects := [true];
             replies := repeat Timeout 10 ++ [Line "A 14.2 25.1 2.502 2.499 A"];
             leftovers := []; wire := [] |})).

(** The binary64 values nearest to 14.2, 25.1, 2.502 and 2.499, as mantissa
    and binary exponent ([float.hex]: 0x1.c666666666666p+3,
    0x1.919999999999ap+4, 0x1.404189374bc6ap+1, 0x1.3fdf3b645a1cbp+1). *)
Definition f14_2 : Py.float := S754_finite false 7993889338582630 (-49).
Definition f25_1 : Py.float := S754_finite false 7065021915437466 (-48).
Definition f2_502 : Py.float := S754_finite false 5634003133840490 (-51).
Definition f2_499 : Py.float := S754_finite false 5627247734399435 (-51).

(** The end-to-end scenario of a meter without setpoint. *)
Definition five_token_world : World :=
  (session None, answering ["A 14.2 25.1 2.502 2.499 A"]).

(** The end-to-end scenario of a locked front panel. *)
Definition locked_world : World :=
  (session None, answering ["A 14.2 25.1 2.502 2.499 LCK"]).

(** Another unit answers, with its identifier alone. *)
Definition wrong_unit_world : World :=
  (session None, answering ["B"]).

(** Another unit answers, in overrange. *)
Definition wrong_unit_overrange_world : World :=
  (session None, answering ["B MOV"]).

(** Another unit answers with a data frame. *)
Definition wrong_unit_frame_world : World :=
  (session None, answering ["B 14.2 25.1 2.502 2.499 A"]).

(** The device does not answer the next command. *)
Definition unanswered_world : World := (session None, silent 1).

(** The locked scenario in lower case, followed by stacked overrange
    markers in mixed case. *)
Definition stacked_markers_world : World :=
  (session None, answering ["A 14.2 25.1 2.502 2.499 lck MOV vov Pov"]).

(** A meter answer without setpoint followed by a controller answer. *)
Definition meter_then_controller_world : World :=
  (session None,
   answering ["A 14.2 25.1 2.502 2.499 A";
              "A 14.2 25.1 2.502 2.499 2.500 A"]).

(** 5.0, 1.0 and a NaN *)
Definition f5 : Py.float := Py.of_decimal false 5 0.
Definition f1 : Py.float := Py.of_decimal false 1 0.

(** A controller that echoes a frame of four values to the next command:
    the answer has no token at position 5. *)
Definition short_echo_world : World :=
  (session None, answering ["A +014.70 +025.00 +00.000 +00.000"]).

(** A controller whose echoed setpoint is not a number. *)
Definition nan_echo_world : World :=
  (session None, answering ["A +014.70 +025.00 +00.000 +00.000 nan Air"]).

(** A controller that echoes the given setpoint text. *)
Definition echo_world (setpoint : string) : World :=
  (session None,
   answering
     [("A +014.70 +025.00 +00.000 +00.000 " ++ setpoint ++ " Air")%string]).

(** A session whose firmware is not cached yet, on a device that reports
    firmware 5v12 and then accepts a mix. *)
Definition mix_world : World :=
  (session None, answering ["5v12.0"; "A 240 mix"]).

(** A unit that acknowledges the gas write and reads back register 46 as
    the given text. *)
Definition gas_world (unit readback : string) : World :=
  ({| hw := connected; unit_id := unit; keys := baseline_keys; open := true;
      firmware := None; button_lock := None; control_point := None |},
   answering [(unit ++ "   046 = 8")%string; readback]).

(** Half nitrogen, half argon. *)
Definition n2_ar : list (string * Z) := [("N2", 50%Z); ("Ar", 50%Z)].

(** [mix_world] after the firmware query. *)
Definition mix_world_queried : World := snd (get_firmware mix_world).

(** An overrange marker placed before the lock token. *)
Definition marker_before_lock_world : World :=
  (session None, answering ["A 14.2 25.1 MOV LCK"]).

(** A marker before the lock token and another after it. *)
Definition marker_around_lock_world : World :=
  (session None, answering ["A 14.2 MOV LCK POV"]).

(** The lock token twice. *)
Definition double_lock_world : World :=
  (session None, answering ["A 14.2 25.1 2.502 2.499 LCK LCK"]).

End scenarios.

(** ** [driver.py]: the remaining methods *)

Module driver_rest.
Import util driver.

(** [l[i]] for a Python [int] index: a negative index counts from the end;
    [None] is the [IndexError] outside [-len .. len-1]. *)
Definition py_nth {A} (l : list A) (i : Z) : option A :=
  let n := Z.of_nat (List.length l) in
  if (0 <=? i)%Z then nth_error l (Z.to_nat i)
  else if (- n <=? i)%Z then nth_error l (Z.to_nat (n + i))
  else None.

(** [FlowMeter.delete_mix]; the slot is a Python [int]. *)
Definition delete_mix (mix_no : Z) : M World unit :=
  _test_controller_open ;;
  u <- self unit_id ;;
  line <- hw_call (_write_and_read (u ++ "GD" ++ Py.str_of_int mix_no)) ;;
  match line with
  | Some l => if String.eqb l "?"
              then raise (OSError "Unable to delete mix.")
              else ret tt
  | None => ret tt
  end.

(** [FlowMeter.lock] *)
Definition lock : M World unit :=
  _test_controller_open ;;
  u <- self unit_id ;;
  hw_call (_write_and_read (u ++ "$$L")) ;;
  ret tt.

(** [FlowMeter.unlock] *)
Definition unlock : M World unit :=
  _test_controller_open ;;
  u <- self unit_id ;;
  hw_call (_write_and_read (u ++ "$$U")) ;;
  ret tt.

(** [FlowMeter.tare_pressure] *)
Definition tare_pressure : M World unit :=
  _test_controller_open ;;
  u <- self unit_id ;;
  line <- hw_call (_write_and_read (u ++ "$$PC")) ;;
  match line with
  | Some l => if String.eqb l "?"
              then raise (OSError "Unable to tare pressure.")
              else ret tt
  | None => ret tt
  end.

(** [FlowMeter.tare_volumetric] *)
Definition tare_volumetric : M World unit :=
  _test_controller_open ;;
  u <- self unit_id ;;
  line <- hw_call (_write_and_read (u ++ "$$V")) ;;
  match line with
  | Some l => if String.eqb l "?"
              then raise (OSError "Unable to tare flow.")
              else ret tt
  | None => ret tt
  end.

(** [FlowMeter.reset_totalizer] *)
Definition reset_totalizer : M World unit :=
  _test_controller_open ;;
  u <- self unit_id ;;
  hw_call (_write_and_read (u ++ "T")) ;;
  ret tt.

(** [FlowMeter.flush] *)
Definition flush : M World unit :=
  _test_controller_open ;;
  hw_call _clear.

(** [FlowController.hold] *)
Definition hold : M World unit :=
  _test_controller_open ;;
  u <- self unit_id ;;
  hw_call (_write_and_read (u ++ "$$H")) ;;
  ret tt.

(** [FlowController.cancel_hold] *)
Definition cancel_hold : M World unit :=
  _test_controller_open ;;
  u <- self unit_id ;;
  hw_call (_write_and_read (u ++ "$$C")) ;;
  ret tt.

(** [self.pid_keys] of [get_pid] *)
Definition pid_keys : list string := ["loop_type"; "P"; "D"; "I"].

(** The lookup list of [get_pid]. *)
Definition loop_types : list string := ["PD/PDF"; "PD/PDF"; "PD2I"].

(** The body of [for register in range(21, 24)] over the registers that
    are left, [pid_values] being the list built so far. *)
Fixpoint read_gains (registers : list Z) (pid_values : list string)
  : M World (list string) :=
  match registers with
  | [] => ret pid_values
  | register :: rest =>
      u <- self unit_id ;;
      value <- hw_call (_write_and_read (u ++ "$$r" ++ Py.str_of_int register)) ;;
      match value with
      | None => raise AttributeError
      | Some value =>
          match nth_error (Py.split value) 3 with
          | None => raise IndexError
          | Some tok => read_gains rest (pid_values ++ [tok])
          end
      end
  end.

(** [FlowController.get_pid]; every value of the mapping is a string. *)
Definition get_pid : M World dict :=
  _test_controller_open ;;
  u <- self unit_id ;;
  read_loop_type <- hw_call (_write_and_read (u ++ "$$r85")) ;;
  match read_loop_type with
  | None => raise AttributeError
  | Some read_loop_type =>
      match nth_error (Py.split read_loop_type) 3 with
      | None => raise IndexError
      | Some tok =>
          match Py.int_of_str tok with
          | None => raise (ValueError "invalid literal for int() with base 10")
          | Some loopnum =>
              match py_nth loop_types loopnum with
              | None => raise IndexError
              | Some loop_type =>
                  pid_values <- read_gains [21; 22; 23]%Z [loop_type] ;;
                  ret (dict_of (combine pid_keys (map VStr pid_values)))
              end
          end
      end
  end.

(** The options of [set_pid]. *)
Definition loop_options : list string := ["PD/PDF"; "PD2I"].

(** [FlowController.set_pid]; the gains are Python [int]s, an absent
    argument is [None]. *)
Definition set_pid (p i d : option Z) (loop_type : option string)
  : M World unit :=
  _test_controller_open ;;
  match loop_type with
  | Some lt =>
      if negb (Py.mem lt loop_options)
      then raise (ValueError "Loop type must be PD/PDF or PD2I.")
      else
        match Py.index lt loop_options with
        | None => raise (ValueError "list.index(x): x not in list")
        | Some n =>
            let loop_num := (n + 1)%Z in
            u <- self unit_id ;;
            hw_call (_write_and_read (u ++ "$$w85=" ++ Py.str_of_int loop_num)) ;;
            ret tt
        end
  | None => ret tt
  end ;;
  match p with
  | Some p =>
      u <- self unit_id ;;
      hw_call (_write_and_read (u ++ "$$w21=" ++ Py.str_of_int p)) ;; ret tt
  | None => ret tt
  end ;;
  match i with
  | Some i =>
      u <- self unit_id ;;
      hw_call (_write_and_read (u ++ "$$w23=" ++ Py.str_of_int i)) ;; ret tt
  | None => ret tt
  end ;;
  match d with
  | Some d =>
      u <- self unit_id ;;
      hw_call (_write_and_read (u ++ "$$w22=" ++ Py.str_of_int d)) ;; ret tt
  | None => ret tt
  end.

(** [options.index(loop_type) + 1]: the number that [set_pid] writes to
    register 85 for a loop type of its options. *)
Definition loop_number (loop_type : string) : option Z :=
  match Py.index loop_type loop_options with
  | Some n => Some (n + 1)%Z
  | None => None
  end.

(** [next(p for p, r in self.registers.items() if value == r)]; [None] is
    [StopIteration]. *)
Fixpoint register_name (value : Z) (table : list (string * Z))
  : option string :=
  match table with
  | [] => None
  | (p, r) :: rest => if Z.eqb value r then Some p else register_name value rest
  end.

(** [FlowController._get_control_point]; the result [None] is Python's. *)
Definition _get_control_point : M World (option string) :=
  u <- self unit_id ;;
  line <- hw_call (_write_and_read (u ++ "R122")) ;;
  match line with
  | None => ret None
  | Some line =>
      if Py.is_empty line then ret None
      else
        match Py.last_opt (Py.split_on "=" line) with
        | None => raise IndexError
        | Some tok =>
            match Py.int_of_str tok with
            | None => raise (ValueError "invalid literal for int() with base 10")
            | Some value =>
                match register_name value registers with
                | Some p => ret (Some p)
                | None =>
                    raise (ValueError ("Unexpected register value: " ++
                                       Py.str_of_int value))
                end
            end
        end
  end.

(** The two classes [is_connected] is called on. *)
Inductive driver_class : Type :=
  | FlowMeterClass
  | FlowControllerClass.

(** ['setpoint' in device.keys] *)
Definition has_setpoint (d : FlowMeter) : bool := Py.mem "setpoint" (keys d).

(** [is_connected] as a class method: the object is built, read once and
    closed; every exception ends in [False].  What remains is the other end
    of the connection. *)
Definition is_connected (cls : driver_class) (port unit : string)
    (l : Link) : bool * Link :=
  match init port unit with
  | Raise _ => (false, l)
  | Ok device =>
      let (c, w) :=
        match cls with
        | FlowMeterClass => get (device, l)
        | FlowControllerClass => controller_get (device, l)
        end in
      let is_device :=
        match c with
        | Ok c =>
            negb (match c with [] => true | _ => false end) &&
            match cls with
            | FlowMeterClass => negb (has_setpoint (fst w))
            | FlowControllerClass => has_setpoint (fst w)
            end
        | Raise _ => false
        end in
      (is_device, snd (snd (close w)))
  end.

(** [util._is_float], [FlowMeter._is_float] *)
Definition _is_float (msg : string) : bool :=
  match Py.float_of_str msg with Some _ => true | None => false end.

(** The number of occurrences of a character. *)
Fixpoint count_char (c : ascii) (s : string) : nat :=
  match s with
  | EmptyString => O
  | String d s' => if Ascii.eqb d c then S (count_char c s') else count_char c s'
  end.

(** A device that answers when asked and accepts connections. *)
Definition reachable (lines : list string) : Link :=
  {| connects := [true]; replies := map Line lines; leftovers := [];
     wire := [] |}.

(** The register reads of [get_pid] after the loop type. *)
Definition gain_commands (unit : string) (registers : list Z) : list string :=
  map (fun r => (unit ++ "$$r" ++ Py.str_of_int r)%string) registers.

(** Text without a character that [blank] accepts. *)
Definition solid (blank : ascii -> bool) (s : string) : Prop :=
  Forall (fun c => blank c = false) (list_ascii_of_string s).

(** Commands sent one after the other without a look at the answers; an
    exception that leaves an exchange ends the sequence. *)
Fixpoint send_all (commands : list string) : M World unit :=
  match commands with
  | [] => ret tt
  | command :: rest => hw_call (_write_and_read command) ;; send_all rest
  end.

(** The register writes of [set_pid], in the order of the source. *)
Definition pid_commands (unit : string) (p i d : option Z)
    (loop_num : option Z) : list string :=
  let write (register : string) (v : option Z) : list string :=
    match v with
    | Some v => [(unit ++ "$$w" ++ register ++ "=" ++ Py.str_of_int v)%string]
    | None => []
    end in
  write "85" loop_num ++ write "21" p ++ write "23" i ++ write "22" d.

(** [n] calls of [get] in a row by a caller that goes on after an
    exception. *)
Fixpoint polls (n : nat) (w : World) : World :=
  match n with
  | O => w
  | S k => polls k (snd (get w))
  end.

(** A device that answers the read of register 122 with the separator FS
    (code 28) before the code. *)
Definition separator_world : World :=
  (scenarios.session None,
   scenarios.answering [("A 122 =" ++ String "028" "38")%string]).

(** A device whose next answer is not UTF-8. *)
Definition garbled_world : World :=
  (scenarios.session None,
   {| connects := []; replies := [Fails UnicodeDecodeError];
      leftovers := []; wire := [] |}).

(** A session that [FlowMeter.close] has closed, on a device that would
    answer. *)
Definition closed_world : World :=
  (driver.set_open false (scenarios.session (Some "mass flow")),
   scenarios.answering ["A 14.2 25.1 2.502 2.499 2.500 A"]).


(** A controller in gauge-pressure mode that confirms a zero setpoint, the
    switch of register 122 to 37 and a setpoint of 14.50. *)
Definition to_flow_world : World :=
  (scenarios.session (Some "gauge pressure"),
   scenarios.answering ["A +014.70 +025.00 +00.000 +00.000 0.00 Air";
                        "A   122 = 37";
                        "A +014.70 +025.00 +00.000 +00.000 14.50 Air"]).


(** A controller that answers the four register reads of [get_pid]. *)
Definition pid_world : World :=
  (scenarios.session None,
   scenarios.answering ["A   085 = 2"; "A   021 = 100"; "A   022 = 5";
                        "A   023 = 7"]).


(** [d.get(k)] *)
Fixpoint dict_get (k : string) (d : dict) : option value :=
  match d with
  | [] => None
  | (k', v) :: d' => if String.eqb k k' then Some v else dict_get k d'
  end.

(** The value that [FlowController.get] stores for a cached control point. *)
Definition control_point_value (cp : option string) : value :=
  match cp with Some p => VStr p | None => VNone end.


End driver_rest.


(** ** Properties of the client *)

Module util_facts.
Import util.

Ltac case_ifs :=
  repeat match goal with
         | |- context [if ?b then _ else _] => destruct b eqn:?; cbn
         end.

(** An exchange on an open client that is answered by a line. *)
Lemma communication_line (command raw : string) (c : Client) (l : Link)
    (rest : list outcome) :
  replies l = Line raw :: rest ->
  _handle_communication command (c, l) =
    (Ok (Some (cleaned raw)),
     (set_timeouts 0 c,
      {| connects := connects l; replies := rest;
         leftovers := leftovers l;
         wire := wire l ++ [frame c command] |})).
Proof.
  intros Hr. unfold _handle_communication, try_except, bind, _write, attr,
    gets, on_link, on_client, modify, _readline, ret; cbn.
  rewrite Hr. reflexivity.
Qed.

(** An exchange on an open client that is not answered in time. *)
Lemma communication_timeout (command : string) (c : Client) (l : Link) :
  (replies l = [] \/ exists rest, replies l = Timeout :: rest) ->
  _handle_communication command (c, l) =
    (Ok None,
     (after_failure c,
      {| connects := connects l; replies := tl (replies l);
         leftovers := leftovers l;
         wire := wire l ++ [frame c command] |})).
Proof.
  intros [Hr | [rest Hr]];
    unfold _handle_communication, try_except, bind, _write, attr,
      gets, on_link, on_client, modify, _readline, ret, after_failure, close;
    cbn; rewrite Hr; cbn;
    destruct (Z.eqb (timeouts c + 1) (max_timeouts c)); reflexivity.
Qed.

(** An exchange on an open client whose read fails: a failure of the
    classes of the [except] clause is counted, any other leaves. *)
Lemma communication_failure (command : string) (e : exn) (c : Client)
    (l : Link) (rest : list outcome) :
  replies l = Fails e :: rest ->
  _handle_communication command (c, l) =
    (if counted e then Ok None else Raise e,
     (if counted e then after_failure c else c,
      {| connects := connects l; replies := rest;
         leftovers := leftovers l;
         wire := wire l ++ [frame c command] |})).
Proof.
  intros Hr.
  unfold _handle_communication, try_except, bind, _write, attr,
    gets, on_link, on_client, modify, _readline, ret, after_failure, close;
    cbn; rewrite Hr; cbn.
  destruct e; cbn; try reflexivity;
    destruct (Z.eqb (timeouts c + 1) (max_timeouts c)); reflexivity.
Qed.

(** [_write_and_read] on an open client is the exchange itself, with the
    early end of the stream turned into [None]. *)
Lemma write_and_read_open (command : string) (c : Client) (l : Link) :
  open c = true ->
  _write_and_read command (c, l) =
    match replies l with
    | Line raw :: rest =>
        (Ok (Some (cleaned raw)),
         (set_timeouts 0 c,
          {| connects := connects l; replies := rest;
             leftovers := leftovers l;
             wire := wire l ++ [frame c command] |}))
    | IncompleteRead :: rest =>
        (Ok None,
         (c, {| connects := connects l; replies := rest;
                leftovers := leftovers l;
                wire := wire l ++ [frame c command] |}))
    | Fails e :: rest =>
        (if counted e || ends_stream e then Ok None else Raise e,
         (if counted e then after_failure c else c,
          {| connects := connects l; replies := rest;
             leftovers := leftovers l;
             wire := wire l ++ [frame c command] |}))
    | _ =>
        (Ok None,
         (after_failure c,
          {| connects := connects l; replies := tl (replies l);
             leftovers := leftovers l;
             wire := wire l ++ [frame c command] |}))
    end.
Proof.
  intros Ho.
  unfold _write_and_read, _handle_connection, bind, attr, gets; cbn.
  rewrite Ho; cbn. rewrite Ho.
  destruct (replies l) as [|[raw | | | e] rest] eqn:Hr.
  - unfold try_except, bind.
    rewrite communication_timeout by (left; exact Hr). rewrite Hr. reflexivity.
  - unfold try_except, bind.
    rewrite (communication_line command raw c l rest Hr). reflexivity.
  - unfold try_except, bind.
    rewrite communication_timeout by (right; eauto). rewrite Hr. reflexivity.
  - unfold try_except, bind, _handle_communication, try_except, bind, _write,
      attr, gets, on_link, on_client, modify, _readline, ret; cbn.
    rewrite Hr. reflexivity.
  - unfold try_except, bind.
    rewrite (communication_failure command e c l rest Hr).
    destruct e; reflexivity.
Qed.

(** A closed client whose connection attempt fails returns [None] and
    writes nothing. *)
Lemma write_and_read_unreachable (command : string) (c : Client) (l : Link) :
  open c = false ->
  (connects l = [] \/ exists cs, connects l = false :: cs) ->
  _write_and_read command (c, l) =
    (Ok None,
     (set_reconnecting true (set_open false c),
      {| connects := tl (connects l); replies := replies l;
         leftovers := leftovers l;
         wire := wire l |})).
Proof.
  intros Ho Hc.
  unfold _write_and_read, _handle_connection, bind, attr, gets; cbn.
  rewrite Ho.
  unfold try_except, bind, _connect, bind, close, on_client, modify; cbn.
  destruct Hc as [Hc | [cs Hc]]; rewrite Hc; cbn.
  - destruct l; cbn in *; subst; reflexivity.
  - reflexivity.
Qed.

Lemma handle_connection_open (c : Client) (l : Link) :
  open c = true -> _handle_connection (c, l) = (Ok tt, (c, l)).
Proof.
  intros Ho. unfold _handle_connection, bind, attr, gets, ret. cbn [fst].
  rewrite Ho. reflexivity.
Qed.

(** A closed client whose connection attempt succeeds: the streams are
    set, stale bytes are read once, and only an exception of that read
    that is neither a timeout nor an [OSError] leaves. *)
Lemma handle_connection_connects (c : Client) (l : Link) (cs : list bool) :
  open c = false ->
  connects l = true :: cs ->
  _handle_connection (c, l) =
    (match escapes_clear (next (leftovers l)) with
     | Some e => Raise e
     | None => Ok tt
     end,
     (reconnected c (next (leftovers l)),
      {| connects := cs; replies := replies l;
         leftovers := tl (leftovers l); wire := wire l |})).
Proof.
  intros Ho Hc.
  unfold _handle_connection, bind, attr, gets; cbn.
  rewrite Ho.
  unfold try_except, bind, _connect, bind, close, on_client, modify, _clear,
    try_except, bind, _read, ret; cbn.
  rewrite Hc; cbn.
  destruct l as [cn rp lo wr]; cbn in *.
  destruct lo as [|[raw | | | e] lo]; try reflexivity.
  destruct e; reflexivity.
Qed.

(** A closed client reconnects before the exchange when the attempt
    succeeds, unless the read of stale bytes lets an exception leave. *)
Lemma write_and_read_reconnect (command : string) (c : Client) (l : Link)
    (cs : list bool) :
  open c = false ->
  connects l = true :: cs ->
  _write_and_read command (c, l) =
    let s1 := (reconnected c (next (leftovers l)),
               {| connects := cs; replies := replies l;
                  leftovers := tl (leftovers l); wire := wire l |}) in
    match escapes_clear (next (leftovers l)) with
    | Some e => (Raise e, s1)
    | None => _write_and_read command s1
    end.
Proof.
  intros Ho Hc. cbv zeta.
  assert (Hopen : open (reconnected c (next (leftovers l))) = true).
  { unfold reconnected. destruct (next (leftovers l)) as [raw | | | e];
      try reflexivity. destruct e; reflexivity. }
  unfold _write_and_read. unfold bind at 1 3.
  rewrite (handle_connection_connects c l cs Ho Hc).
  destruct (escapes_clear (next (leftovers l))) as [e|]; [reflexivity|].
  symmetry. unfold bind at 1.
  rewrite handle_connection_open by exact Hopen. reflexivity.
Qed.

Lemma reconnected_attrs (c : Client) (o : outcome) :
  open (reconnected c o) = true /\
  streams (reconnected c o) = true /\
  timeouts (reconnected c o) = timeouts c /\
  max_timeouts (reconnected c o) = max_timeouts c /\
  eol (reconnected c o) = eol c /\
  address (reconnected c o) = address c.
Proof.
  unfold reconnected. destruct o as [raw | | | e]; cbn; auto 10.
  destruct e; cbn; auto 10.
Qed.

(** An exception that leaves an exchange is none that the client catches. *)
Lemma escapes_exchange_uncaught (o : outcome) (e : exn) :
  escapes_exchange o = Some e -> counted e = false /\ ends_stream e = false.
Proof.
  unfold escapes_exchange. destruct (failure o) as [e'|]; [|discriminate].
  destruct (counted e' || ends_stream e') eqn:E; [discriminate|].
  intros [= <-]. apply orb_false_iff. exact E.
Qed.

Lemma escapes_clear_uncaught (o : outcome) (e : exn) :
  escapes_clear o = Some e -> refused e = false.
Proof.
  destruct o as [raw | | | e']; try discriminate. cbn.
  destruct (refused e') eqn:E; [discriminate|]. intros [= <-]. exact E.
Qed.

Lemma counted_refused (e : exn) : counted e = false -> refused e = false.
Proof. destruct e; (reflexivity || discriminate). Qed.

(** [_write_and_read] on an open client, by the next outcome of the
    stream. *)
Lemma write_and_read_open_result (command : string) (c : Client) (l : Link) :
  open c = true ->
  fst (_write_and_read command (c, l)) =
    match escapes_exchange (next (replies l)) with
    | Some e => Raise e
    | None =>
        match next (replies l) with
        | Line raw => Ok (Some (cleaned raw))
        | _ => Ok None
        end
    end.
Proof.
  intros Ho. rewrite write_and_read_open by exact Ho.
  destruct (replies l) as [|[raw | | | e] rest]; try reflexivity.
  cbn [fst next hd]. unfold escapes_exchange. cbn [failure].
  destruct (counted e || ends_stream e); reflexivity.
Qed.



(** [_write_and_read] leaves the address, the terminator and the limit
    alone; it writes at most the frame of its command, and has written it
    whenever it returns a line; no exception of a class that the client
    catches leaves it. *)
Lemma write_and_read_spec (command : string) (s : Conn) :
  exists (r : Res (option string)) (s' : Conn),
    _write_and_read command s = (r, s') /\
    eol (fst s') = eol (fst s) /\
    max_timeouts (fst s') = max_timeouts (fst s) /\
    address (fst s') = address (fst s) /\
    (forall e, r = Raise e -> refused e = false) /\
    (wire (snd s') = wire (snd s) ++ [frame (fst s) command] \/
     ((forall line, r <> Ok (Some line)) /\ wire (snd s') = wire (snd s))).
Proof.
  destruct s as [c l].
  assert (Hopen : forall c0 l0, open c0 = true ->
    exists r s', _write_and_read command (c0, l0) = (r, s') /\
      eol (fst s') = eol c0 /\ max_timeouts (fst s') = max_timeouts c0 /\
      address (fst s') = address c0 /\
      (forall e, r = Raise e -> refused e = false) /\
      wire (snd s') = wire l0 ++ [frame c0 command]).
  { intros c0 l0 Ho.
    pose proof (write_and_read_open_result command c0 l0 Ho) as Hres.
    assert (Hraise : forall e,
              fst (_write_and_read command (c0, l0)) = Raise e ->
              refused e = false).
    { intros e He. rewrite Hres in He.
      destruct (escapes_exchange (next (replies l0))) as [e'|] eqn:E.
      - injection He as <-. apply counted_refused.
        apply (escapes_exchange_uncaught _ _ E).
      - destruct (next (replies l0)); discriminate He. }
    clear Hres. revert Hraise.
    rewrite write_and_read_open by exact Ho.
    destruct (replies l0) as [|[raw | | | e] rest]; intros Hraise;
      eexists; eexists; (split; [reflexivity|]); cbn;
      unfold after_failure; cbn; case_ifs; repeat split; auto;
      try discriminate; intros e' He'; apply Hraise; cbn; rewrite He';
      reflexivity. }
  assert (Hrec : forall o,
    eol (reconnected c o) = eol c /\
    max_timeouts (reconnected c o) = max_timeouts c /\
    address (reconnected c o) = address c /\
    open (reconnected c o) = true).
  { intros o. unfold reconnected. destruct o as [raw | | | e]; cbn; auto.
    destruct e; cbn; auto. }
  destruct (open c) eqn:Ho.
  - destruct (Hopen c l Ho) as (r & s' & H1 & H2 & H3 & H4 & H5 & H6).
    exists r, s'. cbn. repeat split; auto.
  - destruct (connects l) as [|[] cs] eqn:Hc.
    + rewrite write_and_read_unreachable by auto.
      eexists; eexists; split; [reflexivity|]. cbn.
      repeat split; auto; try discriminate.
      right. split; [discriminate | reflexivity].
    + rewrite (write_and_read_reconnect command c l cs Ho Hc). cbv zeta.
      destruct (Hrec (next (leftovers l))) as (E1 & E2 & E3 & E4).
      destruct (escapes_clear (next (leftovers l))) as [e|] eqn:Hesc.
      * eexists; eexists; split; [reflexivity|]. cbn.
        repeat split; auto.
        -- intros e' [= <-]. exact (escapes_clear_uncaught _ _ Hesc).
        -- right. split; [discriminate | reflexivity].
      * edestruct Hopen as (r & s' & H1 & H2 & H3 & H4 & H5 & H6);
          [ exact E4 | exists r, s'; split; [exact H1|] ].
        cbn in *. unfold frame in *. rewrite E1 in *.
        repeat split; try congruence; auto.
    + rewrite write_and_read_unreachable by eauto.
      eexists; eexists; split; [reflexivity|]. cbn.
      repeat split; auto; try discriminate.
      right. split; [discriminate | reflexivity].
Qed.

(** *** Timeout accounting *)

(** While the counter stays below the limit, timed-out exchanges leave the
    client open and count. *)
Lemma exchanges_count (command : string) (n : nat) :
  forall (c : Client) (l : Link) (rest : list outcome),
    open c = true ->
    replies l = repeat Timeout n ++ rest ->
    (timeouts c + Z.of_nat n < max_timeouts c)%Z ->
    exists s' : Conn,
      scenarios.exchanges n command (c, l) = (Ok tt, s') /\
      open (fst s') = true /\
      timeouts (fst s') = (timeouts c + Z.of_nat n)%Z /\
      max_timeouts (fst s') = max_timeouts c /\
      replies (snd s') = rest.
Proof.
  induction n as [|n IH]; intros c l rest Ho Hr Hlt.
  - exists (c, l). cbn in *. repeat split; auto. lia.
  - cbn [scenarios.exchanges]. unfold bind.
    rewrite write_and_read_open by exact Ho.
    cbn [repeat app] in Hr. rewrite Hr. cbn [tl].
    assert (Hne : Z.eqb (timeouts c + 1) (max_timeouts c) = false)
      by (apply Z.eqb_neq; lia).
    destruct (IH (after_failure c)
                 {| connects := connects l; replies := repeat Timeout n ++ rest;
                    leftovers := leftovers l;
                    wire := wire l ++ [frame c command] |} rest)
      as (s' & Hrun & H1 & H2 & H3 & H4).
    + unfold after_failure. cbn. rewrite Hne. exact Ho.
    + reflexivity.
    + unfold after_failure. cbn. rewrite Hne. cbn. lia.
    + exists s'. rewrite Hrun. split; [reflexivity|].
      unfold after_failure in H2, H3. cbn in H2, H3. rewrite Hne in H2, H3.
      cbn in H2, H3. repeat split; auto. lia.
Qed.

(** The timed-out exchange that brings the counter to the limit closes the
    client. *)
Lemma exchange_at_limit (command : string) (c : Client) (l : Link)
    (rest : list outcome) :
  open c = true ->
  replies l = Timeout :: rest ->
  (timeouts c + 1 = max_timeouts c)%Z ->
  exists s' : Conn,
    _write_and_read command (c, l) = (Ok None, s') /\
    open (fst s') = false /\
    timeouts (fst s') = max_timeouts c /\
    replies (snd s') = rest.
Proof.
  intros Ho Hr Hlim. rewrite write_and_read_open by exact Ho. rewrite Hr.
  eexists. split; [reflexivity|]. unfold after_failure. cbn.
  rewrite (proj2 (Z.eqb_eq _ _) Hlim). cbn. auto.
Qed.

Lemma exchanges_snoc (command : string) (n : nat) (s : Conn) :
  scenarios.exchanges (S n) command s =
    (scenarios.exchanges n command ;; _write_and_read command ;; ret tt) s.
Proof.
  revert s. induction n as [|n IH]; intros s.
  - cbn [scenarios.exchanges]. unfold bind, ret.
    destruct (_write_and_read command s) as [[o|e] s']; reflexivity.
  - change (scenarios.exchanges (S (S n)) command s)
      with ((_write_and_read command ;; scenarios.exchanges (S n) command) s).
    unfold bind at 1.
    destruct (_write_and_read command s) as [[o|e] s'] eqn:E.
    + rewrite IH. cbn [scenarios.exchanges]. unfold bind. rewrite E.
      reflexivity.
    + cbn [scenarios.exchanges]. unfold bind. rewrite E. reflexivity.
Qed.

(** An exchange on an open client always writes its frame. *)
Lemma write_and_read_open_wire (command : string) (c : Client) (l : Link) :
  open c = true ->
  wire (snd (snd (_write_and_read command (c, l)))) =
    wire l ++ [frame c command].
Proof.
  intros Ho. rewrite write_and_read_open by exact Ho.
  destruct (replies l) as [|[raw | | | e] rest]; reflexivity.
Qed.

End util_facts.

(** ** Properties of the driver *)

Module driver_facts.
Import util driver util_facts.

(** An exchange made by the driver: the object is untouched apart from
    the client, and at most the frame of the command is written; it is
    written whenever a line comes back.  No [OSError] and no timeout
    leaves the exchange. *)
Lemma hw_exchange (command : string) (w : World) :
  exists (r : Res (option string)) (w' : World),
    hw_call (_write_and_read command) w = (r, w') /\
    same_object (fst w) (fst w') /\
    (wire (snd w') = wire (snd w) ++ [frame (hw (fst w)) command] \/
     ((forall line, r <> Ok (Some line)) /\ wire (snd w') = wire (snd w))) /\
    (forall e, r = Raise e -> refused e = false).
Proof.
  unfold hw_call, zoom.
  destruct (write_and_read_spec command (hw (fst w), snd w))
    as (r & [c' l'] & Hrun & Heol & _ & _ & Hraise & Hwire).
  rewrite Hrun. exists r. eexists. split; [reflexivity|].
  cbn in *. split; [|split; [exact Hwire | exact Hraise]].
  split; [reflexivity | exact Heol].
Qed.

Lemma frame_eol (c c' : Client) (command : string) :
  eol c' = eol c -> frame c' command = frame c command.
Proof. unfold frame. intros ->. reflexivity. Qed.

Lemma map_frame_eol (c c' : Client) (l : list string) :
  eol c' = eol c -> map (frame c') l = map (frame c) l.
Proof.
  intros H. apply map_ext. intros a. apply frame_eol. exact H.
Qed.

(** Sequencing two calls concatenates what they write. *)
Lemma writes_seq {A B} (c1 : M World A) (c2 : M World B)
    (l1 l2 : string -> list string) :
  writes c1 l1 -> writes c2 l2 ->
  writes (c1 ;; c2) (fun u => l1 u ++ l2 u).
Proof.
  intros H1 H2 w. unfold bind.
  destruct (H1 w) as (s1 & Hw1 & [r1 Hp1] & Hok1 & Hu1 & He1).
  destruct (c1 w) as [[a|e] w1] eqn:Hc1; cbn in *.
  - specialize (Hok1 a eq_refl). subst s1.
    destruct (H2 w1) as (s2 & Hw2 & [r2 Hp2] & Hok2 & Hu2 & He2).
    rewrite Hu1 in *. rewrite (map_frame_eol _ _ _ He1) in *.
    exists (map (frame (hw (fst w))) (l1 (unit_id (fst w))) ++ s2).
    rewrite Hw2, Hw1, app_assoc. split; [reflexivity|].
    split; [|split; [|split; congruence]].
    + exists r2. rewrite map_app, Hp2, app_assoc. reflexivity.
    + intros b Hb. rewrite (Hok2 b Hb), map_app. reflexivity.
  - exists s1. split; [exact Hw1|]. split; [|split; [|split; assumption]].
    + exists (r1 ++ map (frame (hw (fst w))) (l2 (unit_id (fst w)))).
      rewrite map_app, Hp1, app_assoc. reflexivity.
    + intros b Hb. discriminate Hb.
Qed.

Lemma writes_nothing {A} (a : A) : writes (ret a) (fun _ => []).
Proof.
  intros w. exists []. cbn. rewrite app_nil_r.
  repeat split; eauto.
Qed.

Ltac run_calls :=
  unfold _test_controller_open, self, assign, gets, modify, raise, ret, bind;
  cbv beta iota.

(** *** Setpoint writes *)

Lemma set_setpoint_open (x : Py.float) (w : World) :
  open (fst w) = true ->
  _set_setpoint x w =
    let (r, w') :=
      hw_call (_write_and_read (setpoint_command (unit_id (fst w)) x)) w in
    match r with
    | Ok line => (check_setpoint line x, w')
    | Raise e => (Raise e, w')
    end.
Proof.
  intros Ho. unfold _set_setpoint, setpoint_command, check_setpoint. run_calls.
  rewrite Ho; cbn [negb]; cbv beta iota.
  destruct (hw_call _ w) as [[[line|]|e] w']; try reflexivity.
  destruct (nth_error (Py.split line) 5) as [tok|]; try reflexivity.
  destruct (Py.float_of_str tok) as [c|]; try reflexivity.
  destruct (Py.fgt _ _); reflexivity.
Qed.

Lemma set_setpoint_closed (x : Py.float) (w : World) :
  open (fst w) = false ->
  _set_setpoint x w =
    (Raise (OSError (not_open_message (unit_id (fst w)))), w).
Proof.
  intros Ho. unfold _set_setpoint. run_calls.
  rewrite Ho; reflexivity.
Qed.

Ltac wrote_nothing :=
  exists []; rewrite app_nil_r;
  split; [try reflexivity; try assumption|];
  split; [eexists; reflexivity|];
  split; [try discriminate|].

Lemma set_setpoint_writes (x : Py.float) :
  writes (_set_setpoint x) (fun u => [setpoint_command u x]).
Proof.
  intros w. destruct (open (fst w)) eqn:Ho.
  - rewrite (set_setpoint_open x w Ho).
    destruct (hw_exchange (setpoint_command (unit_id (fst w)) x) w)
      as (r & w' & Hrun & [Hs He] & [Hwire | [Hno Hwire]] & _);
      rewrite Hrun; cbn [fst snd].
    + eexists. split; [destruct r; exact Hwire|].
      split; [exists []; reflexivity|].
      split; [reflexivity|]. destruct r; cbn [fst snd]; rewrite Hs; cbn; auto.
    + destruct r as [[line|]|e]; [contradiction (Hno line); reflexivity| |];
        cbn [check_setpoint fst snd]; wrote_nothing; rewrite Hs; cbn; auto.
  - rewrite (set_setpoint_closed x w Ho). cbn [fst snd].
    wrote_nothing. auto.
Qed.

(** *** The control register *)

Lemma set_control_point_known (point : string) (reg : Z) (w : World) :
  lookup point registers = Some reg ->
  _set_control_point point w =
    let (r, w') :=
      hw_call (_write_and_read (register_command (unit_id (fst w)) reg)) w in
    match r with
    | Ok line =>
        match check_register line reg with
        | Ok _ => (Ok tt, (set_control_point_attr point (fst w'), snd w'))
        | Raise e => (Raise e, w')
        end
    | Raise e => (Raise e, w')
    end.
Proof.
  intros Hl. unfold _set_control_point, register_command, check_register.
  rewrite Hl. run_calls.
  destruct (hw_call _ w) as [[[line|]|e] w']; try reflexivity.
  destruct (Py.last_opt _) as [tok|]; try reflexivity.
  destruct (Py.int_of_str tok) as [v|]; try reflexivity.
  destruct (Z.eqb v reg); reflexivity.
Qed.

Lemma set_control_point_writes (point : string) (reg : Z) :
  lookup point registers = Some reg ->
  writes (_set_control_point point) (fun u => [register_command u reg]).
Proof.
  intros Hl w. rewrite (set_control_point_known point reg w Hl).
  destruct (hw_exchange (register_command (unit_id (fst w)) reg) w)
    as (r & w' & Hrun & [Hs He] & [Hwire | [Hno Hwire]] & _);
    rewrite Hrun; cbn [fst snd].
  - exists [frame (hw (fst w)) (register_command (unit_id (fst w)) reg)].
    split; [|split; [exists []; reflexivity|]].
    + destruct r as [o|e]; [|exact Hwire].
      destruct (check_register o reg); exact Hwire.
    + split; [reflexivity|].
      destruct r as [o|e]; [|cbn [fst snd]; rewrite Hs; cbn; auto].
      destruct (check_register o reg); cbn [fst snd]; rewrite Hs; cbn; auto.
  - destruct r as [[line|]|e]; [contradiction (Hno line); reflexivity| |];
      cbn [check_register fst snd]; wrote_nothing; rewrite Hs; cbn; auto.
Qed.

(** *** [set_pressure] and [set_flow_rate] *)

Lemma set_pressure_frames (p : Py.float) (w : World) :
  exists sent : list string,
    let all :=
      map (frame (hw (fst w)))
        ((if cp_in (control_point (fst w)) ["mass flow"; "vol flow"]
          then [setpoint_command (unit_id (fst w)) zero;
                register_command (unit_id (fst w)) 34]
          else []) ++ [setpoint_command (unit_id (fst w)) p]) in
    wire (snd (snd (set_pressure p w))) = wire (snd w) ++ sent /\
    (exists rest, all = sent ++ rest) /\
    (fst (set_pressure p w) = Ok tt -> sent = all).
Proof.
  assert (E : set_pressure p w =
    ((if cp_in (control_point (fst w)) ["mass flow"; "vol flow"]
      then _set_setpoint zero ;; _set_control_point "abs pressure"
      else ret tt) ;; _set_setpoint p) w) by reflexivity.
  rewrite E. clear E.
  pose proof (writes_seq _ _ _ _
    (writes_seq _ _ _ _ (set_setpoint_writes zero)
       (set_control_point_writes "abs pressure" 34 eq_refl))
    (set_setpoint_writes p)) as Hflow.
  pose proof (writes_seq _ _ _ _ (writes_nothing tt) (set_setpoint_writes p))
    as Hkeep.
  destruct (cp_in (control_point (fst w)) ["mass flow"; "vol flow"]).
  - destruct (Hflow w) as (sent & H1 & H2 & H3 & _).
    exists sent. cbn zeta. split; [exact H1|]. split; [exact H2|].
    intros Hok. exact (H3 tt Hok).
  - destruct (Hkeep w) as (sent & H1 & H2 & H3 & _).
    exists sent. cbn zeta. split; [exact H1|]. split; [exact H2|].
    intros Hok. exact (H3 tt Hok).
Qed.

(** *** [get] *)

(** [get] on an object that is marked open: the exchange, then the
    decoding of the line, the schema adjustment and the mapping. *)
Lemma get_open (w : World) :
  open (fst w) = true ->
  get w =
    let (r, w') := hw_call (_write_and_read (unit_id (fst w))) w in
    match r with
    | Raise e => (Raise e, w')
    | Ok None => (Raise AttributeError, w')
    | Ok (Some line) =>
        match decode (unit_id (fst w')) line with
        | Raise e => (Raise e, w')
        | Ok (lck, values) =>
            let ks := adjust_keys (List.length values) (keys (fst w')) in
            (Ok (dict_of (combine ks (map coerce values))),
             (set_keys ks (set_button_lock lck (fst w')), snd w'))
        end
    end.
Proof.
  intros Ho. unfold get. run_calls. rewrite Ho; cbn [negb]; cbv beta iota.
  destruct (hw_call _ w) as [[[line|]|e] w']; try reflexivity.
  destruct (decode _ line) as [[lck values]|e]; reflexivity.
Qed.

Lemma get_closed (w : World) :
  open (fst w) = false ->
  get w = (Raise (OSError (not_open_message (unit_id (fst w)))), w).
Proof.
  intros Ho. unfold get. run_calls. rewrite Ho. reflexivity.
Qed.

(** The errors of [decode]: a missing token or the unit mismatch. *)
Lemma decode_errors (unit line : string) (e : exn) :
  decode unit line = Raise e ->
  e = IndexError \/ e = ValueError "Flow controller unit ID mismatch.".
Proof.
  unfold decode.
  destruct (Py.split line) as [|echoed values]; [intros [= <-]; auto|].
  destruct (strip_overrange values) as [vs|]; [|intros [= <-]; auto].
  destruct (negb (String.eqb echoed unit)); [intros [= <-]; auto|].
  destruct (extract_lock vs); [discriminate | intros [= <-]; auto].
Qed.

(** C1.  [set_pressure] called while the cached control point is a flow
    category ([mass flow] or [vol flow]) writes, in this order, the zero
    setpoint frame, the frame that switches register 122 to absolute
    pressure (34), and the target setpoint frame: what reaches the wire is
    always a prefix of these three frames, and all three whenever the call
    returns.  Called while the cached control point is a pressure category,
    it writes the target setpoint frame and nothing else. *)
Theorem set_pressure_writes (w : World) (p : Py.float) (cp : string) :
  control_point (fst w) = Some cp ->
  let c := hw (fst w) in
  let u := unit_id (fst w) in
  let zeroing := frame c (u ++ "S0.00") in
  let switch := frame c (u ++ "W122=34") in
  let target := frame c (u ++ "S" ++ Py.format_2f p) in
  let result := fst (set_pressure p w) in
  let after := snd (set_pressure p w) in
  (In cp ["mass flow"; "vol flow"] ->
   exists sent : list string,
     wire (snd after) = wire (snd w) ++ sent /\
     (exists rest, [zeroing; switch; target] = sent ++ rest) /\
     (result = Ok tt -> sent = [zeroing; switch; target])) /\
  (In cp ["abs pressure"; "gauge pressure"; "diff pressure"] ->
   exists sent : list string,
     wire (snd after) = wire (snd w) ++ sent /\
     (exists rest, [target] = sent ++ rest) /\
     (result = Ok tt -> sent = [target])).
Proof.
  intros Hcp. cbv zeta.
  destruct (set_pressure_frames p w) as (sent & H1 & H2 & H3).
  rewrite Hcp in H2, H3. cbv zeta in H2, H3.
  split; intros Hin; exists sent; (split; [exact H1|]).
  - assert (E : cp_in (Some cp) ["mass flow"; "vol flow"] = true).
    { cbn in Hin. destruct Hin as [<- | [<- | []]]; reflexivity. }
    rewrite E in H2, H3. exact (conj H2 H3).
  - assert (E : cp_in (Some cp) ["mass flow"; "vol flow"] = false).
    { cbn in Hin. destruct Hin as [<- | [<- | [<- | []]]]; reflexivity. }
    rewrite E in H2, H3. exact (conj H2 H3).
Qed.

(** In mass-flow mode the three frames are written and the call returns;
    in gauge-pressure mode the target frame alone is written. *)
Lemma set_pressure_writes_witness :
  wire (snd (snd (set_pressure scenarios.p14_5 scenarios.flow_mode_world))) =
    [frame scenarios.connected "AS0.00"; frame scenarios.connected "AW122=34";
     frame scenarios.connected "AS14.50"] /\
  wire (snd (snd (set_pressure scenarios.p14_5 scenarios.pressure_mode_world))) =
    [frame scenarios.connected "AS14.50"].
Proof.
  split.
  - destruct (set_pressure_writes scenarios.flow_mode_world scenarios.p14_5
                "mass flow" eq_refl) as [Hflow _].
    destruct (Hflow (or_introl eq_refl)) as (sent & Hw & _ & Hall).
    rewrite Hw, (Hall eq_refl). reflexivity.
  - destruct (set_pressure_writes scenarios.pressure_mode_world
                scenarios.p14_5 "gauge pressure" eq_refl) as [_ Hpress].
    destruct (Hpress (or_intror (or_introl eq_refl))) as (sent & Hw & _ & Hall).
    rewrite Hw, (Hall eq_refl). reflexivity.
Defined.

(** *** Overrange markers and the lock flag *)

Lemma strip_overrange_rev_markers (markers rest : list string) :
  Forall (fun t => is_overrange t = true) markers ->
  strip_overrange_rev (markers ++ rest) = strip_overrange_rev rest.
Proof.
  induction 1 as [|m ms Hm _ IH]; [reflexivity|].
  cbn [app strip_overrange_rev]. rewrite Hm. exact IH.
Qed.

Lemma lock_is_not_overrange (t : string) :
  is_lock t = true -> is_overrange t = false.
Proof.
  unfold is_lock, is_overrange. intros H.
  apply String.eqb_eq in H. rewrite H. reflexivity.
Qed.

(** Markers at the end are dropped up to the last token that is not one. *)
Lemma strip_overrange_trailing (body markers : list string) (v : string) :
  Forall (fun t => is_overrange t = true) markers ->
  Py.last_opt body = Some v ->
  is_overrange v = false ->
  strip_overrange (body ++ markers) = Some body.
Proof.
  intros Hm Hlast Hv. unfold strip_overrange, Py.last_opt in *.
  rewrite rev_app_distr, strip_overrange_rev_markers
    by (apply Forall_rev; exact Hm).
  destruct (rev body) as [|x before] eqn:Hrev; [discriminate|].
  injection Hlast as ->. cbn [strip_overrange_rev]. rewrite Hv.
  cbn [option_map].
  rewrite <- Hrev, rev_involutive. reflexivity.
Qed.

Lemma extract_lock_present (core : list string) (t : string) :
  is_lock t = true -> extract_lock (core ++ [t]) = Some (true, core).
Proof.
  intros Ht. unfold extract_lock. rewrite rev_app_distr. cbn [rev app].
  rewrite Ht, rev_involutive. reflexivity.
Qed.

Lemma extract_lock_absent (core : list string) (v : string) :
  Py.last_opt core = Some v -> is_lock v = false ->
  extract_lock core = Some (false, core).
Proof.
  unfold extract_lock, Py.last_opt.
  destruct (rev core) as [|x before]; [discriminate|].
  intros [= ->] ->. reflexivity.
Qed.

Lemma strip_overrange_rev_shape (rvalues kept : list string) :
  strip_overrange_rev rvalues = Some kept ->
  exists markers v before,
    rvalues = markers ++ kept /\ kept = v :: before /\
    is_overrange v = false /\
    Forall (fun t => is_overrange t = true) markers.
Proof.
  induction rvalues as [|x rest IH]; [discriminate|].
  cbn [strip_overrange_rev]. destruct (is_overrange x) eqn:Hx.
  - intros H. destruct (IH H) as (markers & v & before & -> & -> & Hv & Hm).
    exists (x :: markers), v, before. repeat split; auto.
  - intros [= <-]. exists [], x, rest. repeat split; auto.
Qed.

Lemma strip_overrange_rev_none (rvalues : list string) :
  strip_overrange_rev rvalues = None <->
  Forall (fun t => is_overrange t = true) rvalues.
Proof.
  induction rvalues as [|x rest IH]; [split; auto|].
  cbn [strip_overrange_rev]. destruct (is_overrange x) eqn:Hx.
  - rewrite IH. split; [intros H; constructor; auto|].
    intros H. inversion H. assumption.
  - split; [discriminate|]. intros H. inversion H. congruence.
Qed.

Lemma strip_overrange_none (values : list string) :
  strip_overrange values = None <->
  Forall (fun t => is_overrange t = true) values.
Proof.
  unfold strip_overrange.
  destruct (strip_overrange_rev (rev values)) eqn:E; cbn [option_map].
  - split; [discriminate|]. intros H.
    apply Forall_rev in H. apply strip_overrange_rev_none in H. congruence.
  - split; [|reflexivity]. intros _.
    apply strip_overrange_rev_none in E. apply Forall_rev in E.
    rewrite rev_involutive in E. exact E.
Qed.

Lemma strip_overrange_shape (values kept : list string) :
  strip_overrange values = Some kept ->
  exists markers v,
    values = kept ++ markers /\ Py.last_opt kept = Some v /\
    is_overrange v = false /\
    Forall (fun t => is_overrange t = true) markers.
Proof.
  unfold strip_overrange.
  destruct (strip_overrange_rev (rev values)) as [rk|] eqn:E; [|discriminate].
  cbn [option_map]. intros [= <-].
  destruct (strip_overrange_rev_shape _ _ E)
    as (markers & v & before & Hr & -> & Hv & Hm).
  exists (rev markers), v. repeat split.
  - rewrite <- rev_app_distr, <- Hr, rev_involutive. reflexivity.
  - unfold Py.last_opt. rewrite rev_involutive. reflexivity.
  - exact Hv.
  - apply Forall_rev. exact Hm.
Qed.

(** The tokens of an answer that [decode] accepts: the echoed unit, the
    values, a lock token or none, then overrange markers. *)
Lemma decode_trailing (unit line : string)
    (values lock_tok markers : list string) :
  Py.split line = unit :: values ++ lock_tok ++ markers ->
  stripped_tail values lock_tok markers ->
  decode unit line =
    Ok (match lock_tok with [] => false | _ => true end, values).
Proof.
  intros Hsplit [Hm Hl]. unfold decode. rewrite Hsplit.
  rewrite String.eqb_refl. cbn [negb].
  destruct Hl as [(t & -> & Ht) | (-> & v & Hlast & Hvo & Hvl)].
  - rewrite app_assoc.
    rewrite (strip_overrange_trailing (values ++ [t]) markers t Hm).
    + rewrite (extract_lock_present values t Ht). reflexivity.
    + unfold Py.last_opt. rewrite rev_app_distr. reflexivity.
    + apply lock_is_not_overrange. exact Ht.
  - cbn [app].
    rewrite (strip_overrange_trailing values markers v Hm Hlast Hvo).
    rewrite (extract_lock_absent values v Hlast Hvl). reflexivity.
Qed.

(** Every list of tokens is made of markers only, or is some values, at
    most one lock token and the markers that end it. *)
Lemma stripped_tail_exists (tokens : list string) :
  Forall (fun t => is_overrange t = true) tokens \/
  exists values lock_tok markers,
    tokens = values ++ lock_tok ++ markers /\
    stripped_tail values lock_tok markers.
Proof.
  destruct (strip_overrange tokens) as [kept|] eqn:Hs.
  - right.
    destruct (strip_overrange_shape _ _ Hs) as (markers & v & -> & Hl & Hv & Hm).
    destruct (is_lock v) eqn:Hk.
    + unfold Py.last_opt in Hl.
      destruct (rev kept) as [|x before] eqn:Hr; [discriminate|].
      injection Hl as ->.
      exists (rev before), [v], markers. split.
      * rewrite app_assoc. f_equal.
        rewrite <- (rev_involutive kept), Hr. reflexivity.
      * split; [exact Hm|]. left. exists v. auto.
    + exists kept, [], markers. split; [reflexivity|].
      split; [exact Hm|]. right. split; [reflexivity|]. exists v. auto.
  - left. apply strip_overrange_none. exact Hs.
Qed.

(** [get] once the exchange has returned a line. *)
Lemma get_line (w w1 : World) (line : string) :
  open (fst w) = true ->
  hw_call (_write_and_read (unit_id (fst w))) w = (Ok (Some line), w1) ->
  get w =
    match decode (unit_id (fst w)) line with
    | Raise e => (Raise e, w1)
    | Ok (lck, values) =>
        let ks := adjust_keys (List.length values) (keys (fst w)) in
        (Ok (dict_of (combine ks (map coerce values))),
         (set_keys ks (set_button_lock lck (fst w1)), snd w1))
    end.
Proof.
  intros Ho Hrun. rewrite (get_open w Ho).
  destruct (hw_exchange (unit_id (fst w)) w) as (r & w' & Hrun' & [Hs _] & _).
  rewrite Hrun in Hrun'. injection Hrun' as Er Ew. subst r w'.
  rewrite Hrun. rewrite Hs. reflexivity.
Qed.

(** [get] on an object marked open raises no [OSError] and leaves the
    object marked open. *)
Lemma get_marked_open (w : World) :
  open (fst w) = true ->
  (forall msg, fst (get w) <> Raise (OSError msg)) /\
  open (fst (snd (get w))) = true.
Proof.
  intros Ho. rewrite (get_open w Ho).
  destruct (hw_exchange (unit_id (fst w)) w)
    as (r & w' & Hrun & [Hs _] & _ & Hraise).
  rewrite Hrun.
  assert (Ho' : open (fst w') = true) by (rewrite Hs; exact Ho).
  destruct r as [[line|]|e]; [|split; [discriminate | exact Ho']|].
  2:{ split; [|exact Ho']. intros msg. cbn [fst]. intros [= ->].
      discriminate (Hraise _ eq_refl). }
  destruct (decode (unit_id (fst w')) line) as [[lck values]|e] eqn:Hd.
  - split; [discriminate | exact Ho'].
  - split; [|exact Ho'].
    intros msg. cbn [fst].
    destruct (decode_errors _ _ _ Hd) as [-> | ->]; discriminate.
Qed.

(** [get] with a closed client that cannot reconnect. *)
Lemma get_unreachable (w : World) :
  open (fst w) = true ->
  util.open (hw (fst w)) = false ->
  (connects (snd w) = [] \/ exists cs, connects (snd w) = false :: cs) ->
  fst (get w) = Raise AttributeError.
Proof.
  intros Ho Hc Hl. rewrite (get_open w Ho).
  unfold hw_call, zoom.
  rewrite write_and_read_unreachable by assumption. reflexivity.
Qed.

(** C2, as the code has it.  A successful exchange resets the timeout
    counter to 0, also after nine consecutive timeouts.  Ten consecutive
    timed-out exchanges from a counter of 0 close the client
    ([Client.open] false, counter 10).  The [open] flag of the driver object
    is another attribute, cleared by [FlowMeter.close] only: a later [get]
    on an object still marked open raises no [OSError], keeps the object
    marked open, and raises [AttributeError] when the closed client cannot
    reconnect. *)
Theorem timeout_counter_and_close :
  (forall command c l raw rest,
      util.open c = true ->
      replies l = Line raw :: rest ->
      exists s',
        _write_and_read command (c, l) = (Ok (Some (cleaned raw)), s') /\
        timeouts (fst s') = 0%Z /\ util.open (fst s') = true) /\
  (forall command c l raw rest,
      util.open c = true -> timeouts c = 0%Z -> max_timeouts c = 10%Z ->
      replies l = repeat Timeout 9 ++ Line raw :: rest ->
      exists s',
        (scenarios.exchanges 9 command ;; _write_and_read command) (c, l) =
          (Ok (Some (cleaned raw)), s') /\
        timeouts (fst s') = 0%Z /\ util.open (fst s') = true) /\
  (forall command c l rest,
      util.open c = true -> timeouts c = 0%Z -> max_timeouts c = 10%Z ->
      replies l = repeat Timeout 10 ++ rest ->
      exists s',
        scenarios.exchanges 10 command (c, l) = (Ok tt, s') /\
        util.open (fst s') = false /\ timeouts (fst s') = 10%Z) /\
  (forall w,
      open (fst w) = true ->
      (forall msg, fst (get w) <> Raise (OSError msg)) /\
      open (fst (snd (get w))) = true /\
      (util.open (hw (fst w)) = false ->
       connects (snd w) = [] \/ (exists cs, connects (snd w) = false :: cs) ->
       fst (get w) = Raise AttributeError)).
Proof.
  split; [|split; [|split]].
  - intros command c l raw rest Ho Hr.
    rewrite write_and_read_open by exact Ho. rewrite Hr.
    eexists. split; [reflexivity|]. cbn. auto.
  - intros command c l raw rest Ho Ht Hm Hr.
    destruct (exchanges_count command 9 c l (Line raw :: rest) Ho Hr)
      as (s9 & Hrun & Ho9 & _ & _ & Hr9); [lia|].
    unfold bind. rewrite Hrun. destruct s9 as [c9 l9]. cbn [fst snd] in *.
    rewrite write_and_read_open by exact Ho9. rewrite Hr9.
    eexists. split; [reflexivity|]. cbn. auto.
  - intros command c l rest Ho Ht Hm Hr.
    rewrite exchanges_snoc.
    destruct (exchanges_count command 9 c l (Timeout :: rest) Ho)
      as (s9 & Hrun & Ho9 & Ht9 & Hm9 & Hr9).
    + rewrite Hr. change 10%nat with (9 + 1)%nat.
      rewrite repeat_app, <- app_assoc. reflexivity.
    + lia.
    + unfold bind. rewrite Hrun. destruct s9 as [c9 l9]. cbn [fst snd] in *.
      destruct (exchange_at_limit command c9 l9 rest Ho9 Hr9)
        as (s' & Hrun' & Hc & Ht' & _); [lia|].
      rewrite Hrun'. exists s'. split; [reflexivity|].
      split; [exact Hc | lia].
  - intros w Ho. destruct (get_marked_open w Ho) as [H1 H2].
    split; [exact H1|]. split; [exact H2|].
    intros Hc Hl. exact (get_unreachable w Ho Hc Hl).
Qed.

(** The four parts at concrete clients: a line after a timeout, a line
    after nine timeouts, ten timeouts, and a read with an unreachable
    device. *)
Lemma timeout_counter_and_close_witness :
  (exists s',
      _write_and_read "A" (scenarios.connected, scenarios.answering ["A 1"]) =
        (Ok (Some (cleaned "A 1")), s') /\
      timeouts (fst s') = 0%Z /\ util.open (fst s') = true) /\
  (exists s',
      (scenarios.exchanges 9 "A" ;; _write_and_read "A")
        (scenarios.connected,
         {| connects := []; replies := repeat Timeout 9 ++ [Line "A 1"];
            leftovers := []; wire := [] |}) =
        (Ok (Some (cleaned "A 1")), s') /\
      timeouts (fst s') = 0%Z /\ util.open (fst s') = true) /\
  (exists s',
      scenarios.exchanges 10 "A" (scenarios.connected, scenarios.silent 10) =
        (Ok tt, s') /\
      util.open (fst s') = false /\ timeouts (fst s') = 10%Z) /\
  fst (get scenarios.after_ten_timeouts) = Raise AttributeError.
Proof.
  destruct timeout_counter_and_close as (H1 & H2 & H3 & H4).
  split; [|split; [|split]].
  - apply (H1 "A" scenarios.connected (scenarios.answering ["A 1"]) "A 1" []);
      reflexivity.
  - apply (H2 "A" scenarios.connected _ "A 1" []); reflexivity.
  - apply (H3 "A" scenarios.connected (scenarios.silent 10) []); reflexivity.
  - apply (H4 scenarios.after_ten_timeouts); [reflexivity | reflexivity |].
    left. reflexivity.
Defined.

(** C2 as stated fails: after ten consecutive timeouts the client is
    closed, yet the next [get] passes the open test of the driver object.
    With the device still unreachable it raises [AttributeError], not the
    not-open [OSError]; with the device reachable again it reconnects and
    returns the mapping. *)
Lemma read_after_ten_timeouts_counterexample :
  util.open (hw (fst scenarios.after_ten_timeouts)) = false /\
  timeouts (hw (fst scenarios.after_ten_timeouts)) = 10%Z /\
  open (fst scenarios.after_ten_timeouts) = true /\
  fst (get scenarios.after_ten_timeouts) = Raise AttributeError /\
  fst (get scenarios.after_ten_timeouts) <>
    Raise (OSError (not_open_message "A")) /\
  util.open (hw (fst scenarios.after_ten_timeouts_reachable)) = false /\
  fst (get scenarios.after_ten_timeouts_reachable) =
    Ok [("pressure", VFloat scenarios.f14_2);
        ("temperature", VFloat scenarios.f25_1);
        ("volumetric_flow", VFloat scenarios.f2_502);
        ("mass_flow", VFloat scenarios.f2_499);
        ("gas", VStr "A")].
Proof.
  repeat split; try (vm_compute; reflexivity). vm_compute. discriminate.
Qed.

(** C10.  When the exchange of [get] yields no line ([_write_and_read]
    returns [None]), [get] raises the [AttributeError] of [None.split()]:
    it returns no mapping and raises no transport error. *)
Theorem get_without_response (w w1 : World) :
  open (fst w) = true ->
  hw_call (_write_and_read (unit_id (fst w))) w = (Ok None, w1) ->
  get w = (Raise AttributeError, w1).
Proof.
  intros Ho Hrun. rewrite (get_open w Ho), Hrun. reflexivity.
Qed.

(** A read that times out, and a read on a closed client that cannot
    reconnect. *)
Lemma get_without_response_witness :
  fst (get scenarios.unanswered_world) = Raise AttributeError /\
  fst (get scenarios.after_ten_timeouts) = Raise AttributeError.
Proof.
  split.
  - assert (H : hw_call (_write_and_read
                           (unit_id (fst scenarios.unanswered_world)))
                  scenarios.unanswered_world =
                (Ok None,
                 snd (hw_call (_write_and_read "A")
                        scenarios.unanswered_world)))
      by (vm_compute; reflexivity).
    exact (f_equal fst
             (get_without_response scenarios.unanswered_world _ eq_refl H)).
  - assert (H : hw_call (_write_and_read
                           (unit_id (fst scenarios.after_ten_timeouts)))
                  scenarios.after_ten_timeouts =
                (Ok None,
                 snd (hw_call (_write_and_read "A")
                        scenarios.after_ten_timeouts)))
      by (vm_compute; reflexivity).
    exact (f_equal fst
             (get_without_response scenarios.after_ten_timeouts _ eq_refl H)).
Defined.

(** A mismatching unit is reported when a value is left once the overrange
    markers are dropped. *)
Lemma get_unit_mismatch (w w1 : World) (line echoed : string)
    (values kept : list string) :
  open (fst w) = true ->
  hw_call (_write_and_read (unit_id (fst w))) w = (Ok (Some line), w1) ->
  Py.split line = echoed :: values ->
  strip_overrange values = Some kept ->
  echoed <> unit_id (fst w) ->
  get w = (Raise (ValueError "Flow controller unit ID mismatch."), w1).
Proof.
  intros Ho Hrun Hsplit Hkept Hne. rewrite (get_line w w1 line Ho Hrun).
  unfold decode. rewrite Hsplit, Hkept.
  apply String.eqb_neq in Hne. rewrite Hne. reflexivity.
Qed.

(** C6 at the failing inputs.  The answer of another unit that carries no
    value, or overrange markers only, makes [get] raise [IndexError]: the
    loop that drops the markers indexes the empty list before the unit is
    compared.  With a data frame the mismatch is reported. *)
Theorem get_unit_mismatch_without_values :
  fst (get scenarios.wrong_unit_world) = Raise IndexError /\
  fst (get scenarios.wrong_unit_overrange_world) = Raise IndexError /\
  fst (get scenarios.wrong_unit_frame_world) =
    Raise (ValueError "Flow controller unit ID mismatch.").
Proof.
  repeat split; vm_compute; reflexivity.
Qed.

(** C5, as the code has it.  [get] takes off the end of an answer the
    overrange markers that end it ([MOV], [VOV], [POV] in any case, any
    number of them) and then one lock token, if the answer then ends with
    it: in an answer made of the echoed unit, the values, at most one lock
    token and such markers, it maps the values alone, the schema being
    adjusted to their number and zipped with them, and records the lock
    flag as [True] exactly when the lock token is there.  Every answer that
    echoes the unit and holds a token that is no marker is of this form;
    one that holds markers only raises [IndexError].  Only the end is
    looked at: a marker or a lock token that stands before the lock token
    is one of the values. *)
Theorem markers_and_lock_stripped (w w1 : World) (line : string) :
  open (fst w) = true ->
  hw_call (_write_and_read (unit_id (fst w))) w = (Ok (Some line), w1) ->
  (forall values lock_tok markers,
     Py.split line = unit_id (fst w) :: values ++ lock_tok ++ markers ->
     stripped_tail values lock_tok markers ->
     let ks := adjust_keys (List.length values) (keys (fst w)) in
     fst (get w) = Ok (dict_of (combine ks (map coerce values))) /\
     button_lock (fst (snd (get w))) =
       Some (match lock_tok with [] => false | _ => true end) /\
     keys (fst (snd (get w))) = ks) /\
  (forall tokens,
     Py.split line = unit_id (fst w) :: tokens ->
     (exists values lock_tok markers,
        tokens = values ++ lock_tok ++ markers /\
        stripped_tail values lock_tok markers) \/
     (Forall (fun t => is_overrange t = true) tokens /\
      fst (get w) = Raise IndexError)).
Proof.
  intros Ho Hrun. split.
  - intros values lock_tok markers Hsplit Htail ks.
    rewrite (get_line w w1 line Ho Hrun).
    rewrite (decode_trailing _ _ values lock_tok markers Hsplit Htail).
    cbn. auto.
  - intros tokens Hsplit.
    destruct (stripped_tail_exists tokens) as [Hall | Hex];
      [right | left; exact Hex].
    split; [exact Hall|].
    rewrite (get_line w w1 line Ho Hrun). unfold decode. rewrite Hsplit.
    rewrite (proj2 (strip_overrange_none tokens) Hall). reflexivity.
Qed.

(** The locked scenario: four values mapped, the flag set; and the same
    values behind stacked markers in mixed case. *)
Lemma markers_and_lock_stripped_witness :
  fst (get scenarios.locked_world) =
    Ok [("pressure", VFloat scenarios.f14_2);
        ("temperature", VFloat scenarios.f25_1);
        ("volumetric_flow", VFloat scenarios.f2_502);
        ("mass_flow", VFloat scenarios.f2_499)] /\
  button_lock (fst (snd (get scenarios.locked_world))) = Some true /\
  fst (get scenarios.stacked_markers_world) =
    fst (get scenarios.locked_world).
Proof.
  destruct (markers_and_lock_stripped scenarios.locked_world
    (snd (hw_call (_write_and_read "A") scenarios.locked_world))
    "A 14.2 25.1 2.502 2.499 LCK") as [Hlocked _];
    [ vm_compute; reflexivity | vm_compute; reflexivity | ].
  destruct (Hlocked ["14.2"; "25.1"; "2.502"; "2.499"] ["LCK"] [])
    as (H1 & H2 & _);
    [ vm_compute; reflexivity
    | split; [constructor | left; exists "LCK"; split; reflexivity] | ].
  destruct (markers_and_lock_stripped scenarios.stacked_markers_world
    (snd (hw_call (_write_and_read "A") scenarios.stacked_markers_world))
    "A 14.2 25.1 2.502 2.499 lck MOV vov Pov") as [Hstacked _];
    [ vm_compute; reflexivity | vm_compute; reflexivity | ].
  destruct (Hstacked ["14.2"; "25.1"; "2.502"; "2.499"] ["lck"]
              ["MOV"; "vov"; "Pov"]) as (H3 & _);
    [ vm_compute; reflexivity
    | split; [repeat constructor | left; exists "lck"; split; reflexivity] | ].
  split; [|split].
  - rewrite H1. vm_compute. reflexivity.
  - exact H2.
  - rewrite H3, H1. reflexivity.
Defined.

(** C5 as stated fails.  The markers are dropped before the lock token is
    looked at, and one lock token is dropped.  A marker that stands before
    the lock token is not at the end of the answer when the loop runs: it
    stays among the values, is returned in the mapping, and with a marker
    on both sides of the lock token the two values left move the setpoint
    field to the second place.  Of two lock tokens the first is returned as
    a value. *)
Lemma marker_before_lock_counterexample :
  fst (get scenarios.marker_before_lock_world) =
    Ok [("pressure", VFloat scenarios.f14_2);
        ("temperature", VFloat scenarios.f25_1);
        ("volumetric_flow", VStr "MOV")] /\
  fst (get scenarios.marker_around_lock_world) =
    Ok [("pressure", VFloat scenarios.f14_2); ("setpoint", VStr "MOV")] /\
  fst (get scenarios.double_lock_world) =
    Ok [("pressure", VFloat scenarios.f14_2);
        ("temperature", VFloat scenarios.f25_1);
        ("volumetric_flow", VFloat scenarios.f2_502);
        ("mass_flow", VFloat scenarios.f2_499);
        ("gas", VStr "LCK")].
Proof.
  repeat split; vm_compute; reflexivity.
Qed.

(** *** The field schema *)

(** C3, as the code has it.  After a [get] that decodes [n] values, a
    schema of six fields has [n] fields when [n] is 5, 6 or 7, and seven
    fields when [n] is 2; a schema that does not have six fields, or a
    number of values other than 2, 5 and 7, leaves the schema as it was. *)
Theorem schema_adjustment (w w1 : World) (line : string) (lck : bool)
    (values : list string) :
  open (fst w) = true ->
  hw_call (_write_and_read (unit_id (fst w))) w = (Ok (Some line), w1) ->
  decode (unit_id (fst w)) line = Ok (lck, values) ->
  let n := List.length values in
  let before := keys (fst w) in
  let after := keys (fst (snd (get w))) in
  (List.length before = 6%nat ->
   n = 5%nat \/ n = 6%nat \/ n = 7%nat -> List.length after = n) /\
  (List.length before = 6%nat -> n = 2%nat -> List.length after = 7%nat) /\
  (List.length before <> 6%nat \/ (n <> 5%nat /\ n <> 7%nat /\ n <> 2%nat) ->
   after = before).
Proof.
  intros Ho Hrun Hd n before after.
  assert (E : after = adjust_keys n before).
  { unfold after. rewrite (get_line w w1 line Ho Hrun), Hd. reflexivity. }
  rewrite E. clear E after. unfold adjust_keys.
  split; [|split].
  - intros Hb Hn. rewrite Hb.
    destruct before as [|a [|b [|c [|d [|e [|f [|g before]]]]]]];
      try discriminate Hb.
    destruct Hn as [-> | [-> | ->]]; reflexivity.
  - intros Hb ->. rewrite Hb.
    destruct before as [|a [|b [|c [|d [|e [|f [|g before]]]]]]];
      try discriminate Hb.
    reflexivity.
  - intros [Hb | (H5 & H7 & H2)].
    + apply Nat.eqb_neq in Hb. rewrite Hb, !andb_false_r. reflexivity.
    + apply Nat.eqb_neq in H5, H7, H2. rewrite H5, H7, H2. reflexivity.
Qed.

(** The schema after the answer of a meter without setpoint, and after a
    controller answer of six values. *)
Lemma schema_adjustment_witness :
  List.length (keys (fst (snd (get scenarios.five_token_world)))) = 5%nat /\
  keys (fst (snd (get scenarios.locked_world))) = baseline_keys.
Proof.
  split.
  - destruct (schema_adjustment scenarios.five_token_world
      (snd (hw_call (_write_and_read "A") scenarios.five_token_world))
      "A 14.2 25.1 2.502 2.499 A" false
      ["14.2"; "25.1"; "2.502"; "2.499"; "A"]) as (H & _);
      [vm_compute; reflexivity | vm_compute; reflexivity
      | vm_compute; reflexivity |].
    apply H; [reflexivity | left; reflexivity].
  - destruct (schema_adjustment scenarios.locked_world
      (snd (hw_call (_write_and_read "A") scenarios.locked_world))
      "A 14.2 25.1 2.502 2.499 LCK" true
      ["14.2"; "25.1"; "2.502"; "2.499"]) as (_ & _ & H);
      [vm_compute; reflexivity | vm_compute; reflexivity
      | vm_compute; reflexivity |].
    apply H. right. repeat split; discriminate.
Defined.

(** C3 as stated fails.  The locked answer leaves four values against a
    schema that keeps its six fields; and once a five-value answer has
    shortened the schema to five fields, a six-value answer does not
    lengthen it again. *)
Lemma schema_length_counterexample :
  decode "A" "A 14.2 25.1 2.502 2.499 LCK" =
    Ok (true, ["14.2"; "25.1"; "2.502"; "2.499"]) /\
  List.length (keys (fst (snd (get scenarios.locked_world)))) = 6%nat /\
  decode "A" "A 14.2 25.1 2.502 2.499 2.500 A" =
    Ok (false, ["14.2"; "25.1"; "2.502"; "2.499"; "2.500"; "A"]) /\
  List.length
    (keys (fst (snd ((get ;; get) scenarios.meter_then_controller_world)))) =
    5%nat.
Proof.
  repeat split; vm_compute; reflexivity.
Qed.

(** C4.  Against the baseline schema, an answer of [n] values, [n] being 5,
    6, 7 or 2, is returned as the mapping that zips the adjusted schema
    with the coerced values: without [setpoint] for 5, the baseline for 6,
    with [total flow] at position 5 for 7, [pressure] and [setpoint] for 2;
    the mapping has [n] entries.  The answer [A 14.2 25.1 2.502 2.499 A]
    gives pressure 14.2, temperature 25.1, volumetric flow 2.502, mass flow
    2.499 and gas [A]. *)
Theorem get_mapping_follows_adjustment :
  (forall (w w1 : World) (line : string) (lck : bool) (values : list string),
      open (fst w) = true ->
      keys (fst w) = baseline_keys ->
      hw_call (_write_and_read (unit_id (fst w))) w = (Ok (Some line), w1) ->
      decode (unit_id (fst w)) line = Ok (lck, values) ->
      In (List.length values) [5; 6; 7; 2]%nat ->
      let ks :=
        match List.length values with
        | 5%nat => ["pressure"; "temperature"; "volumetric_flow"; "mass_flow";
                    "gas"]
        | 7%nat => ["pressure"; "temperature"; "volumetric_flow"; "mass_flow";
                    "setpoint"; "total flow"; "gas"]
        | 2%nat => ["pressure"; "setpoint"]
        | _ => baseline_keys
        end in
      fst (get w) = Ok (combine ks (map coerce values)) /\
      List.length (combine ks (map coerce values)) = List.length values) /\
  fst (get scenarios.five_token_world) =
    Ok [("pressure", VFloat scenarios.f14_2);
        ("temperature", VFloat scenarios.f25_1);
        ("volumetric_flow", VFloat scenarios.f2_502);
        ("mass_flow", VFloat scenarios.f2_499);
        ("gas", VStr "A")].
Proof.
  split; [|vm_compute; reflexivity].
  intros w w1 line lck values Ho Hk Hrun Hd Hn ks. subst ks.
  rewrite (get_line w w1 line Ho Hrun), Hd, Hk.
  destruct values as [|v1 [|v2 [|v3 [|v4 [|v5 [|v6 [|v7 [|v8 values]]]]]]]];
    cbn in Hn;
    repeat (destruct Hn as [Hn | Hn]; try discriminate Hn);
    try contradiction;
    split; reflexivity.
Qed.

(** The rule at the scenario of a meter without setpoint. *)
Lemma get_mapping_follows_adjustment_witness :
  fst (get scenarios.five_token_world) =
    Ok (combine
          ["pressure"; "temperature"; "volumetric_flow"; "mass_flow"; "gas"]
          (map coerce ["14.2"; "25.1"; "2.502"; "2.499"; "A"])).
Proof.
  destruct get_mapping_follows_adjustment as [H _].
  destruct (H scenarios.five_token_world
      (snd (hw_call (_write_and_read "A") scenarios.five_token_world))
      "A 14.2 25.1 2.502 2.499 A" false
      ["14.2"; "25.1"; "2.502"; "2.499"; "A"]) as [Hget _];
    [ vm_compute; reflexivity | vm_compute; reflexivity
    | vm_compute; reflexivity | vm_compute; reflexivity
    | left; reflexivity | exact Hget ].
Defined.

(** *** Verification of a setpoint write *)

(** [_set_setpoint] once the exchange has returned a line or nothing. *)
Lemma set_setpoint_answer (x : Py.float) (w w1 : World)
    (answer : option string) :
  open (fst w) = true ->
  hw_call (_write_and_read (setpoint_command (unit_id (fst w)) x)) w =
    (Ok answer, w1) ->
  _set_setpoint x w = (check_setpoint answer x, w1).
Proof.
  intros Ho Hrun. rewrite (set_setpoint_open x w Ho), Hrun. reflexivity.
Qed.

(** C7, as the code has it.  When the answer to the setpoint command has a
    token at position 5 that reads as the float [c], the write succeeds
    exactly when [abs(c - x) > 0.01] is false in binary64 arithmetic, and
    raises the verification [OSError] exactly when it is true; a computed
    difference equal to the float 0.01 succeeds.  When the answer has no
    token at position 5 the write succeeds unverified. *)
Theorem set_setpoint_verification (x : Py.float) (w w1 : World)
    (line : string) :
  open (fst w) = true ->
  hw_call (_write_and_read (setpoint_command (unit_id (fst w)) x)) w =
    (Ok (Some line), w1) ->
  (forall tok c,
      nth_error (Py.split line) 5 = Some tok ->
      Py.float_of_str tok = Some c ->
      (fst (_set_setpoint x w) = Ok tt <->
       Py.fgt (Py.fabs (Py.fsub c x)) tolerance = false) /\
      (fst (_set_setpoint x w) = Raise (OSError "Could not set setpoint.") <->
       Py.fgt (Py.fabs (Py.fsub c x)) tolerance = true) /\
      (Py.fabs (Py.fsub c x) = tolerance -> fst (_set_setpoint x w) = Ok tt)) /\
  (nth_error (Py.split line) 5 = None -> fst (_set_setpoint x w) = Ok tt).
Proof.
  intros Ho Hrun. rewrite (set_setpoint_answer x w w1 _ Ho Hrun).
  cbn [fst check_setpoint]. split.
  - intros tok c Htok Hc. rewrite Htok, Hc.
    destruct (Py.fgt (Py.fabs (Py.fsub c x)) tolerance) eqn:Hgt.
    + repeat split; try discriminate; auto.
      intros E. rewrite E in Hgt. vm_compute in Hgt. discriminate Hgt.
    + repeat split; try discriminate; auto.
  - intros ->. reflexivity.
Qed.

(** An echo of 5.01 for a setpoint of 5 is accepted, and an answer of five
    tokens is accepted without a check. *)
Lemma set_setpoint_verification_witness :
  fst (_set_setpoint scenarios.f5 (scenarios.echo_world "5.01")) = Ok tt /\
  fst (_set_setpoint scenarios.f5 scenarios.short_echo_world) = Ok tt.
Proof.
  split.
  - destruct (set_setpoint_verification scenarios.f5
      (scenarios.echo_world "5.01")
      (snd (hw_call (_write_and_read "AS5.00") (scenarios.echo_world "5.01")))
      "A +014.70 +025.00 +00.000 +00.000 5.01 Air") as [H _];
      [vm_compute; reflexivity | vm_compute; reflexivity |].
    destruct (H "5.01" (Py.of_decimal false 501 (-2))) as [[_ Hok] _];
      [vm_compute; reflexivity | vm_compute; reflexivity |].
    apply Hok. vm_compute. reflexivity.
  - destruct (set_setpoint_verification scenarios.f5
      scenarios.short_echo_world
      (snd (hw_call (_write_and_read "AS5.00") scenarios.short_echo_world))
      "A +014.70 +025.00 +00.000 +00.000") as [_ H];
      [vm_compute; reflexivity | vm_compute; reflexivity |].
    apply H. vm_compute. reflexivity.
Defined.

(** C7 as stated fails.  An answer without a token at position 5 lets the
    write succeed although no echoed value was read; an echoed NaN is
    accepted although it is within 0.01 of nothing; and an echo of 1.01
    for a setpoint of 1, a decimal difference of exactly 0.01, is refused,
    because the binary64 difference exceeds the binary64 0.01. *)
Lemma set_setpoint_counterexample :
  nth_error (Py.split "A +014.70 +025.00 +00.000 +00.000") 5 = None /\
  fst (_set_setpoint scenarios.f5 scenarios.short_echo_world) = Ok tt /\
  Py.float_of_str "nan" = Some S754_nan /\
  fst (_set_setpoint scenarios.f5 scenarios.nan_echo_world) = Ok tt /\
  fst (_set_setpoint scenarios.f1 (scenarios.echo_world "1.01")) =
    Raise (OSError "Could not set setpoint.") /\
  fst (_set_setpoint zero (scenarios.echo_world "0.01")) = Ok tt.
Proof.
  repeat split; vm_compute; reflexivity.
Qed.

(** *** Gas mixes *)

(** [create_mix] once the firmware is known. *)
Lemma create_mix_known_firmware (mix_no : Z) (name : string)
    (mix : list (string * Z)) (w w1 : World) (fw : string) :
  open (fst w) = true ->
  get_firmware w = (Ok (Some fw), w1) ->
  create_mix mix_no name mix w =
    (if unsupported_firmware fw
     then raise (OSError "This unit does not support COMPOSER gas mixes.")
     else if (mix_no <? 236)%Z || (mix_no >? 255)%Z
     then raise (ValueError "Mix number must be between 236-255!")
     else if negb (Z.eqb (fold_left Z.add (map snd mix) 0%Z) 100)
     then raise (ValueError "Percentages of gas mix must add to 100%!")
     else if existsb (fun gp : string * Z => negb (Py.mem (fst gp) gases)) mix
     then raise (ValueError "Gas not supported!")
     else
       line <- hw_call (_write_and_read
                          (mix_command (unit_id (fst w1)) name mix_no mix)) ;;
       match line with
       | Some "?" => raise (OSError "Unable to create mix.")
       | _ => ret tt
       end) w1.
Proof.
  intros Ho Hfw. unfold create_mix.
  unfold bind at 1. unfold _test_controller_open at 1.
  unfold bind at 1. unfold self at 1, gets at 1. rewrite Ho. cbn [negb].
  unfold ret at 1. unfold bind at 1. rewrite Hfw.
  unfold unsupported_firmware.
  repeat match goal with
         | |- (if ?b then _ else _) _ = (if ?b then _ else _) _ =>
             destruct b; [reflexivity|]
         end.
  reflexivity.
Qed.

(** The firmware query: nothing is sent when the version is cached; the
    [VE] command is sent first otherwise. *)
Lemma get_firmware_cached (w : World) (fw : string) :
  firmware (fst w) = Some fw -> get_firmware w = (Ok (Some fw), w).
Proof.
  intros H. unfold get_firmware. run_calls. rewrite H. cbv beta iota.
  rewrite H. reflexivity.
Qed.

Lemma get_firmware_query (w : World) :
  open (fst w) = true ->
  firmware (fst w) = None ->
  get_firmware w =
    let (r, w') :=
      hw_call (_write_and_read (unit_id (fst w) ++ "VE")) w in
    match r with
    | Ok o => (Ok o, (set_firmware o (fst w'), snd w'))
    | Raise e => (Raise e, w')
    end.
Proof.
  intros Ho H. unfold get_firmware. run_calls. rewrite H. cbv beta iota.
  rewrite Ho. cbn [negb]. cbv beta iota.
  destruct (hw_call _ w) as [[o|e] w']; reflexivity.
Qed.

(** C8, as the code has it.  [create_mix] first obtains the firmware
    version: from the cache, sending nothing, or by the [VE] command when
    it is not cached yet.  With a firmware that supports mixes, a slot
    outside 236..255, percentages whose sum is not 100 and a gas missing
    from the table are each refused with a [ValueError], in this order,
    before the mix command is sent: the state is the one the firmware
    query left.  A valid request makes the exchange of the mix command,
    and fails only on the answer [?] or with the exception that leaves
    the exchange. *)
Theorem create_mix_validation (mix_no : Z) (name : string)
    (mix : list (string * Z)) (w w1 : World) (fw : string) :
  open (fst w) = true ->
  get_firmware w = (Ok (Some fw), w1) ->
  unsupported_firmware fw = false ->
  let total := fold_left Z.add (map snd mix) 0%Z in
  let in_range := (236 <= mix_no <= 255)%Z in
  let command := mix_command (unit_id (fst w1)) name mix_no mix in
  let r := create_mix mix_no name mix w in
  (~ in_range ->
   r = (Raise (ValueError "Mix number must be between 236-255!"), w1)) /\
  (in_range -> total <> 100%Z ->
   r = (Raise (ValueError "Percentages of gas mix must add to 100%!"), w1)) /\
  (in_range -> total = 100%Z ->
   (exists g p, In (g, p) mix /\ Py.mem g gases = false) ->
   r = (Raise (ValueError "Gas not supported!"), w1)) /\
  (in_range -> total = 100%Z ->
   (forall g p, In (g, p) mix -> Py.mem g gases = true) ->
   exists answer w2,
     hw_call (_write_and_read command) w1 = (answer, w2) /\
     r = (match answer with
          | Ok (Some "?") => Raise (OSError "Unable to create mix.")
          | Ok _ => Ok tt
          | Raise e => Raise e
          end, w2) /\
     (util.open (hw (fst w1)) = true ->
      wire (snd w2) = wire (snd w1) ++ [frame (hw (fst w1)) command])) /\
  (firmware (fst w) <> None -> w1 = w) /\
  (firmware (fst w) = None ->
   wire (snd w1) =
     wire (snd w) ++ [frame (hw (fst w)) (unit_id (fst w) ++ "VE")]).
Proof.
  intros Ho Hfw Hsup total in_range command r.
  assert (Hr : r = _) by exact (create_mix_known_firmware _ _ _ _ _ _ Ho Hfw).
  rewrite Hsup in Hr. fold total in Hr. fold command in Hr.
  split; [|split; [|split; [|split; [|split]]]].
  - intros Hout. rewrite Hr.
    assert (E : (mix_no <? 236)%Z || (mix_no >? 255)%Z = true).
    { unfold in_range in Hout. apply orb_true_iff.
      destruct (Z.ltb_spec mix_no 236); [left; reflexivity|].
      right. apply Z.gtb_lt. lia. }
    rewrite E. reflexivity.
  - intros Hin Htot. rewrite Hr.
    assert (E : (mix_no <? 236)%Z || (mix_no >? 255)%Z = false).
    { unfold in_range in Hin. apply orb_false_iff. split.
      - apply Z.ltb_ge. lia.
      - rewrite Z.gtb_ltb. apply Z.ltb_ge. lia. }
    rewrite E. apply Z.eqb_neq in Htot. rewrite Htot. reflexivity.
  - intros Hin Htot (g & p & Hg & Hmem). rewrite Hr.
    assert (E : (mix_no <? 236)%Z || (mix_no >? 255)%Z = false).
    { unfold in_range in Hin. apply orb_false_iff. split.
      - apply Z.ltb_ge. lia.
      - rewrite Z.gtb_ltb. apply Z.ltb_ge. lia. }
    rewrite E. rewrite Htot. cbn [Z.eqb Pos.eqb negb].
    assert (E2 : existsb (fun gp : string * Z => negb (Py.mem (fst gp) gases))
                   mix = true).
    { apply existsb_exists. exists (g, p). split; [exact Hg|].
      cbn [fst]. rewrite Hmem. reflexivity. }
    rewrite E2. reflexivity.
  - intros Hin Htot Hall.
    assert (E : (mix_no <? 236)%Z || (mix_no >? 255)%Z = false).
    { unfold in_range in Hin. apply orb_false_iff. split.
      - apply Z.ltb_ge. lia.
      - rewrite Z.gtb_ltb. apply Z.ltb_ge. lia. }
    rewrite E in Hr. rewrite Htot in Hr. cbn [Z.eqb Pos.eqb negb] in Hr.
    assert (E2 : existsb (fun gp : string * Z => negb (Py.mem (fst gp) gases))
                   mix = false).
    { destruct (existsb _ mix) eqn:Hex; [|reflexivity].
      apply existsb_exists in Hex. destruct Hex as ([g p] & Hg & Hneg).
      cbn [fst] in Hneg. rewrite (Hall g p Hg) in Hneg. discriminate Hneg. }
    rewrite E2 in Hr.
    destruct (hw_exchange command w1) as (answer & w2 & Hrun & _ & _).
    exists answer, w2. split; [exact Hrun|]. split.
    + rewrite Hr. unfold bind. rewrite Hrun.
      destruct answer as [[[|[[] [] [] [] [] [] [] []] [|c' s']]|]|e];
        reflexivity.
    + intros Hopen.
      pose proof (write_and_read_open_wire command (hw (fst w1)) (snd w1) Hopen)
        as Hw.
      unfold hw_call, zoom in Hrun.
      destruct (_write_and_read command (hw (fst w1), snd w1)) as [r' s'].
      injection Hrun as _ <-. exact Hw.
  - intros Hcached. destruct (firmware (fst w)) as [fw'|] eqn:Hf;
      [|contradiction Hcached; reflexivity].
    rewrite (get_firmware_cached w fw' Hf) in Hfw. injection Hfw as _ <-.
    reflexivity.
  - intros Hnone. rewrite (get_firmware_query w Ho Hnone) in Hfw.
    destruct (hw_exchange (unit_id (fst w) ++ "VE") w)
      as (r0 & w' & Hrun & _ & [Hwire | [Hno _]] & _); rewrite Hrun in Hfw.
    + destruct r0 as [o|e]; [|discriminate Hfw].
      injection Hfw as _ <-. exact Hwire.
    + destruct r0 as [[line|]|e]; try discriminate Hfw.
      contradiction (Hno line). reflexivity.
Qed.

(** A first call on a device with firmware 5v12: slot 300 is refused after
    the firmware query alone; slot 240 with a valid mix sends the mix
    command. *)
Lemma create_mix_validation_witness :
  create_mix 300 "mix" scenarios.n2_ar scenarios.mix_world =
    (Raise (ValueError "Mix number must be between 236-255!"),
     scenarios.mix_world_queried) /\
  wire (snd (snd (create_mix 240 "mix" scenarios.n2_ar scenarios.mix_world))) =
    [frame scenarios.connected "AVE";
     frame scenarios.connected "A GM mix 240 50 8 50 1"].
Proof.
  split.
  - destruct (create_mix_validation 300 "mix" scenarios.n2_ar
                scenarios.mix_world scenarios.mix_world_queried "5v12.0")
      as (H & _);
      [vm_compute; reflexivity | vm_compute; reflexivity
      | vm_compute; reflexivity |].
    apply H. cbv zeta. lia.
  - destruct (create_mix_validation 240 "mix" scenarios.n2_ar
                scenarios.mix_world scenarios.mix_world_queried "5v12.0")
      as (_ & _ & _ & H & _);
      [vm_compute; reflexivity | vm_compute; reflexivity
      | vm_compute; reflexivity |].
    destruct H as (answer & w2 & _ & Hr & Hwire).
    + cbv zeta. lia.
    + reflexivity.
    + intros g p [[= <- <-] | [[= <- <-] | []]]; vm_compute; reflexivity.
    + rewrite Hr. cbn [snd]. rewrite (Hwire eq_refl). vm_compute. reflexivity.
Defined.

(** C8 as stated fails.  On a session whose firmware is not cached, the
    firmware query [AVE] is on the wire when the slot, the sum or the gas
    name is refused. *)
Lemma create_mix_counterexample :
  firmware (fst scenarios.mix_world) = None /\
  fst (create_mix 300 "mix" scenarios.n2_ar scenarios.mix_world) =
    Raise (ValueError "Mix number must be between 236-255!") /\
  wire (snd (snd (create_mix 300 "mix" scenarios.n2_ar scenarios.mix_world))) =
    [frame scenarios.connected "AVE"] /\
  fst (create_mix 240 "mix" [("N2", 50%Z); ("Ar", 49%Z)] scenarios.mix_world) =
    Raise (ValueError "Percentages of gas mix must add to 100%!") /\
  wire (snd (snd (create_mix 240 "mix" [("N2", 50%Z); ("Ar", 49%Z)]
                    scenarios.mix_world))) =
    [frame scenarios.connected "AVE"] /\
  fst (create_mix 240 "mix" [("N2", 50%Z); ("Zz", 50%Z)] scenarios.mix_world) =
    Raise (ValueError "Gas not supported!") /\
  wire (snd (snd (create_mix 240 "mix" [("N2", 50%Z); ("Zz", 50%Z)]
                    scenarios.mix_world))) =
    [frame scenarios.connected "AVE"].
Proof.
  repeat split; vm_compute; reflexivity.
Qed.

(** *** [set_gas] *)

(** C9 at the failing input.  For unit [A] as for unit [B], the frame that
    should read register 46 back is the text [f{self.unit}$$R46], which
    names no unit; the frame addressed to the unit is never written.  The
    rest of the method does what the claim says: the name is resolved to
    its index (N2 is 8), an unknown name is refused before anything is
    sent, and the read-back is compared after masking to nine bits (520
    reads as 8, 9 does not match). *)
Theorem set_gas_read_back_frame :
  wire (snd (snd (set_gas (GasName "N2")
                    (scenarios.gas_world "A" "A   046 = 8")))) =
    [frame scenarios.connected "A$$W46=8";
     frame scenarios.connected "f{self.unit}$$R46"] /\
  wire (snd (snd (set_gas (GasName "N2")
                    (scenarios.gas_world "B" "B   046 = 8")))) =
    [frame scenarios.connected "B$$W46=8";
     frame scenarios.connected "f{self.unit}$$R46"] /\
  frame scenarios.connected "f{self.unit}$$R46" <>
    frame scenarios.connected "A$$R46" /\
  fst (set_gas (GasName "N2") (scenarios.gas_world "A" "A   046 = 520")) =
    Ok tt /\
  fst (set_gas (GasName "N2") (scenarios.gas_world "A" "A   046 = 9")) =
    Raise (OSError "Cannot set gas.") /\
  set_gas (GasName "Xe2") (scenarios.gas_world "A" "A   046 = 8") =
    (Raise (ValueError "Xe2 not supported!"),
     scenarios.gas_world "A" "A   046 = 8").
Proof.
  repeat split; try (vm_compute; reflexivity).
  vm_compute. discriminate.
Qed.

End driver_facts.

(** ** More about the client *)

Module util_more.
Import util util_facts driver_rest.



(** Timeouts on an open client whose counter is at or past the limit. *)
Lemma exchanges_past_limit (command : string) (n : nat) :
  forall (c : Client) (l : Link) (rest : list outcome),
    open c = true ->
    (max_timeouts c <= timeouts c)%Z ->
    replies l = repeat Timeout n ++ rest ->
    exists s' : Conn,
      scenarios.exchanges n command (c, l) = (Ok tt, s') /\
      open (fst s') = true /\
      timeouts (fst s') = (timeouts c + Z.of_nat n)%Z /\
      max_timeouts (fst s') = max_timeouts c /\
      replies (snd s') = rest.
Proof.
  induction n as [|n IH]; intros c l rest Ho Hge Hr.
  - exists (c, l). cbn in *. repeat split; auto. lia.
  - cbn [scenarios.exchanges]. unfold bind.
    rewrite write_and_read_open by exact Ho.
    cbn [repeat app] in Hr. rewrite Hr. cbn [tl].
    assert (Hne : Z.eqb (timeouts c + 1) (max_timeouts c) = false)
      by (apply Z.eqb_neq; lia).
    destruct (IH (after_failure c)
                 {| connects := connects l; replies := repeat Timeout n ++ rest;
                    leftovers := leftovers l;
                    wire := wire l ++ [frame c command] |} rest)
      as (s' & Hrun & H1 & H2 & H3 & H4).
    + unfold after_failure. cbn. rewrite Hne. exact Ho.
    + unfold after_failure. cbn. rewrite Hne. cbn. lia.
    + reflexivity.
    + exists s'. rewrite Hrun. split; [reflexivity|].
      unfold after_failure in H2, H3. cbn in H2, H3. rewrite Hne in H2, H3.
      cbn in H2, H3. repeat split; auto. lia.
Qed.

(** X2.  The limit closes the client once.  A client that the limit has
    closed keeps its counter when it reconnects, and the test is an
    equality: however many exchanges then time out, the client stays open
    and the counter keeps growing past the limit.  The reconnection reads
    stale bytes once; the statement is about a stream from which that read
    lets no exception leave, as on a silent device. *)
Theorem limit_closes_once (command : string) (n : nat) (c : Client) (l : Link)
    (cs : list bool) (rest : list outcome) :
  open c = false ->
  timeouts c = max_timeouts c ->
  connects l = true :: cs ->
  escapes_clear (next (leftovers l)) = None ->
  replies l = repeat Timeout (S n) ++ rest ->
  exists s' : Conn,
    scenarios.exchanges (S n) command (c, l) = (Ok tt, s') /\
    open (fst s') = true /\
    timeouts (fst s') = (max_timeouts c + Z.of_nat (S n))%Z.
Proof.
  intros Ho Ht Hc Hesc Hr.
  cbn [scenarios.exchanges]. unfold bind.
  rewrite (write_and_read_reconnect command c l cs Ho Hc). cbv zeta.
  rewrite Hesc.
  set (c1 := reconnected c (next (leftovers l))).
  destruct (reconnected_attrs c (next (leftovers l)))
    as (Ho1 & _ & Ht1 & Hm1 & _).
  fold c1 in Ho1, Ht1, Hm1.
  rewrite write_and_read_open by exact Ho1.
  cbn [replies]. rewrite Hr. cbn [repeat app tl].
  assert (Hne : Z.eqb (timeouts c1 + 1) (max_timeouts c1) = false)
    by (apply Z.eqb_neq; lia).
  assert (Haf : after_failure c1 = set_timeouts (timeouts c1 + 1) c1).
  { unfold after_failure. cbn [timeouts set_timeouts max_timeouts].
    rewrite Hne. reflexivity. }
  destruct (exchanges_past_limit command n (after_failure c1)
              {| connects := cs; replies := repeat Timeout n ++ rest;
                 leftovers := tl (leftovers l);
                 wire := wire l ++ [frame c1 command] |} rest)
    as (s' & Hrun & H1 & H2 & _).
  - rewrite Haf. exact Ho1.
  - rewrite Haf. cbn [timeouts set_timeouts max_timeouts]. lia.
  - reflexivity.
  - cbn [connects wire leftovers]. rewrite Hrun. exists s'.
    split; [reflexivity|].
    split; [exact H1|]. rewrite H2, Haf.
    cbn [timeouts set_timeouts max_timeouts]. lia.
Qed.

(** A client closed at a counter of 10 that reconnects and times out five
    more times. *)
Lemma limit_closes_once_witness :
  exists s' : Conn,
    scenarios.exchanges 5 "A"
      (set_timeouts 10 (SerialClient "/dev/ttyUSB0"),
       {| connects := [true]; replies := repeat Timeout 5;
          leftovers := []; wire := [] |}) =
      (Ok tt, s') /\
    open (fst s') = true /\ timeouts (fst s') = 15%Z.
Proof.
  exact (limit_closes_once "A" 4
           (set_timeouts 10 (SerialClient "/dev/ttyUSB0"))
           {| connects := [true]; replies := repeat Timeout 5;
              leftovers := []; wire := [] |}
           [] [] eq_refl eq_refl eq_refl eq_refl eq_refl).
Defined.

(** X3.  A stream that ends early is not a timeout: the exchange returns
    [None] with the frame written, and any number of such exchanges leaves
    the client as it was: open, the counter untouched. *)
Theorem incomplete_reads_not_counted (command : string) (n : nat) :
  forall (c : Client) (l : Link) (rest : list outcome),
    open c = true ->
    replies l = repeat IncompleteRead n ++ rest ->
    scenarios.exchanges n command (c, l) =
      (Ok tt,
       (c, {| connects := connects l; replies := rest;
              leftovers := leftovers l;
              wire := wire l ++ repeat (frame c command) n |})) /\
    (forall rest', replies l = IncompleteRead :: rest' ->
       fst (_write_and_read command (c, l)) = Ok None).
Proof.
  induction n as [|n IH]; intros c l rest Ho Hr.
  - split.
    + cbn in *. rewrite app_nil_r. subst rest. destruct l; reflexivity.
    + intros rest' Hr'. rewrite write_and_read_open by exact Ho.
      rewrite Hr'. reflexivity.
  - split.
    + cbn [scenarios.exchanges]. unfold bind.
      rewrite write_and_read_open by exact Ho.
      cbn [repeat app] in Hr. rewrite Hr.
      destruct (IH c {| connects := connects l;
                        replies := repeat IncompleteRead n ++ rest;
                        leftovers := leftovers l;
                        wire := wire l ++ [frame c command] |} rest Ho eq_refl)
        as [E _].
      rewrite E. cbn [connects wire repeat]. rewrite <- app_assoc.
      reflexivity.
    + intros rest' Hr'. rewrite write_and_read_open by exact Ho.
      rewrite Hr'. reflexivity.
Qed.

(** Three early ends in a row on a connected client. *)
Lemma incomplete_reads_not_counted_witness :
  snd (scenarios.exchanges 3 "A"
         (scenarios.connected,
          {| connects := []; replies := repeat IncompleteRead 3;
             leftovers := []; wire := [] |})) =
    (scenarios.connected,
     {| connects := []; replies := [];
        leftovers := []; wire := repeat (frame scenarios.connected "A") 3 |}).
Proof.
  destruct (incomplete_reads_not_counted "A" 3 scenarios.connected
              {| connects := []; replies := repeat IncompleteRead 3;
                 leftovers := []; wire := [] |} [] eq_refl eq_refl) as [E _].
  rewrite E. reflexivity.
Defined.

(** X4.  [_handle_connection] writes nothing, consumes no answer and
    leaves the counter alone.  An open client is left as it is, without a
    connection attempt.  A closed client ends open exactly when the
    attempt succeeds.  A refused attempt sets [reconnecting] and reads
    nothing.  A successful attempt sets the streams and reads stale bytes
    once: the call returns unless that read ends in an exception that is
    neither a timeout nor an [OSError], which then leaves the call; and
    when the read ends in an [OSError] the call returns with the client
    open and [reconnecting] set. *)
Theorem handle_connection_spec (s : Conn) :
  let r := fst (_handle_connection s) in
  let s' := snd (_handle_connection s) in
  wire (snd s') = wire (snd s) /\
  replies (snd s') = replies (snd s) /\
  timeouts (fst s') = timeouts (fst s) /\
  (open (fst s) = true -> r = Ok tt /\ s' = s) /\
  (open (fst s) = false ->
   connects (snd s') = tl (connects (snd s)) /\
   open (fst s') = hd false (connects (snd s)) /\
   (hd false (connects (snd s)) = false ->
    r = Ok tt /\ reconnecting (fst s') = true /\
    leftovers (snd s') = leftovers (snd s) /\
    streams (fst s') = streams (fst s)) /\
   (hd false (connects (snd s)) = true ->
    let stale := next (leftovers (snd s)) in
    fst s' = reconnected (fst s) stale /\
    streams (fst s') = true /\
    leftovers (snd s') = tl (leftovers (snd s)) /\
    (forall e, r = Raise e <-> escapes_clear stale = Some e) /\
    (escapes_clear stale = None -> r = Ok tt) /\
    (forall msg, stale = Fails (OSError msg) ->
       r = Ok tt /\ reconnecting (fst s') = true) /\
    (failure stale = None \/ failure stale = Some TimeoutError ->
       r = Ok tt /\ reconnecting (fst s') = false))).
Proof.
  destruct s as [c l]. cbv zeta. cbn [fst snd].
  destruct (open c) eqn:Ho.
  - rewrite (handle_connection_open c l Ho). cbn [fst snd].
    repeat split; auto; discriminate.
  - destruct (connects l) as [|[] cs] eqn:Hc.
    + unfold _handle_connection, bind, attr, gets. cbn [fst snd].
      rewrite Ho.
      unfold try_except, bind, _connect, bind, close, on_client, modify.
      cbn. rewrite Hc. cbn.
      repeat split; auto; try discriminate.
    + rewrite (handle_connection_connects c l cs Ho Hc). cbn [fst snd].
      destruct (reconnected_attrs c (next (leftovers l)))
        as (E1 & E2 & E3 & _).
      split; [reflexivity|]. split; [reflexivity|]. split; [exact E3|].
      split; [discriminate|]. intros _.
      split; [reflexivity|]. split; [exact E1|]. split; [discriminate|].
      intros _.
      split; [reflexivity|]. split; [exact E2|]. split; [reflexivity|].
      split; [|split; [|split]].
      * intros e. destruct (escapes_clear (next (leftovers l))) as [e0|];
          split; congruence.
      * intros ->. reflexivity.
      * intros msg ->. cbn. split; reflexivity.
      * unfold reconnected.
        destruct (next (leftovers l)) as [raw | | | e]; cbn;
          intros [H | H]; try discriminate H; try (split; reflexivity).
        injection H as ->. split; reflexivity.
    + unfold _handle_connection, bind, attr, gets. cbn [fst snd].
      rewrite Ho.
      unfold try_except, bind, _connect, bind, close, on_client, modify.
      cbn. rewrite Hc. cbn.
      repeat split; auto; try discriminate.
Qed.

(** A reconnection whose read of stale bytes ends in an [OSError], and one
    that reads bytes that are not UTF-8. *)
Lemma handle_connection_spec_witness :
  (fst (_handle_connection
          (SerialClient "/dev/ttyUSB0",
           {| connects := [true]; replies := [];
              leftovers := [Fails (OSError "read")]; wire := [] |})) = Ok tt /\
   reconnecting
     (fst (snd (_handle_connection
                  (SerialClient "/dev/ttyUSB0",
                   {| connects := [true]; replies := [];
                      leftovers := [Fails (OSError "read")];
                      wire := [] |})))) = true) /\
  fst (_handle_connection
         (SerialClient "/dev/ttyUSB0",
          {| connects := [true]; replies := [];
             leftovers := [Fails UnicodeDecodeError]; wire := [] |})) =
    Raise UnicodeDecodeError.
Proof.
  split.
  - destruct (handle_connection_spec
                (SerialClient "/dev/ttyUSB0",
                 {| connects := [true]; replies := [];
                    leftovers := [Fails (OSError "read")]; wire := [] |}))
      as (_ & _ & _ & _ & H).
    destruct (H eq_refl) as (_ & _ & _ & Hc).
    destruct (Hc eq_refl) as (_ & _ & _ & _ & _ & Hos & _).
    exact (Hos "read" eq_refl).
  - destruct (handle_connection_spec
                (SerialClient "/dev/ttyUSB0",
                 {| connects := [true]; replies := [];
                    leftovers := [Fails UnicodeDecodeError]; wire := [] |}))
      as (_ & _ & _ & _ & H).
    destruct (H eq_refl) as (_ & _ & _ & Hc).
    destruct (Hc eq_refl) as (_ & _ & _ & Hr & _).
    apply Hr. reflexivity.
Defined.

Lemma remove_char_count (c : ascii) (s : string) :
  count_char c (Py.remove_char c s) = 0%nat.
Proof.
  induction s as [|d s IH]; [reflexivity|].
  cbn [Py.remove_char]. destruct (Ascii.eqb d c) eqn:E; [exact IH|].
  cbn [count_char]. rewrite E. exact IH.
Qed.

(** X5.  No NUL character is left in a line that [_readline] returns. *)
Theorem readline_without_nul (s s' : Conn) (line : string) :
  _readline s = (Ok line, s') ->
  count_char NUL line = 0%nat.
Proof.
  destruct s as [c l]. unfold _readline.
  destruct (replies l) as [|[raw | | | e] rest]; try discriminate.
  intros [= <- _]. apply remove_char_count.
Qed.

(** A line with a NUL inside. *)
Lemma readline_without_nul_witness :
  count_char NUL
    (Py.remove_char NUL
       (Py.strip (String "A" (String NUL (String " " (String "1" CR)))))) =
    0%nat.
Proof.
  exact (readline_without_nul
           (scenarios.connected,
            {| connects := [];
               replies := [Line (String "A" (String NUL
                                   (String " " (String "1" CR))))];
               leftovers := []; wire := [] |})
           _ _ eq_refl).
Defined.


Lemma split_on_from_length (sep : ascii) (s cur : string) :
  List.length (Py.split_on_from sep cur s) = S (count_char sep s).
Proof.
  revert cur. induction s as [|d s IH]; intros cur; [reflexivity|].
  cbn [Py.split_on_from count_char].
  destruct (Ascii.eqb d sep); cbn [List.length]; rewrite IH; reflexivity.
Qed.

(** X6.  [TcpClient] accepts an address exactly when it holds one colon;
    any other address is refused with the [ValueError] of the
    constructor. *)
Theorem tcp_address_one_colon (addr : string) :
  ((exists c, TcpClient addr = Ok c) <-> count_char ":" addr = 1%nat) /\
  (count_char ":" addr <> 1%nat ->
   TcpClient addr = Raise (ValueError "address must be hostname:port")) /\
  (forall c, TcpClient addr = Ok c ->
     open c = false /\ timeouts c = 0%Z /\ max_timeouts c = 10%Z).
Proof.
  unfold TcpClient, Py.split_on.
  pose proof (split_on_from_length ":" addr "") as Hlen.
  destruct (Py.split_on_from ":" "" addr) as [|a [|b [|x rest]]];
    cbn [List.length] in Hlen; [discriminate Hlen | | | ];
    injection Hlen as Hlen.
  - split; [split|split].
    + intros [c Hc]. discriminate Hc.
    + intros H. rewrite H in Hlen. discriminate Hlen.
    + reflexivity.
    + intros c Hc. discriminate Hc.
  - split; [split|split].
    + intros _. symmetry. exact Hlen.
    + intros _. eexists. reflexivity.
    + intros H. contradiction H. symmetry. exact Hlen.
    + intros c [= <-]. repeat split.
  - split; [split|split].
    + intros [c Hc]. discriminate Hc.
    + intros H. rewrite H in Hlen. discriminate Hlen.
    + reflexivity.
    + intros c Hc. discriminate Hc.
Qed.

(** [192.168.1.5:4001] is accepted, a bare host name is not. *)
Lemma tcp_address_one_colon_witness :
  (exists c, TcpClient "192.168.1.5:4001" = Ok c) /\
  TcpClient "localhost" = Raise (ValueError "address must be hostname:port").
Proof.
  split.
  - apply (proj1 (tcp_address_one_colon "192.168.1.5:4001")). reflexivity.
  - apply (proj1 (proj2 (tcp_address_one_colon "localhost"))). discriminate.
Defined.


(** The two outcomes of the [TcpClient] constructor. *)
Lemma tcp_client_cases (addr : string) :
  (count_char ":" addr = 1%nat /\
   exists c, TcpClient addr = Ok c /\ open c = false /\
             timeouts c = 0%Z /\ max_timeouts c = 10%Z /\
             reconnecting c = false) \/
  (count_char ":" addr <> 1%nat /\
   TcpClient addr = Raise (ValueError "address must be hostname:port")).
Proof.
  unfold TcpClient, Py.split_on.
  pose proof (split_on_from_length ":" addr "") as Hlen.
  destruct (Py.split_on_from ":" "" addr) as [|a [|b [|x rest]]];
    cbn [List.length] in Hlen; [discriminate Hlen | | | ];
    injection Hlen as Hlen.
  - right. split; [rewrite <- Hlen; discriminate | reflexivity].
  - left. split; [symmetry; exact Hlen|]. eexists. repeat split.
  - right. split; [rewrite <- Hlen; discriminate | reflexivity].
Qed.


End util_more.

(** ** More about the built-ins *)

Module py_facts.
Import Py driver_rest.

Local Open Scope Z_scope.

Ltac digit_head :=
  match goal with
  | |- context [is_digit (Ascii ?a ?b ?c ?d ?e ?f ?g ?h)] =>
      change (is_digit (Ascii a b c d e f g h)) with true; cbv iota
  end.

Ltac digit_value :=
  match goal with
  | |- context [digit_val ?c] =>
      let v := eval vm_compute in (digit_val c) in
      change (digit_val c) with v
  end.

(** The digits of a decimal number read back by [digits_tail]. *)
Lemma digits_tail_acc (d : Decimal.uint) :
  forall (acc : positive) (cnt : Z),
    exists c,
      digits_tail (Zpos acc) cnt (NilEmpty.string_of_uint d) =
        (Zpos (Pos.of_uint_acc d acc), c, EmptyString).
Proof.
  induction d; intros acc cnt;
    [ eexists; reflexivity | .. ];
    cbn [NilEmpty.string_of_uint digits_tail Pos.of_uint_acc];
    digit_head; digit_value;
    match goal with
    | |- context [Pos.of_uint_acc d ?q] =>
        match goal with
        | |- context [digits_tail ?z _ _] =>
            replace z with (Zpos q) by lia; apply IHd
        end
    end.
Qed.

Lemma digits_tail_zero (d : Decimal.uint) :
  forall cnt : Z,
    exists c,
      digits_tail 0 cnt (NilEmpty.string_of_uint d) =
        (Z.of_N (Pos.of_uint d), c, EmptyString).
Proof.
  induction d; intros cnt;
    [ eexists; reflexivity | .. ];
    cbn [NilEmpty.string_of_uint digits_tail Pos.of_uint];
    digit_head.
  - digit_value. apply IHd.
  - apply (digits_tail_acc d 1).
  - apply (digits_tail_acc d 2).
  - apply (digits_tail_acc d 3).
  - apply (digits_tail_acc d 4).
  - apply (digits_tail_acc d 5).
  - apply (digits_tail_acc d 6).
  - apply (digits_tail_acc d 7).
  - apply (digits_tail_acc d 8).
  - apply (digits_tail_acc d 9).
Qed.

Lemma digitpart_uint (d : Decimal.uint) :
  d <> Decimal.Nil ->
  exists c,
    digitpart 0 (NilEmpty.string_of_uint d) =
      Some (Z.of_N (Pos.of_uint d), c, EmptyString).
Proof.
  intros Hd. destruct (digits_tail_zero d 0) as [c Hc].
  exists c. rewrite <- Hc.
  destruct d; [contradiction Hd; reflexivity | ..]; reflexivity.
Qed.

Lemma rev_string_twice (s a b : string) :
  rev_string a (rev_string b s) = rev_string (s ++ a) b.
Proof.
  revert a b. induction s as [|c s IH]; intros a b; [reflexivity|].
  cbn [rev_string]. rewrite IH. reflexivity.
Qed.

Lemma append_empty (s : string) : (s ++ "")%string = s.
Proof. induction s; cbn; congruence. Qed.

Section Blanks.
Variable blank : ascii -> bool.

Lemma rev_string_solid (s acc : string) :
  solid blank s -> solid blank acc -> solid blank (rev_string acc s).
Proof.
  revert acc. induction s as [|c s IH]; intros acc Hs Ha; [exact Ha|].
  cbn [rev_string]. inversion Hs; subst. apply IH; [assumption|].
  constructor; assumption.
Qed.

Lemma lstrip_solid (s : string) : solid blank s -> lstrip_by blank s = s.
Proof.
  destruct s as [|c s]; [reflexivity|]. intros H. inversion H; subst.
  cbn [lstrip_by]. rewrite H2. reflexivity.
Qed.

Lemma strip_solid (s : string) : solid blank s -> strip_by blank s = s.
Proof.
  intros H. unfold strip_by, rstrip_by. rewrite (lstrip_solid s H).
  rewrite lstrip_solid by (apply rev_string_solid; [exact H | constructor]).
  rewrite rev_string_twice. cbn [rev_string]. apply append_empty.
Qed.

End Blanks.

Lemma string_of_uint_solid (d : Decimal.uint) :
  solid isspace_number (NilEmpty.string_of_uint d).
Proof.
  induction d; [constructor | ..];
    cbn [NilEmpty.string_of_uint]; constructor; try reflexivity; assumption.
Qed.

(** [int(str(n)) == n] *)
Lemma int_of_str_of_int (n : Z) : int_of_str (str_of_int n) = Some n.
Proof.
  unfold str_of_int, int_of_str, strip_number.
  destruct n as [|p|p]; [reflexivity | |].
  - cbn [Z.to_int NilZero.string_of_int]. unfold NilZero.string_of_uint.
    pose proof (DecimalPos.Unsigned.to_uint_nonnil p) as Hnil.
    pose proof (DecimalPos.Unsigned.of_to p) as Hval.
    destruct (digitpart_uint (Pos.to_uint p) Hnil) as [c Hc].
    pose proof (string_of_uint_solid (Pos.to_uint p)) as Hs.
    destruct (Pos.to_uint p) eqn:E; [contradiction Hnil; reflexivity | ..];
      rewrite (strip_solid _ _ Hs); unfold sign_of;
      cbn [NilEmpty.string_of_uint] in *; rewrite Hc, Hval; reflexivity.
  - cbn [Z.to_int NilZero.string_of_int]. unfold NilZero.string_of_uint.
    pose proof (DecimalPos.Unsigned.to_uint_nonnil p) as Hnil.
    pose proof (DecimalPos.Unsigned.of_to p) as Hval.
    destruct (digitpart_uint (Pos.to_uint p) Hnil) as [c Hc].
    pose proof (string_of_uint_solid (Pos.to_uint p)) as Hs.
    assert (Hs' : solid isspace_number
                    (String "-" (NilEmpty.string_of_uint (Pos.to_uint p))))
      by (constructor; [reflexivity | exact Hs]).
    destruct (Pos.to_uint p) eqn:E; [contradiction Hnil; reflexivity | ..];
      rewrite (strip_solid _ _ Hs'); unfold sign_of;
      cbn [NilEmpty.string_of_uint] in *; rewrite Hc, Hval; reflexivity.
Qed.

End py_facts.

(** ** More about the driver *)

Module driver_more.
Import util driver util_facts driver_facts driver_rest.

(** X7.  On a session that is not marked open, every method that starts
    with the open test raises the not-open [OSError] and changes nothing:
    no frame is written, no answer consumed, no attribute touched. *)
Theorem closed_session_rejects (w : World) :
  open (fst w) = false ->
  let refused {A} (c : M World A) :=
    c w = (Raise (OSError (not_open_message (unit_id (fst w)))), w) in
  refused get /\ refused controller_get /\ refused is_locked /\
  (forall gas, refused (set_gas gas)) /\
  (forall mix_no name mix, refused (create_mix mix_no name mix)) /\
  (forall mix_no, refused (delete_mix mix_no)) /\
  refused lock /\ refused unlock /\
  refused tare_pressure /\ refused tare_volumetric /\
  refused reset_totalizer /\ refused flush /\
  refused hold /\ refused cancel_hold /\
  refused get_pid /\
  (forall p i d loop_type, refused (set_pid p i d loop_type)) /\
  (forall x, refused (_set_setpoint x)) /\
  (forall x, refused (set_pressure x)) /\
  (forall x, refused (set_flow_rate x)) /\
  (firmware (fst w) = None -> refused get_firmware).
Proof.
  intros Ho refused. unfold refused.
  assert (Hget : get w =
            (Raise (OSError (not_open_message (unit_id (fst w)))), w))
    by exact (get_closed w Ho).
  repeat match goal with |- _ /\ _ => split end;
    try (intros; unfold controller_get, is_locked, set_gas, create_mix,
           delete_mix, lock, unlock, tare_pressure, tare_volumetric,
           reset_totalizer, flush, hold, cancel_hold, get_pid, set_pid;
         unfold bind at 1; first [rewrite Hget; reflexivity
                                 | unfold _test_controller_open; run_calls;
                                   rewrite Ho; reflexivity]).
  - exact Hget.
  - intros x. exact (set_setpoint_closed x w Ho).
  - intros x. unfold set_pressure. run_calls.
    destruct (cp_in _ _); cbv beta iota;
      rewrite (set_setpoint_closed _ w Ho); reflexivity.
  - intros x. unfold set_flow_rate. run_calls.
    destruct (cp_in _ _); cbv beta iota;
      rewrite (set_setpoint_closed _ w Ho); reflexivity.
  - intros Hf. unfold get_firmware. run_calls. rewrite Hf. cbv beta iota.
    rewrite Ho. reflexivity.
Qed.

(** A closed session on a device that would answer: [get] and
    [set_pressure] are refused and the answer stays unread. *)
Lemma closed_session_rejects_witness :
  get closed_world =
    (Raise (OSError (not_open_message "A")), closed_world) /\
  set_pressure scenarios.p14_5 closed_world =
    (Raise (OSError (not_open_message "A")), closed_world).
Proof.
  pose proof (closed_session_rejects closed_world eq_refl) as H.
  cbv zeta in H. split.
  - exact (proj1 H).
  - destruct H as (_ & _ & _ & _ & _ & _ & _ & _ & _ & _ & _ & _ & _ & _ & _
                   & _ & _ & Hp & _).
    exact (Hp scenarios.p14_5).
Defined.

(** X8.  [FlowMeter.close] never raises and only clears the [open] flag of
    the driver object: the client (and so [Client.open]) and the connection
    are left as they were.  Closing twice is closing once, and a [get]
    after it is refused without a frame being written. *)
Theorem close_marks_only (w : World) :
  let w' := snd (close w) in
  fst (close w) = Ok tt /\
  open (fst w') = false /\
  hw (fst w') = hw (fst w) /\
  snd w' = snd w /\
  unit_id (fst w') = unit_id (fst w) /\
  keys (fst w') = keys (fst w) /\
  control_point (fst w') = control_point (fst w) /\
  close w' = (Ok tt, w') /\
  get w' = (Raise (OSError (not_open_message (unit_id (fst w)))), w').
Proof.
  assert (Hclose : forall v : World,
            close v = (Ok tt, if open (fst v)
                              then (driver.set_open false (fst v), snd v)
                              else v)).
  { intros v. unfold close. run_calls. destruct (open (fst v)); reflexivity. }
  cbv zeta. rewrite (Hclose w). cbn [fst snd].
  destruct (open (fst w)) eqn:Ho.
  - repeat match goal with |- _ /\ _ => split end; reflexivity.
  - repeat match goal with |- _ /\ _ => split end;
      first [ reflexivity | exact Ho
            | rewrite (Hclose w), Ho; reflexivity
            | apply (get_closed w Ho) ].
Qed.

(** *** What [decode] accepts and refuses *)

(** X9.  Whatever [decode] accepts has the shape the driver expects: the
    line is the session's unit, the returned values, the lock token when
    the flag is set, then overrange markers only.  Without a lock token the
    last value is neither a marker nor a lock token. *)
Theorem decode_shape (unit line : string) (lck : bool)
    (values : list string) :
  decode unit line = Ok (lck, values) ->
  exists lock_tok markers,
    Py.split line = unit :: values ++ lock_tok ++ markers /\
    Forall (fun t => is_overrange t = true) markers /\
    ((lck = true /\ exists t, lock_tok = [t] /\ is_lock t = true) \/
     (lck = false /\ lock_tok = [] /\
      exists v, Py.last_opt values = Some v /\
                is_overrange v = false /\ is_lock v = false)).
Proof.
  unfold decode.
  destruct (Py.split line) as [|echoed tokens]; [discriminate|].
  destruct (strip_overrange tokens) as [kept|] eqn:Hs; [|discriminate].
  destruct (String.eqb echoed unit) eqn:He; [|discriminate].
  apply String.eqb_eq in He. subst echoed. cbn [negb].
  destruct (strip_overrange_shape _ _ Hs) as (markers & v & -> & Hl & Hv & Hm).
  unfold extract_lock. unfold Py.last_opt in Hl.
  destruct (rev kept) as [|x before] eqn:Hr; [discriminate|].
  injection Hl as ->. destruct (is_lock v) eqn:Hk; intros [= <- <-].
  - exists [v], markers. split; [|split; [exact Hm|]].
    + rewrite app_assoc. f_equal. f_equal.
      rewrite <- (rev_involutive kept), Hr. reflexivity.
    + left. split; [reflexivity|]. exists v. auto.
  - exists [], markers. split; [reflexivity|]. split; [exact Hm|].
    right. repeat split. exists v. unfold Py.last_opt. rewrite Hr. auto.
Qed.

(** The locked scenario decodes to four values and a lock token. *)
Lemma decode_shape_witness :
  exists lock_tok markers,
    Py.split "A 14.2 25.1 2.502 2.499 LCK" =
      "A" :: ["14.2"; "25.1"; "2.502"; "2.499"] ++ lock_tok ++ markers /\
    Forall (fun t => is_overrange t = true) markers /\
    ((true = true /\ exists t, lock_tok = [t] /\ is_lock t = true) \/
     (true = false /\ lock_tok = [] /\
      exists v, Py.last_opt ["14.2"; "25.1"; "2.502"; "2.499"] = Some v /\
                is_overrange v = false /\ is_lock v = false)).
Proof.
  apply (decode_shape "A" "A 14.2 25.1 2.502 2.499 LCK" true
           ["14.2"; "25.1"; "2.502"; "2.499"]).
  vm_compute. reflexivity.
Defined.

(** X10.  The two ways [decode] fails.  It raises [IndexError] exactly when
    the line has no token or every token after the first is an overrange
    marker (none at all included), whatever the echoed unit; it raises the
    unit-mismatch [ValueError] exactly when some token after the first is
    not a marker and the first is not the session's unit. *)
Theorem decode_failures (unit line : string) :
  (decode unit line = Raise IndexError <->
   Py.split line = [] \/
   exists echoed values,
     Py.split line = echoed :: values /\
     Forall (fun t => is_overrange t = true) values) /\
  (decode unit line = Raise (ValueError "Flow controller unit ID mismatch.") <->
   exists echoed values,
     Py.split line = echoed :: values /\
     echoed <> unit /\
     ~ Forall (fun t => is_overrange t = true) values).
Proof.
  unfold decode.
  destruct (Py.split line) as [|echoed tokens].
  { split; split; auto.
    - discriminate.
    - intros (e & v & H & _). discriminate H. }
  destruct (strip_overrange tokens) as [kept|] eqn:Hs.
  - assert (Hnot : ~ Forall (fun t => is_overrange t = true) tokens).
    { intros H. apply strip_overrange_none in H. congruence. }
    assert (Hlock : exists r, extract_lock kept = Some r).
    { destruct (strip_overrange_shape _ _ Hs) as (m & v & _ & Hl & _).
      unfold extract_lock. unfold Py.last_opt in Hl.
      destruct (rev kept); [discriminate|].
      destruct (is_lock s); eauto. }
    destruct Hlock as [r Hr]. rewrite Hr.
    destruct (String.eqb echoed unit) eqn:He; cbn [negb].
    + apply String.eqb_eq in He. split; split; try discriminate.
      * intros [H | (e & v & [= <- <-] & H)]; [discriminate | contradiction].
      * intros (e & v & [= <- <-] & Hne & _). contradiction.
    + apply String.eqb_neq in He. split; split; try discriminate.
      * intros [H | (e & v & [= <- <-] & H)]; [discriminate | contradiction].
      * intros _. exists echoed, tokens. auto.
      * reflexivity.
  - apply strip_overrange_none in Hs. split; split; try discriminate.
    + intros _. right. exists echoed, tokens. auto.
    + reflexivity.
    + intros (e & v & [= <- <-] & _ & Hn). contradiction.
Qed.


(** *** The schema over many reads *)

(** What [get] does to the schema, whatever it returns. *)
Lemma get_keys (w : World) :
  keys (fst (snd (get w))) = keys (fst w) \/
  exists n, keys (fst (snd (get w))) = adjust_keys n (keys (fst w)).
Proof.
  destruct (open (fst w)) eqn:Ho.
  - rewrite (get_open w Ho).
    destruct (hw_exchange (unit_id (fst w)) w) as (o & w' & Hrun & [Hs _] & _).
    rewrite Hrun.
    assert (Hk : keys (fst w') = keys (fst w)) by (rewrite Hs; reflexivity).
    destruct o as [[line|]|e]; [|left; exact Hk|left; exact Hk].
    destruct (decode _ line) as [[lck values]|e]; [|left; exact Hk].
    right. exists (List.length values). cbn. rewrite Hk. reflexivity.
  - rewrite (get_closed w Ho). left. reflexivity.
Qed.

Lemma adjust_keys_length (n : nat) (ks : list string) :
  (List.length ks <> 6%nat -> adjust_keys n ks = ks) /\
  (List.length ks = 6%nat ->
   In (List.length (adjust_keys n ks)) [5; 6; 7]%nat).
Proof.
  unfold adjust_keys. split.
  - intros H. apply Nat.eqb_neq in H. rewrite H, !andb_false_r. reflexivity.
  - intros H. rewrite H.
    destruct ks as [|a [|b [|c [|d [|e [|f [|g ks]]]]]]]; try discriminate H.
    destruct (n =? 5)%nat; [cbn; auto|].
    destruct (n =? 7)%nat; [cbn; auto|].
    destruct (n =? 2)%nat; cbn; auto.
Qed.

(** X11.  Over any number of reads, whatever the device answers and
    whether the reads return or raise, the schema has 5, 6 or 7 fields if
    it had so before (the baseline has 6); and a schema that does not have
    6 fields is never changed again. *)
Theorem schema_over_polls (n : nat) (w : World) :
  (In (List.length (keys (fst w))) [5; 6; 7]%nat ->
   In (List.length (keys (fst (polls n w)))) [5; 6; 7]%nat) /\
  (List.length (keys (fst w)) <> 6%nat ->
   keys (fst (polls n w)) = keys (fst w)).
Proof.
  revert w. induction n as [|n IH]; intros w; [split; auto|].
  cbn [polls]. destruct (IH (snd (get w))) as [IH1 IH2].
  assert (Hstep : keys (fst (snd (get w))) = keys (fst w) \/
                  (List.length (keys (fst w)) = 6%nat /\
                   In (List.length (keys (fst (snd (get w))))) [5; 6; 7]%nat)).
  { destruct (get_keys w) as [H | [m H]]; [left; exact H|].
    destruct (Nat.eq_dec (List.length (keys (fst w))) 6) as [E | E].
    - right. split; [exact E|]. rewrite H.
      apply (proj2 (adjust_keys_length m _) E).
    - left. rewrite H. apply (proj1 (adjust_keys_length m _) E). }
  split.
  - intros Hin. apply IH1.
    destruct Hstep as [-> | [_ H]]; assumption.
  - intros Hne. destruct Hstep as [E | [E _]]; [|contradiction].
    rewrite IH2; rewrite E; auto.
Qed.

(** Two reads, of five then of six values: the schema keeps five fields. *)
Lemma schema_over_polls_witness :
  keys (fst (polls 2 scenarios.meter_then_controller_world)) =
    keys (fst (polls 1 scenarios.meter_then_controller_world)) /\
  In (List.length (keys (fst (polls 2 scenarios.meter_then_controller_world))))
     [5; 6; 7]%nat.
Proof.
  split.
  - apply (proj2 (schema_over_polls 1
                    (polls 1 scenarios.meter_then_controller_world))).
    vm_compute. discriminate.
  - apply (proj1 (schema_over_polls 2 scenarios.meter_then_controller_world)).
    vm_compute. auto.
Defined.

(** *** The mapping *)

Lemma dict_set_fresh (k : string) (v : value) (d : dict) :
  ~ In k (map fst d) -> dict_set k v d = d ++ [(k, v)].
Proof.
  induction d as [|[k' v'] d IH]; [reflexivity|].
  cbn [map fst In dict_set app]. intros H.
  destruct (String.eqb k k') eqn:E.
  - apply String.eqb_eq in E. subst k'. contradiction H. left. reflexivity.
  - rewrite IH; [reflexivity|]. intros Hin. apply H. right. exact Hin.
Qed.

Lemma dict_of_nodup_from (items acc : list (string * value)) :
  NoDup (map fst (acc ++ items)) ->
  fold_left (fun d kv => dict_set (fst kv) (snd kv) d) items acc =
    acc ++ items.
Proof.
  revert acc. induction items as [|[k v] items IH]; intros acc Hnd.
  - rewrite app_nil_r. reflexivity.
  - cbn [fold_left fst snd].
    rewrite dict_set_fresh.
    + rewrite IH; rewrite <- app_assoc; [reflexivity | exact Hnd].
    + rewrite map_app in Hnd. cbn [map fst] in Hnd.
      apply NoDup_remove_2 in Hnd. intros Hin. apply Hnd.
      apply in_or_app. left. exact Hin.
Qed.

Lemma dict_of_nodup (items : list (string * value)) :
  NoDup (map fst items) -> dict_of items = items.
Proof.
  intros H. unfold dict_of. apply (dict_of_nodup_from items []). exact H.
Qed.

Lemma map_fst_combine {A B} (l1 : list A) (l2 : list B) :
  map fst (combine l1 l2) = firstn (List.length l2) l1.
Proof.
  revert l2. induction l1 as [|a l1 IH]; intros [|b l2]; try reflexivity.
  cbn. rewrite IH. reflexivity.
Qed.

Lemma NoDup_firstn {A} (n : nat) (l : list A) :
  NoDup l -> NoDup (firstn n l).
Proof.
  revert n. induction l as [|a l IH]; intros [|n] H; cbn; try constructor.
  - inversion H as [|? ? Hnot Hnd]. subst. intros Hin. apply Hnot.
    rewrite <- (firstn_skipn n l). apply in_or_app. left. exact Hin.
  - inversion H. auto.
Qed.

(** X12.  When the adjusted schema has no repeated field, [get] returns the
    schema zipped with the coerced values, field by field in order: a
    value beyond the last field is dropped without an error, a field
    beyond the last value is absent, and the mapping has as many entries
    as the shorter of the two. *)
Theorem get_zips_schema (w w1 : World) (line : string) (lck : bool)
    (values : list string) :
  open (fst w) = true ->
  hw_call (_write_and_read (unit_id (fst w))) w = (Ok (Some line), w1) ->
  decode (unit_id (fst w)) line = Ok (lck, values) ->
  let ks := adjust_keys (List.length values) (keys (fst w)) in
  NoDup ks ->
  fst (get w) = Ok (combine ks (map coerce values)) /\
  List.length (combine ks (map coerce values)) =
    Nat.min (List.length ks) (List.length values).
Proof.
  intros Ho Hrun Hd ks Hnd.
  rewrite (get_line w w1 line Ho Hrun), Hd. cbn [fst]. fold ks. split.
  - f_equal. apply dict_of_nodup. rewrite map_fst_combine.
    apply NoDup_firstn. exact Hnd.
  - rewrite length_combine, length_map. reflexivity.
Qed.


(** Eight values against the six baseline fields: the last two are
    dropped. *)
Lemma get_zips_schema_witness :
  fst (get (scenarios.session None,
            scenarios.answering ["A 1 2 3 4 5 Air 7 8"])) =
    Ok (combine baseline_keys
          (map coerce ["1"; "2"; "3"; "4"; "5"; "Air"; "7"; "8"])) /\
  List.length
    (combine baseline_keys
       (map coerce ["1"; "2"; "3"; "4"; "5"; "Air"; "7"; "8"])) = 6%nat.
Proof.
  destruct (get_zips_schema
              (scenarios.session None,
               scenarios.answering ["A 1 2 3 4 5 Air 7 8"])
              (snd (hw_call (_write_and_read "A")
                      (scenarios.session None,
                       scenarios.answering ["A 1 2 3 4 5 Air 7 8"])))
              "A 1 2 3 4 5 Air 7 8" false
              ["1"; "2"; "3"; "4"; "5"; "Air"; "7"; "8"])
    as [H1 H2];
    [ vm_compute; reflexivity | vm_compute; reflexivity
    | vm_compute; reflexivity
    | vm_compute; repeat constructor; cbn; intuition discriminate | ].
  split; [exact H1 | exact H2].
Defined.

(** *** Gases *)

Lemma index_of_member (x : string) (l : list string) :
  Py.mem x l = true ->
  exists i, Py.index x l = Some i /\
            (0 <= i < Z.of_nat (List.length l))%Z /\
            nth_error l (Z.to_nat i) = Some x.
Proof.
  induction l as [|y l IH]; [discriminate|].
  unfold Py.mem. cbn [existsb Py.index]. destruct (String.eqb x y) eqn:E.
  - intros _. apply String.eqb_eq in E. subst y. exists 0%Z.
    split; [reflexivity|]. split; [cbn [List.length]; lia | reflexivity].
  - cbn [orb]. intros H. destruct (IH H) as (i & -> & Hi & Hn).
    exists (Z.succ i). cbn [option_map List.length].
    split; [reflexivity|]. split; [lia|].
    replace (Z.to_nat (Z.succ i)) with (S (Z.to_nat i)) by lia. exact Hn.
Qed.

(** X13.  [set_gas] called with the name of a gas of the table behaves in
    every state exactly as [set_gas] called with the position of that name
    in the table, a number from 0 to 29; called with any other name on an
    open session it raises [ValueError] and changes nothing. *)
Theorem set_gas_by_name (g : string) (w : World) :
  (Py.mem g gases = true ->
   exists i,
     Py.index g gases = Some i /\ (0 <= i <= 29)%Z /\
     nth_error gases (Z.to_nat i) = Some g /\
     set_gas (GasName g) w = set_gas (GasNumber i) w) /\
  (Py.mem g gases = false -> open (fst w) = true ->
   set_gas (GasName g) w = (Raise (ValueError (g ++ " not supported!")), w)).
Proof.
  split.
  - intros Hm. destruct (index_of_member g gases Hm) as (i & Hi & Hr & Hn).
    exists i. split; [exact Hi|]. split; [cbn in Hr; lia|].
    split; [exact Hn|].
    unfold set_gas. rewrite Hm, Hi. reflexivity.
  - intros Hm Ho. unfold set_gas. rewrite Hm. run_calls. rewrite Ho.
    reflexivity.
Qed.

(** [N2] is gas 8; [Xe2] is not in the table. *)
Lemma set_gas_by_name_witness :
  (exists i,
      Py.index "N2" gases = Some i /\ (0 <= i <= 29)%Z /\
      nth_error gases (Z.to_nat i) = Some "N2" /\
      set_gas (GasName "N2") (scenarios.gas_world "A" "A   046 = 8") =
        set_gas (GasNumber i) (scenarios.gas_world "A" "A   046 = 8")) /\
  set_gas (GasName "Xe2") (scenarios.gas_world "A" "A   046 = 8") =
    (Raise (ValueError "Xe2 not supported!"),
     scenarios.gas_world "A" "A   046 = 8").
Proof.
  split.
  - apply (proj1 (set_gas_by_name "N2" (scenarios.gas_world "A" "A   046 = 8"))).
    vm_compute. reflexivity.
  - apply (proj2 (set_gas_by_name "Xe2" (scenarios.gas_world "A" "A   046 = 8")));
      vm_compute; reflexivity.
Defined.

(** *** The firmware version *)

(** X14.  The firmware version is asked once.  When [get_firmware] has
    returned a version, calling it again returns the same version and
    changes nothing: no frame is written.  When the query got no answer,
    nothing is cached and the next call asks again. *)
Theorem get_firmware_caches (w w1 : World) (r : option string) :
  get_firmware w = (Ok r, w1) ->
  firmware (fst w1) = r /\
  (forall fw, r = Some fw -> get_firmware w1 = (Ok (Some fw), w1)).
Proof.
  intros H.
  assert (Hf : firmware (fst w1) = r).
  { destruct (firmware (fst w)) as [fw|] eqn:Hc.
    - rewrite (get_firmware_cached w fw Hc) in H. injection H as <- <-.
      exact Hc.
    - destruct (open (fst w)) eqn:Ho.
      + rewrite (get_firmware_query w Ho Hc) in H.
        destruct (hw_call _ w) as [[o|e] w']; [|discriminate].
        injection H as <- <-. reflexivity.
      + assert (E : get_firmware w =
                      (Raise (OSError (not_open_message (unit_id (fst w)))), w)).
        { unfold get_firmware. run_calls. rewrite Hc. cbv beta iota.
          rewrite Ho. reflexivity. }
        rewrite E in H. discriminate H. }
  split; [exact Hf|].
  intros fw ->. apply get_firmware_cached. exact Hf.
Qed.

(** The first query on [mix_world] caches [5v12.0]. *)
Lemma get_firmware_caches_witness :
  get_firmware scenarios.mix_world_queried =
    (Ok (Some "5v12.0"), scenarios.mix_world_queried).
Proof.
  destruct (get_firmware_caches scenarios.mix_world
              scenarios.mix_world_queried (Some "5v12.0")) as [_ H];
    [vm_compute; reflexivity|].
  exact (H "5v12.0" eq_refl).
Defined.

(** X15.  [create_mix] tests the firmware before its arguments: on a unit
    whose version holds [2v], [3v], [4v] or [GP] it raises the [OSError]
    of unsupported mixes whatever the slot and the percentages, and when
    the firmware query got no answer it raises [TypeError]; in both cases
    nothing is sent after the firmware query. *)
Theorem create_mix_firmware_gate (mix_no : Z) (name : string)
    (mix : list (string * Z)) (w w1 : World) (r : option string) :
  open (fst w) = true ->
  get_firmware w = (Ok r, w1) ->
  (forall fw, r = Some fw -> unsupported_firmware fw = true ->
     create_mix mix_no name mix w =
       (Raise (OSError "This unit does not support COMPOSER gas mixes."),
        w1)) /\
  (r = None -> create_mix mix_no name mix w = (Raise TypeError, w1)).
Proof.
  intros Ho Hfw. split.
  - intros fw -> Hu.
    rewrite (create_mix_known_firmware mix_no name mix w w1 fw Ho Hfw), Hu.
    reflexivity.
  - intros ->. unfold create_mix.
    unfold bind at 1. unfold _test_controller_open at 1.
    unfold bind at 1. unfold self at 1, gets at 1. rewrite Ho. cbn [negb].
    unfold ret at 1. unfold bind at 1. rewrite Hfw. reflexivity.
Qed.

(** A unit with firmware 4v30 refuses a valid mix; a unit that does not
    answer the firmware query gives [TypeError]. *)
Lemma create_mix_firmware_gate_witness :
  fst (create_mix 240 "mix" scenarios.n2_ar
         (scenarios.session None, scenarios.answering ["4v30.0"])) =
    Raise (OSError "This unit does not support COMPOSER gas mixes.") /\
  fst (create_mix 240 "mix" scenarios.n2_ar scenarios.unanswered_world) =
    Raise TypeError.
Proof.
  split.
  - destruct (create_mix_firmware_gate 240 "mix" scenarios.n2_ar
                (scenarios.session None, scenarios.answering ["4v30.0"])
                (snd (get_firmware
                        (scenarios.session None,
                         scenarios.answering ["4v30.0"])))
                (Some "4v30.0")) as [H _];
      [vm_compute; reflexivity | vm_compute; reflexivity |].
    rewrite (H "4v30.0" eq_refl); [reflexivity | vm_compute; reflexivity].
  - destruct (create_mix_firmware_gate 240 "mix" scenarios.n2_ar
                scenarios.unanswered_world
                (snd (get_firmware scenarios.unanswered_world)) None)
      as [_ H];
      [vm_compute; reflexivity | vm_compute; reflexivity |].
    rewrite (H eq_refl). reflexivity.
Defined.


(** *** One-command methods *)

(** X16.  On an open session [lock], [unlock], [reset_totalizer], [hold]
    and [cancel_hold] make one exchange, with the command [<unit>$$L],
    [<unit>$$U], [<unit>T], [<unit>$$H] and [<unit>$$C], and do not look at
    the answer: they return normally whenever the exchange returns, with a
    line or with none, and raise what the exchange raises. *)
Theorem one_command_methods (w : World) :
  open (fst w) = true ->
  let sends (suffix : string) (c : M World unit) :=
    let exchange :=
      hw_call (_write_and_read (unit_id (fst w) ++ suffix)) w in
    snd (c w) = snd exchange /\
    (forall o, fst exchange = Ok o -> fst (c w) = Ok tt) /\
    (forall e, fst exchange = Raise e -> fst (c w) = Raise e) in
  sends "$$L" lock /\ sends "$$U" unlock /\ sends "T" reset_totalizer /\
  sends "$$H" hold /\ sends "$$C" cancel_hold.
Proof.
  intros Ho sends. unfold sends. cbv zeta.
  repeat match goal with |- _ /\ _ => split end;
    unfold lock, unlock, reset_totalizer, hold, cancel_hold; run_calls;
    rewrite Ho; cbn [negb]; cbv beta iota;
    match goal with
    | |- context [hw_call (_write_and_read ?cmd) w] =>
        destruct (hw_call (_write_and_read cmd) w) as [[o|e] w'];
          cbn [fst snd]; try reflexivity; intros; congruence
    end.
Qed.

(** A lock command that is never answered still returns; one whose answer
    is not UTF-8 raises. *)
Lemma one_command_methods_witness :
  fst (lock scenarios.unanswered_world) = Ok tt /\
  fst (lock garbled_world) = Raise UnicodeDecodeError.
Proof.
  split.
  - destruct (one_command_methods scenarios.unanswered_world eq_refl)
      as ((_ & H & _) & _).
    apply (H None). vm_compute. reflexivity.
  - destruct (one_command_methods garbled_world eq_refl)
      as ((_ & _ & H) & _).
    apply H. vm_compute. reflexivity.
Defined.

(** X17.  On an open session [delete_mix], [tare_pressure] and
    [tare_volumetric] make one exchange and raise their [OSError] exactly
    when the answer is the single character [?]; any other answer, and no
    answer at all, is taken as success. *)
Theorem rejection_only_on_question_mark (w : World) :
  open (fst w) = true ->
  let rejects (command msg : string) (c : M World unit) :=
    forall o w',
      hw_call (_write_and_read (unit_id (fst w) ++ command)) w = (Ok o, w') ->
      snd (c w) = w' /\
      (fst (c w) = Raise (OSError msg) <-> o = Some "?") /\
      (fst (c w) = Ok tt <-> o <> Some "?") in
  (forall mix_no,
      rejects ("GD" ++ Py.str_of_int mix_no)%string "Unable to delete mix."
              (delete_mix mix_no)) /\
  rejects "$$PC" "Unable to tare pressure." tare_pressure /\
  rejects "$$V" "Unable to tare flow." tare_volumetric.
Proof.
  intros Ho rejects. unfold rejects.
  assert (Hcase : forall (msg : string) (o : option string) (w' : World),
    let r := match o with
             | Some l => if String.eqb l "?"
                         then raise (OSError msg) else ret tt
             | None => ret tt
             end w' in
    snd r = w' /\
    (fst r = Raise (OSError msg) <-> o = Some "?") /\
    (fst r = Ok tt <-> o <> Some "?")).
  { intros msg o w'. cbv zeta. destruct o as [l|].
    - destruct (String.eqb l "?") eqn:E.
      + apply String.eqb_eq in E. subst l.
        split; [reflexivity|]. split; split; auto; try discriminate.
        intros H. contradiction H. reflexivity.
      + apply String.eqb_neq in E.
        split; [reflexivity|]. split; split; auto; try discriminate.
        * intros [= H]. contradiction.
        * intros _ [= H]. contradiction.
    - split; [reflexivity|]. split; split; auto; discriminate. }
  repeat match goal with |- _ /\ _ => split end; intros;
    unfold delete_mix, tare_pressure, tare_volumetric; run_calls;
    rewrite Ho; cbn [negb]; cbv beta iota;
    match goal with
    | H : hw_call _ w = _ |- _ => rewrite H
    end; apply Hcase.
Qed.

(** A tare refused by the device, and a tare that is never answered. *)
Lemma rejection_only_on_question_mark_witness :
  fst (tare_pressure (scenarios.session None, scenarios.answering ["?"])) =
    Raise (OSError "Unable to tare pressure.") /\
  fst (tare_pressure scenarios.unanswered_world) = Ok tt.
Proof.
  split.
  - destruct (rejection_only_on_question_mark
                (scenarios.session None, scenarios.answering ["?"]) eq_refl)
      as (_ & H & _).
    destruct (H (Some "?")
                (snd (hw_call (_write_and_read "A$$PC")
                        (scenarios.session None, scenarios.answering ["?"]))))
      as (_ & Hr & _); [vm_compute; reflexivity|].
    apply Hr. reflexivity.
  - destruct (rejection_only_on_question_mark scenarios.unanswered_world
                eq_refl) as (_ & H & _).
    destruct (H None
                (snd (hw_call (_write_and_read "A$$PC")
                        scenarios.unanswered_world)))
      as (_ & _ & Hr); [vm_compute; reflexivity|].
    apply Hr. discriminate.
Defined.


(** *** The control point *)

Lemma set_flow_rate_frames (x : Py.float) (w : World) :
  exists sent : list string,
    let all :=
      map (frame (hw (fst w)))
        ((if cp_in (control_point (fst w))
               ["abs pressure"; "gauge pressure"; "diff pressure"]
          then [setpoint_command (unit_id (fst w)) zero;
                register_command (unit_id (fst w)) 37]
          else []) ++ [setpoint_command (unit_id (fst w)) x]) in
    wire (snd (snd (set_flow_rate x w))) = wire (snd w) ++ sent /\
    (exists rest, all = sent ++ rest) /\
    (fst (set_flow_rate x w) = Ok tt -> sent = all).
Proof.
  assert (E : set_flow_rate x w =
    ((if cp_in (control_point (fst w))
           ["abs pressure"; "gauge pressure"; "diff pressure"]
      then _set_setpoint zero ;; _set_control_point "mass flow"
      else ret tt) ;; _set_setpoint x) w) by reflexivity.
  rewrite E. clear E.
  pose proof (writes_seq _ _ _ _
    (writes_seq _ _ _ _ (set_setpoint_writes zero)
       (set_control_point_writes "mass flow" 37 eq_refl))
    (set_setpoint_writes x)) as Hpress.
  pose proof (writes_seq _ _ _ _ (writes_nothing tt) (set_setpoint_writes x))
    as Hkeep.
  destruct (cp_in (control_point (fst w))
              ["abs pressure"; "gauge pressure"; "diff pressure"]).
  - destruct (Hpress w) as (sent & H1 & H2 & H3 & _).
    exists sent. cbn zeta. split; [exact H1|]. split; [exact H2|].
    intros Hok. exact (H3 tt Hok).
  - destruct (Hkeep w) as (sent & H1 & H2 & H3 & _).
    exists sent. cbn zeta. split; [exact H1|]. split; [exact H2|].
    intros Hok. exact (H3 tt Hok).
Qed.

(** X18.  [set_flow_rate] called while the cached control point is a
    pressure category writes, in this order, the zero setpoint frame, the
    frame that switches register 122 to mass flow (37) and the target
    setpoint frame: what reaches the wire is a prefix of these three, and
    all three whenever the call returns.  Called while the cached control
    point is a flow category it writes the target setpoint frame alone. *)
Theorem set_flow_rate_writes (w : World) (x : Py.float) (cp : string) :
  control_point (fst w) = Some cp ->
  let c := hw (fst w) in
  let u := unit_id (fst w) in
  let zeroing := frame c (u ++ "S0.00") in
  let switch := frame c (u ++ "W122=37") in
  let target := frame c (u ++ "S" ++ Py.format_2f x) in
  let result := fst (set_flow_rate x w) in
  let after := snd (set_flow_rate x w) in
  (In cp ["abs pressure"; "gauge pressure"; "diff pressure"] ->
   exists sent : list string,
     wire (snd after) = wire (snd w) ++ sent /\
     (exists rest, [zeroing; switch; target] = sent ++ rest) /\
     (result = Ok tt -> sent = [zeroing; switch; target])) /\
  (In cp ["mass flow"; "vol flow"] ->
   exists sent : list string,
     wire (snd after) = wire (snd w) ++ sent /\
     (exists rest, [target] = sent ++ rest) /\
     (result = Ok tt -> sent = [target])).
Proof.
  intros Hcp. cbv zeta.
  destruct (set_flow_rate_frames x w) as (sent & H1 & H2 & H3).
  rewrite Hcp in H2, H3. cbv zeta in H2, H3.
  split; intros Hin; exists sent; (split; [exact H1|]).
  - assert (E : cp_in (Some cp)
                  ["abs pressure"; "gauge pressure"; "diff pressure"] = true).
    { cbn in Hin. destruct Hin as [<- | [<- | [<- | []]]]; reflexivity. }
    rewrite E in H2, H3. exact (conj H2 H3).
  - assert (E : cp_in (Some cp)
                  ["abs pressure"; "gauge pressure"; "diff pressure"] = false).
    { cbn in Hin. destruct Hin as [<- | [<- | []]]; reflexivity. }
    rewrite E in H2, H3. exact (conj H2 H3).
Qed.


(** From gauge pressure the three frames are written. *)
Lemma set_flow_rate_writes_witness :
  wire (snd (snd (set_flow_rate scenarios.p14_5 to_flow_world))) =
    [frame scenarios.connected "AS0.00"; frame scenarios.connected "AW122=37";
     frame scenarios.connected "AS14.50"].
Proof.
  destruct (set_flow_rate_writes to_flow_world scenarios.p14_5
              "gauge pressure" eq_refl) as [Hpress _].
  destruct (Hpress (or_intror (or_introl eq_refl))) as (sent & Hw & _ & Hall).
  rewrite Hw, (Hall eq_refl). reflexivity.
Defined.

(** [_set_setpoint] leaves the object alone apart from its client. *)
Lemma set_setpoint_same_object (x : Py.float) (w : World) :
  same_object (fst w) (fst (snd (_set_setpoint x w))).
Proof.
  destruct (open (fst w)) eqn:Ho.
  - rewrite (set_setpoint_open x w Ho).
    destruct (hw_exchange (setpoint_command (unit_id (fst w)) x) w)
      as (r & w' & Hrun & Hs & _).
    rewrite Hrun. destruct r; exact Hs.
  - rewrite (set_setpoint_closed x w Ho). destruct w as [[] l].
    split; reflexivity.
Qed.

(** [_set_control_point] with a known point: the cached control point is
    the new one when it returns, the old one when it raises. *)
Lemma set_control_point_outcome (point : string) (reg : Z) (w : World) :
  lookup point registers = Some reg ->
  let r := _set_control_point point w in
  unit_id (fst (snd r)) = unit_id (fst w) /\
  open (fst (snd r)) = open (fst w) /\
  ((fst r = Ok tt /\ control_point (fst (snd r)) = Some point) \/
   ((exists e, fst r = Raise e) /\
    control_point (fst (snd r)) = control_point (fst w))).
Proof.
  intros Hl. cbv zeta. rewrite (set_control_point_known point reg w Hl).
  destruct (hw_exchange (register_command (unit_id (fst w)) reg) w)
    as (r & w' & Hrun & [Hs _] & _).
  rewrite Hrun.
  destruct r as [o|e0];
    [destruct (check_register o reg) as [[]|e]|]; cbn [fst snd].
  - rewrite Hs. cbn. auto.
  - rewrite Hs. cbn. split; [reflexivity|]. split; [reflexivity|].
    right. split; [eexists|]; reflexivity.
  - rewrite Hs. cbn. split; [reflexivity|]. split; [reflexivity|].
    right. split; [eexists|]; reflexivity.
Qed.

(** X19.  The cached control point changes only through a switch that the
    device confirmed.  [set_pressure] leaves it as it is unless it is a
    flow category, and then it ends as [abs pressure] when the call
    returns; [set_flow_rate] leaves it as it is unless it is a pressure
    category, and then it ends as [mass flow] when the call returns.  In
    particular a control point that is unset, as [__init__] leaves it,
    stays unset: both methods are then the bare setpoint write. *)
Theorem control_point_transitions (w : World) (x : Py.float) :
  let cp := control_point (fst w) in
  let flows := ["mass flow"; "vol flow"] in
  let pressures := ["abs pressure"; "gauge pressure"; "diff pressure"] in
  let after_p := control_point (fst (snd (set_pressure x w))) in
  let after_f := control_point (fst (snd (set_flow_rate x w))) in
  (cp_in cp flows = false -> after_p = cp) /\
  (cp_in cp flows = true ->
   (after_p = cp \/ after_p = Some "abs pressure") /\
   (fst (set_pressure x w) = Ok tt -> after_p = Some "abs pressure")) /\
  (cp_in cp pressures = false -> after_f = cp) /\
  (cp_in cp pressures = true ->
   (after_f = cp \/ after_f = Some "mass flow") /\
   (fst (set_flow_rate x w) = Ok tt -> after_f = Some "mass flow")) /\
  (cp = None ->
   set_pressure x w = _set_setpoint x w /\
   set_flow_rate x w = _set_setpoint x w /\
   after_p = None /\ after_f = None).
Proof.
  cbv zeta.
  assert (Hkeep : forall y v,
            control_point (fst (snd (_set_setpoint y v))) =
              control_point (fst v)).
  { intros y v. destruct (set_setpoint_same_object y v) as [-> _].
    reflexivity. }
  assert (Hsw : forall (point : string) (reg : Z) (list : list string)
                       (op : Py.float -> M World unit),
    lookup point registers = Some reg ->
    op x w = ((if cp_in (control_point (fst w)) list
               then _set_setpoint zero ;; _set_control_point point
               else ret tt) ;; _set_setpoint x) w ->
    (cp_in (control_point (fst w)) list = false ->
     op x w = _set_setpoint x w /\
     control_point (fst (snd (op x w))) = control_point (fst w)) /\
    (cp_in (control_point (fst w)) list = true ->
     (control_point (fst (snd (op x w))) = control_point (fst w) \/
      control_point (fst (snd (op x w))) = Some point) /\
     (fst (op x w) = Ok tt ->
      control_point (fst (snd (op x w))) = Some point))).
  { intros point reg list op Hl E. rewrite E. split; intros Hc; rewrite Hc.
    - split; [reflexivity|]. unfold bind, ret. apply Hkeep.
    - unfold bind.
      pose proof (Hkeep zero w) as Hz.
      destruct (_set_setpoint zero w) as [[[]|e] w1]; cbn [fst snd] in *.
      + pose proof (set_control_point_outcome point reg w1 Hl) as Hcp.
        cbv zeta in Hcp. destruct Hcp as (_ & _ & Hcp).
        destruct (_set_control_point point w1) as [[[]|e] w2];
          cbn [fst snd] in *.
        * destruct Hcp as [[_ Hcp] | [[e He] _]]; [|discriminate He].
          rewrite Hkeep, Hcp. auto.
        * destruct Hcp as [[He _] | [_ Hcp]]; [discriminate He|].
          split; [left; congruence | discriminate].
      + split; [left; exact Hz | discriminate]. }
  destruct (Hsw "abs pressure" 34%Z ["mass flow"; "vol flow"] set_pressure
              eq_refl eq_refl) as [Hp1 Hp2].
  destruct (Hsw "mass flow" 37%Z
              ["abs pressure"; "gauge pressure"; "diff pressure"]
              set_flow_rate eq_refl eq_refl) as [Hf1 Hf2].
  split; [intros H; apply (Hp1 H)|].
  split; [exact Hp2|].
  split; [intros H; apply (Hf1 H)|].
  split; [exact Hf2|].
  intros Hnone. rewrite Hnone in Hp1, Hf1.
  destruct (Hp1 eq_refl) as [E1 E2]. destruct (Hf1 eq_refl) as [E3 E4].
  auto.
Qed.


(** From mass flow a confirmed [set_pressure] ends in [abs pressure]; an
    unset control point stays unset. *)
Lemma control_point_transitions_witness :
  control_point (fst (snd (set_pressure scenarios.p14_5
                             scenarios.flow_mode_world))) =
    Some "abs pressure" /\
  control_point (fst (snd (set_flow_rate scenarios.p14_5
                             (scenarios.echo_world "14.50")))) = None.
Proof.
  split.
  - destruct (control_point_transitions scenarios.flow_mode_world
                scenarios.p14_5) as (_ & H & _).
    destruct (H eq_refl) as [_ Hok]. apply Hok. vm_compute. reflexivity.
  - destruct (control_point_transitions (scenarios.echo_world "14.50")
                scenarios.p14_5) as (_ & _ & H & _).
    apply (H eq_refl).
Defined.

(** X20.  [_set_control_point] refuses a name that is not in the register
    table before anything is sent.  For a name of the table it caches the
    new control point exactly when it returns, and leaves the cached one
    when it raises.  It has no open test: on a session that
    [FlowMeter.close] has closed it still performs the exchange, with the
    same result and the same frames. *)
Theorem set_control_point_spec (point : string) (w : World) :
  (lookup point registers = None ->
   _set_control_point point w =
     (Raise (ValueError "Control point must be 'flow' or 'pressure'."), w)) /\
  (forall reg, lookup point registers = Some reg ->
     let r := _set_control_point point w in
     (fst r = Ok tt -> control_point (fst (snd r)) = Some point) /\
     (fst r <> Ok tt ->
      control_point (fst (snd r)) = control_point (fst w)) /\
     (forall b,
        let r' := _set_control_point point (driver.set_open b (fst w), snd w) in
        fst r' = fst r /\ snd (snd r') = snd (snd r))).
Proof.
  split.
  - intros Hl. unfold _set_control_point. rewrite Hl. reflexivity.
  - intros reg Hl. cbv zeta.
    pose proof (set_control_point_outcome point reg w Hl) as Hcp.
    cbv zeta in Hcp. destruct Hcp as (_ & _ & Hcp).
    split; [|split].
    + intros Hok. destruct Hcp as [[_ H] | [[e He] _]]; [exact H|].
      rewrite Hok in He. discriminate He.
    + intros Hne. destruct Hcp as [[H _] | [_ H]]; [contradiction | exact H].
    + intros b.
      rewrite (set_control_point_known point reg w Hl).
      rewrite (set_control_point_known point reg _ Hl).
      unfold hw_call, zoom. cbn [fst snd unit_id driver.set_open hw].
      destruct (_write_and_read _ (hw (fst w), snd w)) as [[o|e] [c' l']].
      * destruct (check_register o reg) as [[]|e]; split; reflexivity.
      * split; reflexivity.
Qed.

(** A closed session still switches the register. *)
Lemma set_control_point_spec_witness :
  fst (_set_control_point "abs pressure"
         (driver.set_open false (scenarios.session None),
          scenarios.answering ["A   122 = 34"])) = Ok tt /\
  _set_control_point "pressure" scenarios.unanswered_world =
    (Raise (ValueError "Control point must be 'flow' or 'pressure'."),
     scenarios.unanswered_world).
Proof.
  split.
  - destruct (set_control_point_spec "abs pressure"
                (scenarios.session None,
                 scenarios.answering ["A   122 = 34"])) as [_ H].
    destruct (H 34%Z eq_refl) as (_ & _ & Hb).
    destruct (Hb false) as [E _]. cbn [fst snd] in E. rewrite E.
    vm_compute. reflexivity.
  - apply (proj1 (set_control_point_spec "pressure"
                    scenarios.unanswered_world)).
    reflexivity.
Defined.

(** The register table read backwards gives the name back. *)
Lemma register_name_of_lookup (point : string) (reg : Z) :
  lookup point registers = Some reg ->
  register_name reg registers = Some point.
Proof.
  unfold registers. cbn [lookup].
  repeat match goal with
         | |- context [String.eqb point ?s] =>
             destruct (String.eqb_spec point s);
             [subst point; intros [= <-]; reflexivity|]
         end.
  discriminate.
Qed.

(** X21.  [_get_control_point] returns [None] when the exchange gives no
    line or an empty one; when the text after the last [=] of the answer
    reads as the code that the register table gives to a control point, it
    returns the name of that control point, so that the codes written by
    [_set_control_point] are read back as the names they were written for;
    a code outside the table is a [ValueError], and so is a text that
    [int()] does not read, such as a number behind a separator character
    that [int()] does not skip.  In every case the cached control point is
    left as it was. *)
Theorem get_control_point_spec (w w1 : World) (answer : option string) :
  hw_call (_write_and_read (unit_id (fst w) ++ "R122")) w = (Ok answer, w1) ->
  control_point (fst (snd (_get_control_point w))) = control_point (fst w) /\
  snd (_get_control_point w) = w1 /\
  (answer = None \/ answer = Some "" ->
   fst (_get_control_point w) = Ok None) /\
  (forall line tok value,
     answer = Some line -> line <> "" ->
     Py.last_opt (Py.split_on "=" line) = Some tok ->
     Py.int_of_str tok = Some value ->
     (forall point, lookup point registers = Some value ->
        fst (_get_control_point w) = Ok (Some point)) /\
     (register_name value registers = None ->
      fst (_get_control_point w) =
        Raise (ValueError ("Unexpected register value: " ++
                           Py.str_of_int value)))) /\
  (forall line tok,
     answer = Some line -> line <> "" ->
     Py.last_opt (Py.split_on "=" line) = Some tok ->
     Py.int_of_str tok = None ->
     fst (_get_control_point w) =
       Raise (ValueError "invalid literal for int() with base 10")).
Proof.
  intros Hrun.
  assert (Hcp : control_point (fst w1) = control_point (fst w)).
  { destruct (hw_exchange (unit_id (fst w) ++ "R122") w)
      as (o & w' & Hrun' & [Hs _] & _).
    rewrite Hrun in Hrun'. injection Hrun' as _ <-. rewrite Hs. reflexivity. }
  unfold _get_control_point. run_calls. rewrite Hrun.
  split; [|split; [|split; [|split]]].
  - destruct answer as [line|]; [|exact Hcp].
    destruct (Py.is_empty line); [exact Hcp|].
    destruct (Py.last_opt _) as [tok|]; [|exact Hcp].
    destruct (Py.int_of_str tok) as [value|]; [|exact Hcp].
    destruct (register_name value registers); exact Hcp.
  - destruct answer as [line|]; [|reflexivity].
    destruct (Py.is_empty line); [reflexivity|].
    destruct (Py.last_opt _) as [tok|]; [|reflexivity].
    destruct (Py.int_of_str tok) as [value|]; [|reflexivity].
    destruct (register_name value registers); reflexivity.
  - intros [-> | ->]; reflexivity.
  - intros line tok value -> Hne Htok Hval.
    assert (He : Py.is_empty line = false)
      by (destruct line; [contradiction Hne; reflexivity | reflexivity]).
    rewrite He, Htok, Hval. split.
    + intros point Hl. rewrite (register_name_of_lookup point value Hl).
      reflexivity.
    + intros ->. reflexivity.
  - intros line tok -> Hne Htok Hval.
    assert (He : Py.is_empty line = false)
      by (destruct line; [contradiction Hne; reflexivity | reflexivity]).
    rewrite He, Htok, Hval. reflexivity.
Qed.

(** A device in gauge-pressure mode (38), a device that is silent, and a
    device that puts the separator FS before the code. *)
Lemma get_control_point_spec_witness :
  fst (_get_control_point
         (scenarios.session None, scenarios.answering ["A   122 = 38"])) =
    Ok (Some "gauge pressure") /\
  fst (_get_control_point scenarios.unanswered_world) = Ok None /\
  fst (_get_control_point separator_world) =
    Raise (ValueError "invalid literal for int() with base 10").
Proof.
  split; [|split].
  - destruct (get_control_point_spec
                (scenarios.session None, scenarios.answering ["A   122 = 38"])
                (snd (hw_call (_write_and_read "AR122")
                        (scenarios.session None,
                         scenarios.answering ["A   122 = 38"])))
                (Some "A   122 = 38")) as (_ & _ & _ & H & _);
      [vm_compute; reflexivity|].
    destruct (H "A   122 = 38" " 38" 38%Z eq_refl) as [Hp _];
      [discriminate | vm_compute; reflexivity | vm_compute; reflexivity |].
    apply Hp. reflexivity.
  - destruct (get_control_point_spec scenarios.unanswered_world
                (snd (hw_call (_write_and_read "AR122")
                        scenarios.unanswered_world))
                None) as (_ & _ & H & _);
      [vm_compute; reflexivity|].
    apply H. left. reflexivity.
  - destruct (get_control_point_spec separator_world
                (snd (hw_call (_write_and_read "AR122") separator_world))
                (Some ("A 122 =" ++ String "028" "38")%string))
      as (_ & _ & _ & _ & H);
      [vm_compute; reflexivity|].
    apply (H ("A 122 =" ++ String "028" "38")%string (String "028" "38"));
      [ reflexivity | discriminate | vm_compute; reflexivity
      | vm_compute; reflexivity ].
Defined.


(** *** PID registers *)

Lemma writes_raise {A} (e : exn) (l : string -> list string) :
  writes (@raise World A e) l.
Proof.
  intros w. exists []. cbn. rewrite app_nil_r.
  split; [reflexivity|]. split; [eexists; reflexivity|].
  split; [discriminate|]. auto.
Qed.

Lemma writes_ext {A} (c : M World A) (l l' : string -> list string) :
  (forall u, l u = l' u) -> writes c l -> writes c l'.
Proof.
  intros E H w. destruct (H w) as (sent & H1 & H2 & H3 & H4).
  exists sent. rewrite <- E. auto.
Qed.

Lemma writes_guarded {A} (c : M World A) (l : string -> list string) :
  writes c l -> writes (_test_controller_open ;; c) l.
Proof.
  intros H w. run_calls. destruct (open (fst w)); cbn [negb]; cbv beta iota.
  - apply H.
  - exists []. cbn. rewrite app_nil_r.
    split; [reflexivity|]. split; [eexists; reflexivity|].
    split; [discriminate|]. auto.
Qed.

(** Sequencing when the second call depends on the result of the first. *)
Lemma writes_bind {A B} (c1 : M World A) (k : A -> M World B)
    (l1 l2 : string -> list string) :
  writes c1 l1 -> (forall a, writes (k a) l2) ->
  writes (bind c1 k) (fun u => l1 u ++ l2 u).
Proof.
  intros H1 H2 w. unfold bind.
  destruct (H1 w) as (s1 & Hw1 & [r1 Hp1] & Hok1 & Hu1 & He1).
  destruct (c1 w) as [[a|e] w1] eqn:Hc1; cbn [fst snd] in *.
  - specialize (Hok1 a eq_refl). subst s1.
    destruct (H2 a w1) as (s2 & Hw2 & [r2 Hp2] & Hok2 & Hu2 & He2).
    rewrite Hu1 in *. rewrite (map_frame_eol _ _ _ He1) in *.
    exists (map (frame (hw (fst w))) (l1 (unit_id (fst w))) ++ s2).
    rewrite Hw2, Hw1, app_assoc. split; [reflexivity|].
    split; [|split; [|split; congruence]].
    + exists r2. rewrite map_app, Hp2, app_assoc. reflexivity.
    + intros b Hb. rewrite (Hok2 b Hb), map_app. reflexivity.
  - exists s1. split; [exact Hw1|]. split; [|split; [|split; assumption]].
    + exists (r1 ++ map (frame (hw (fst w))) (l2 (unit_id (fst w)))).
      rewrite map_app, Hp1, app_assoc. reflexivity.
    + intros b Hb. discriminate Hb.
Qed.

(** One exchange whose answer is needed: the continuation runs on a line
    and [None] ends in [AttributeError]. *)
Lemma writes_exchange {A} (suffix : string) (k : option string -> M World A)
    (l : string -> list string) :
  (forall line, writes (k (Some line)) l) ->
  (forall w, k None w = (Raise AttributeError, w)) ->
  writes (u <- self unit_id ;;
          v <- hw_call (_write_and_read (u ++ suffix)) ;;
          k v)
         (fun u => (u ++ suffix)%string :: l u).
Proof.
  intros Hsome Hnone w. run_calls.
  destruct (hw_exchange (unit_id (fst w) ++ suffix) w)
    as (r & w' & Hrun & [Hs He] & Hwire & _).
  rewrite Hrun.
  assert (Hu : unit_id (fst w') = unit_id (fst w)) by (rewrite Hs; reflexivity).
  destruct r as [[line|]|e].
  - destruct Hwire as [Hwire | [Hc _]];
      [|contradiction (Hc line); reflexivity].
    destruct (Hsome line w') as (sent & H1 & [rest H2] & H3 & H4 & H5).
    rewrite Hu in H2, H3. rewrite (map_frame_eol _ _ _ He) in H2, H3.
    exists (frame (hw (fst w)) (unit_id (fst w) ++ suffix) :: sent).
    split; [rewrite H1, Hwire, <- app_assoc; reflexivity|].
    split; [exists rest; cbn [map app]; rewrite H2; reflexivity|].
    split; [intros a Ha; cbn [map]; rewrite (H3 a Ha); reflexivity|].
    split; congruence.
  - rewrite Hnone. cbn [fst snd].
    destruct Hwire as [Hwire | [_ Hwire]].
    + exists [frame (hw (fst w)) (unit_id (fst w) ++ suffix)].
      split; [exact Hwire|]. split; [eexists; reflexivity|].
      split; [discriminate|]. split; congruence.
    + exists []. rewrite app_nil_r.
      split; [exact Hwire|]. split; [eexists; reflexivity|].
      split; [discriminate|]. split; congruence.
  - cbn [fst snd].
    destruct Hwire as [Hwire | [_ Hwire]].
    + exists [frame (hw (fst w)) (unit_id (fst w) ++ suffix)].
      split; [exact Hwire|]. split; [eexists; reflexivity|].
      split; [discriminate|]. split; congruence.
    + exists []. rewrite app_nil_r.
      split; [exact Hwire|]. split; [eexists; reflexivity|].
      split; [discriminate|]. split; congruence.
Qed.

Lemma read_gains_writes (registers : list Z) :
  forall pid_values,
    writes (read_gains registers pid_values)
           (fun u => gain_commands u registers).
Proof.
  induction registers as [|r rest IH]; intros pid_values.
  - apply writes_nothing.
  - cbn [read_gains gain_commands map].
    apply (writes_exchange ("$$r" ++ Py.str_of_int r)
             (fun value =>
                match value with
                | None => raise AttributeError
                | Some value =>
                    match nth_error (Py.split value) 3 with
                    | None => raise IndexError
                    | Some tok => read_gains rest (pid_values ++ [tok])
                    end
                end)).
    + intros line. destruct (nth_error (Py.split line) 3) as [tok|].
      * apply IH.
      * apply writes_raise.
    + reflexivity.
Qed.

Lemma read_gains_result (registers : list Z) :
  forall pid_values w vals,
    fst (read_gains registers pid_values w) = Ok vals ->
    exists toks, vals = pid_values ++ toks /\
                 List.length toks = List.length registers.
Proof.
  induction registers as [|r rest IH]; intros pid_values w vals.
  - cbn. intros [= <-]. exists []. rewrite app_nil_r. auto.
  - cbn [read_gains]. run_calls.
    destruct (hw_call _ w) as [[[value|]|e] w1]; try discriminate.
    destruct (nth_error (Py.split value) 3) as [tok|]; [|discriminate].
    intros H. destruct (IH _ _ _ H) as (toks & -> & Hlen).
    exists (tok :: toks). rewrite <- app_assoc. cbn. auto.
Qed.

Lemma get_pid_writes :
  writes get_pid (fun u => (u ++ "$$r85")%string :: gain_commands u [21; 22; 23]%Z).
Proof.
  unfold get_pid. apply writes_guarded.
  apply (writes_exchange "$$r85"
           (fun read_loop_type =>
              match read_loop_type with
              | None => raise AttributeError
              | Some read_loop_type =>
                  match nth_error (Py.split read_loop_type) 3 with
                  | None => raise IndexError
                  | Some tok =>
                      match Py.int_of_str tok with
                      | None =>
                          raise (ValueError
                                   "invalid literal for int() with base 10")
                      | Some loopnum =>
                          match py_nth loop_types loopnum with
                          | None => raise IndexError
                          | Some loop_type =>
                              pid_values <-
                                read_gains [21; 22; 23]%Z [loop_type] ;;
                              ret (dict_of
                                     (combine pid_keys (map VStr pid_values)))
                          end
                      end
                  end
              end)).
  - intros line.
    destruct (nth_error (Py.split line) 3) as [tok|]; [|apply writes_raise].
    destruct (Py.int_of_str tok) as [n|]; [|apply writes_raise].
    destruct (py_nth loop_types n) as [lt|]; [|apply writes_raise].
    apply (writes_ext _ (fun u => gain_commands u [21; 22; 23]%Z ++ [])).
    + intros u. apply app_nil_r.
    + apply writes_bind; [apply read_gains_writes|].
      intros vals. apply writes_nothing.
  - reflexivity.
Qed.

Lemma py_nth_in {A} (l : list A) (i : Z) (x : A) :
  py_nth l i = Some x -> In x l.
Proof.
  unfold py_nth. destruct (0 <=? i)%Z.
  - apply nth_error_In.
  - destruct (_ <=? i)%Z; [apply nth_error_In | discriminate].
Qed.


(** X22.  [get_pid] reads register 85 and then registers 21, 22 and 23,
    in this order and each only after the one before gave a usable answer:
    the frames written are a prefix of these four.  When it returns, all
    four were written and the mapping has the keys [loop_type], [P], [D],
    [I] in this order, with string values, the loop type being [PD/PDF] or
    [PD2I]. *)
Theorem get_pid_reads (w : World) :
  let u := unit_id (fst w) in
  let all :=
    map (frame (hw (fst w)))
      [u ++ "$$r85"; u ++ "$$r21"; u ++ "$$r22"; u ++ "$$r23"]%string in
  exists sent : list string,
    wire (snd (snd (get_pid w))) = wire (snd w) ++ sent /\
    (exists rest, all = sent ++ rest) /\
    (forall m, fst (get_pid w) = Ok m ->
       sent = all /\
       exists loop_type p d i,
         m = [("loop_type", VStr loop_type); ("P", VStr p);
              ("D", VStr d); ("I", VStr i)] /\
         In loop_type loop_options).
Proof.
  cbv zeta. destruct (get_pid_writes w) as (sent & H1 & H2 & H3 & _).
  exists sent. split; [exact H1|]. split; [exact H2|].
  intros m Hm. split; [exact (H3 m Hm)|].
  clear H1 H2 H3. revert Hm. unfold get_pid. run_calls.
  destruct (open (fst w)); cbn [negb]; cbv beta iota; [|discriminate].
  destruct (hw_call _ w) as [[[line|]|e] w1]; try discriminate.
  destruct (nth_error (Py.split line) 3) as [tok|]; [|discriminate].
  destruct (Py.int_of_str tok) as [n|]; [|discriminate].
  destruct (py_nth loop_types n) as [lt|] eqn:Hlt; [|discriminate].
  pose proof (read_gains_result [21; 22; 23]%Z [lt] w1) as Hres.
  destruct (read_gains [21; 22; 23]%Z [lt] w1) as [[vals|e] w2];
    [|discriminate].
  destruct (Hres vals eq_refl) as (toks & -> & Hlen).
  destruct toks as [|p [|d [|i [|x toks]]]]; try discriminate Hlen.
  intros [= <-]. exists lt, p, d, i. split; [reflexivity|].
  apply py_nth_in in Hlt. cbn in Hlt. cbn.
  destruct Hlt as [<- | [<- | [<- | []]]]; auto.
Qed.

(** *** Writing the PID registers *)



Lemma hw_exchange_unit (command : string) (w : World) :
  unit_id (fst (snd (hw_call (_write_and_read command) w))) = unit_id (fst w).
Proof.
  destruct (hw_exchange command w) as (o & w' & Hrun & [Hs _] & _).
  rewrite Hrun. cbn [snd]. rewrite Hs. reflexivity.
Qed.

Lemma guard_open {A} (c : M World A) (w : World) :
  open (fst w) = true -> (_test_controller_open ;; c) w = c w.
Proof.
  intros Ho. run_calls. rewrite Ho. reflexivity.
Qed.

Lemma pid_step (suffix : string) (k k' : M World unit) (w : World) :
  (forall v, unit_id (fst v) = unit_id (fst w) -> k v = k' v) ->
  forall v, unit_id (fst v) = unit_id (fst w) ->
    ((u <- self unit_id ;;
      hw_call (_write_and_read (u ++ suffix)) ;; ret tt) ;; k) v =
    (hw_call (_write_and_read (unit_id (fst w) ++ suffix)) ;; k') v.
Proof.
  intros Hk v Hv. run_calls. rewrite Hv.
  pose proof (hw_exchange_unit (unit_id (fst w) ++ suffix) v) as Hu.
  destruct (hw_call (_write_and_read (unit_id (fst w) ++ suffix)) v)
    as [[o|e] v']; [|reflexivity].
  apply Hk. cbn [snd] in Hu. rewrite Hu. exact Hv.
Qed.

Lemma pid_skip (k k' : M World unit) (v : World) :
  k v = k' v -> (ret tt ;; k) v = k' v.
Proof. intros H. exact H. Qed.

Lemma pid_last (suffix : string) (w v : World) :
  unit_id (fst v) = unit_id (fst w) ->
  (u <- self unit_id ;;
   hw_call (_write_and_read (u ++ suffix)) ;; ret tt) v =
  (hw_call (_write_and_read (unit_id (fst w) ++ suffix)) ;; ret tt) v.
Proof.
  intros Hv. run_calls. rewrite Hv.
  destruct (hw_call _ v) as [[o|e] v']; reflexivity.
Qed.

(** [set_pid] on an open session is the sequence of its register writes. *)
Lemma set_pid_commands (p i d : option Z) (w : World) :
  open (fst w) = true ->
  (forall lt n,
     Py.mem lt loop_options = true ->
     Py.index lt loop_options = Some n ->
     set_pid p i d (Some lt) w =
       send_all (pid_commands (unit_id (fst w)) p i d (Some (n + 1)%Z)) w) /\
  set_pid p i d None w =
    send_all (pid_commands (unit_id (fst w)) p i d None) w.
Proof.
  intros Ho.
  assert (Hgains : forall v : World,
    unit_id (fst v) = unit_id (fst w) ->
    (match p with
     | Some p =>
         u <- self unit_id ;;
         hw_call (_write_and_read (u ++ "$$w21=" ++ Py.str_of_int p)) ;; ret tt
     | None => ret tt
     end ;;
     match i with
     | Some i =>
         u <- self unit_id ;;
         hw_call (_write_and_read (u ++ "$$w23=" ++ Py.str_of_int i)) ;; ret tt
     | None => ret tt
     end ;;
     match d with
     | Some d =>
         u <- self unit_id ;;
         hw_call (_write_and_read (u ++ "$$w22=" ++ Py.str_of_int d)) ;; ret tt
     | None => ret tt
     end) v =
    send_all (pid_commands (unit_id (fst w)) p i d None) v).
  { intros v Hv. unfold pid_commands.
    destruct p as [p|], i as [i|], d as [d|]; cbn [app send_all];
      repeat first
        [ reflexivity
        | apply (pid_last _ w v Hv)
        | apply (pid_step _ _ _ w); [|exact Hv]; clear v Hv; intros v Hv
        | apply (pid_skip _ _ v) ]. }
  split.
  - intros lt n Hm Hn. unfold set_pid. rewrite (guard_open _ w Ho).
    rewrite Hm, Hn. cbn [negb].
    apply (pid_step ("$$w85=" ++ Py.str_of_int (n + 1)) _
             (send_all (pid_commands (unit_id (fst w)) p i d None)) w);
      [|reflexivity].
    exact Hgains.
  - unfold set_pid. rewrite (guard_open _ w Ho).
    apply (Hgains w eq_refl).
Qed.



(** A controller with loop type 2 and gains 100, 5, 7; then a write of the
    loop type and of two gains. *)
Lemma get_pid_reads_witness :
  fst (get_pid pid_world) =
    Ok [("loop_type", VStr "PD2I"); ("P", VStr "100");
        ("D", VStr "5"); ("I", VStr "7")] /\
  wire (snd (snd (get_pid pid_world))) =
    map (frame scenarios.connected) ["A$$r85"; "A$$r21"; "A$$r22"; "A$$r23"].
Proof.
  destruct (get_pid_reads pid_world) as (sent & Hw & _ & Hall).
  cbv zeta in Hall.
  destruct (Hall [("loop_type", VStr "PD2I"); ("P", VStr "100");
                  ("D", VStr "5"); ("I", VStr "7")]) as [Hs _];
    [vm_compute; reflexivity|].
  split; [vm_compute; reflexivity|].
  rewrite Hw, Hs. reflexivity.
Defined.


Lemma loop_number_of_type (lt : string) (n : Z) :
  loop_number lt = Some n ->
  Py.mem lt loop_options = true /\
  Py.index lt loop_options = Some (n - 1)%Z /\
  py_nth loop_types n = Some lt.
Proof.
  unfold loop_number, Py.mem, loop_options. cbn [Py.index existsb].
  destruct (String.eqb_spec lt "PD/PDF") as [-> | H1].
  - intros [= <-]. repeat split.
  - destruct (String.eqb_spec lt "PD2I") as [-> | H2]; [|discriminate].
    intros [= <-]. repeat split.
Qed.

(** X24.  The loop type survives the round trip through register 85.  For
    a loop type that [set_pid] accepts, [set_pid] called with it alone on
    an open session makes the one exchange that writes its number to
    register 85; and on every open session whose device answers the read
    of register 85 with that number as fourth token, a [get_pid] that
    returns reports this loop type. *)
Theorem loop_type_round_trip (lt : string) (n : Z) (w : World) :
  loop_number lt = Some n ->
  open (fst w) = true ->
  set_pid None None None (Some lt) w =
    send_all [(unit_id (fst w) ++ "$$w85=" ++ Py.str_of_int n)%string] w /\
  (forall (wr w1 : World) (line : string) (m : dict),
     open (fst wr) = true ->
     hw_call (_write_and_read (unit_id (fst wr) ++ "$$r85")) wr =
       (Ok (Some line), w1) ->
     nth_error (Py.split line) 3 = Some (Py.str_of_int n) ->
     fst (get_pid wr) = Ok m ->
     dict_get "loop_type" m = Some (VStr lt)).
Proof.
  intros Hnum Ho.
  destruct (loop_number_of_type lt n Hnum) as (Hm & Hn & Hback).
  split.
  - destruct (set_pid_commands None None None w Ho) as [Hlt _].
    rewrite (Hlt lt (n - 1)%Z Hm Hn).
    replace (n - 1 + 1)%Z with n by lia. reflexivity.
  - intros wr w1 line m Hor Hrun Htok.
    unfold get_pid. rewrite (guard_open _ wr Hor). run_calls.
    rewrite Hrun, Htok, py_facts.int_of_str_of_int, Hback.
    pose proof (read_gains_result [21; 22; 23]%Z [lt] w1) as Hres.
    destruct (read_gains [21; 22; 23]%Z [lt] w1) as [[vals|e] w2];
      [|discriminate].
    destruct (Hres vals eq_refl) as (toks & -> & Hlen).
    destruct toks as [|p [|d [|i [|x toks]]]]; try discriminate Hlen.
    intros [= <-]. reflexivity.
Qed.

(** Loop type [PD2I] is written as 2, and the controller that reports 2
    is read as [PD2I]. *)
Lemma loop_type_round_trip_witness :
  wire (snd (snd (set_pid None None None (Some "PD2I")
                    (scenarios.session None, scenarios.answering [])))) =
    [frame scenarios.connected "A$$w85=2"] /\
  exists m,
    fst (get_pid pid_world) = Ok m /\
    dict_get "loop_type" m = Some (VStr "PD2I").
Proof.
  destruct (loop_type_round_trip "PD2I" 2%Z
              (scenarios.session None, scenarios.answering [])
              eq_refl eq_refl) as (Hset & Hget).
  split; [rewrite Hset; vm_compute; reflexivity|].
  exists [("loop_type", VStr "PD2I"); ("P", VStr "100");
          ("D", VStr "5"); ("I", VStr "7")].
  split; [vm_compute; reflexivity|].
  apply (Hget pid_world
           (snd (hw_call (_write_and_read "A$$r85") pid_world))
           "A   085 = 2");
    [ reflexivity | vm_compute; reflexivity | vm_compute; reflexivity
    | vm_compute; reflexivity ].
Defined.

(** *** The connectivity probe *)

Lemma controller_get_after_get (w : World) :
  snd (controller_get w) = snd (get w) /\
  (forall m, fst (get w) = Ok m ->
     exists m', fst (controller_get w) = Ok m' /\ m' <> []) /\
  (forall e, fst (get w) = Raise e -> fst (controller_get w) = Raise e).
Proof.
  unfold controller_get. run_calls.
  destruct (get w) as [[m|e] w']; cbn [fst snd].
  - split; [reflexivity|]. split; [|discriminate].
    intros m0 _. eexists. split; [reflexivity|].
    destruct m as [|[k v] m]; cbn [dict_set]; [discriminate|].
    destruct (String.eqb _ k); discriminate.
  - split; [reflexivity|]. split; [discriminate|]. intros e0 H. exact H.
Qed.

(** X25.  [is_connected] tells meters from controllers by the schema left
    by one read.  The [FlowMeter] probe accepts exactly when the object
    can be built, [get] returns a mapping that is not empty and the schema
    has lost [setpoint]; the [FlowController] probe accepts exactly when
    the object can be built, [get] returns and the schema still has
    [setpoint].  So the two probes never both accept the same device; and
    both leave the connection in the same state. *)
Theorem is_connected_tells_apart (port unit : string) (l : Link) :
  (fst (is_connected FlowMeterClass port unit l) = true <->
   exists device m w',
     init port unit = Ok device /\ get (device, l) = (Ok m, w') /\
     m <> [] /\ has_setpoint (fst w') = false) /\
  (fst (is_connected FlowControllerClass port unit l) = true <->
   exists device m w',
     init port unit = Ok device /\ get (device, l) = (Ok m, w') /\
     has_setpoint (fst w') = true) /\
  ~ (fst (is_connected FlowMeterClass port unit l) = true /\
     fst (is_connected FlowControllerClass port unit l) = true) /\
  snd (is_connected FlowMeterClass port unit l) =
    snd (is_connected FlowControllerClass port unit l).
Proof.
  unfold is_connected.
  destruct (init port unit) as [device|e].
  2: { repeat split; try discriminate.
       - intros (d & m & w' & H & _). discriminate H.
       - intros (d & m & w' & H & _). discriminate H.
       - intros [H _]. discriminate H. }
  destruct (controller_get_after_get (device, l)) as (Hw & Hok & Herr).
  destruct (controller_get (device, l)) as [rc wc].
  destruct (get (device, l)) as [[m|e] w'] eqn:Hget; cbn [fst snd] in *.
  - destruct (Hok m eq_refl) as (m' & -> & Hne). subst wc.
    assert (Hm' : (match m' with [] => true | _ => false end) = false)
      by (destruct m'; [contradiction Hne; reflexivity | reflexivity]).
    rewrite Hm'. cbn [negb andb].
    split; [|split; [|split]].
    + split.
      * intros H. apply andb_true_iff in H. destruct H as [H1 H2].
        exists device, m, w'. repeat split; auto.
        -- intros ->. discriminate H1.
        -- apply negb_true_iff. exact H2.
      * intros (d & m0 & w0 & [= <-] & Hg & Hm & Hs).
        rewrite Hget in Hg. injection Hg as <- <-.
        rewrite Hs. destruct m; [contradiction Hm; reflexivity | reflexivity].
    + split.
      * intros H. exists device, m, w'. auto.
      * intros (d & m0 & w0 & [= <-] & Hg & Hs).
        rewrite Hget in Hg. injection Hg as <- <-. exact Hs.
    + intros [H1 H2]. rewrite H2 in H1. rewrite andb_false_r in H1.
      discriminate H1.
    + reflexivity.
  - rewrite (Herr e eq_refl). subst wc.
    split; [|split; [|split]].
    + split; [discriminate|].
      intros (d & m0 & w0 & [= <-] & H & _). rewrite Hget in H.
      discriminate H.
    + split; [discriminate|].
      intros (d & m0 & w0 & [= <-] & H & _). rewrite Hget in H.
      discriminate H.
    + intros [H _]. discriminate H.
    + reflexivity.
Qed.


(** *** Verification of a gas write *)

Lemma land_511 (v : Z) : Z.land v 511 = (v mod 512)%Z.
Proof. exact (Z.land_ones v 9 ltac:(lia)). Qed.

(** X26.  [set_gas] compares the number it wrote with the last token of
    the read-back answer taken modulo 512 (the nine low bits): it returns
    exactly when they are equal and raises [OSError] otherwise.  So a
    read-back that ends with the decimal text of a number from 0 to 511 is
    accepted for that number, and a number below 0 or above 511 is never
    accepted, whatever the device answers. *)
Theorem set_gas_verification (n : Z) (w w1 w2 : World)
    (o1 : option string) (line tok : string) :
  open (fst w) = true ->
  hw_call (_write_and_read (unit_id (fst w) ++ "$$W46=" ++ Py.str_of_int n)) w =
    (Ok o1, w1) ->
  hw_call (_write_and_read "f{self.unit}$$R46") w1 = (Ok (Some line), w2) ->
  Py.last_opt (Py.split line) = Some tok ->
  (forall v, Py.int_of_str tok = Some v ->
     (fst (set_gas (GasNumber n) w) = Ok tt <-> n = (v mod 512)%Z) /\
     (n <> (v mod 512)%Z ->
      fst (set_gas (GasNumber n) w) = Raise (OSError "Cannot set gas."))) /\
  (tok = Py.str_of_int n -> (0 <= n <= 511)%Z ->
   fst (set_gas (GasNumber n) w) = Ok tt) /\
  ((n < 0)%Z \/ (511 < n)%Z -> fst (set_gas (GasNumber n) w) <> Ok tt).
Proof.
  intros Ho H1 H2 Htok.
  assert (E : set_gas (GasNumber n) w =
    (match Py.int_of_str tok with
     | None => Raise (ValueError "invalid literal for int() with base 10")
     | Some v => if negb (Z.eqb n (Z.land v 511))
                 then Raise (OSError "Cannot set gas.") else Ok tt
     end, w2)).
  { unfold set_gas. rewrite (guard_open _ w Ho). run_calls.
    rewrite H1, H2, Htok.
    destruct (Py.int_of_str tok) as [v|]; [|reflexivity].
    destruct (negb (Z.eqb n (Z.land v 511))); reflexivity. }
  rewrite E. cbn [fst].
  assert (Hv : forall v, Py.int_of_str tok = Some v ->
     ((if negb (Z.eqb n (Z.land v 511))
       then Raise (OSError "Cannot set gas.") else Ok tt) = Ok tt <->
      n = (v mod 512)%Z) /\
     (n <> (v mod 512)%Z ->
      (if negb (Z.eqb n (Z.land v 511))
       then @Raise unit (OSError "Cannot set gas.") else Ok tt) =
        Raise (OSError "Cannot set gas."))).
  { intros v _. rewrite land_511.
    destruct (Z.eqb_spec n (v mod 512)) as [Heq | Hne]; cbn [negb].
    - split; [split; auto|]. intros H. contradiction.
    - split; [split; [discriminate | intros H; contradiction]|]. reflexivity. }
  split; [|split].
  - intros v Hint. rewrite Hint. apply (Hv v Hint).
  - intros -> Hr. rewrite py_facts.int_of_str_of_int.
    apply (Hv n (py_facts.int_of_str_of_int n)).
    symmetry. apply Z.mod_small. lia.
  - intros Hout. destruct (Py.int_of_str tok) as [v|] eqn:Hint; [|discriminate].
    intros Hok. apply (Hv v eq_refl) in Hok.
    pose proof (Z.mod_pos_bound v 512 ltac:(lia)). lia.
Qed.

(** A read-back of 520 is accepted for gas 8; a read-back of [240] is
    accepted for mix 240. *)
Lemma set_gas_verification_witness :
  fst (set_gas (GasNumber 8) (scenarios.gas_world "A" "A   046 = 520")) =
    Ok tt /\
  fst (set_gas (GasNumber 240) (scenarios.gas_world "A" "A   046 = 240")) =
    Ok tt.
Proof.
  split.
  - destruct (set_gas_verification 8
                (scenarios.gas_world "A" "A   046 = 520")
                (snd (hw_call (_write_and_read "A$$W46=8")
                        (scenarios.gas_world "A" "A   046 = 520")))
                (snd (hw_call (_write_and_read "f{self.unit}$$R46")
                        (snd (hw_call (_write_and_read "A$$W46=8")
                                (scenarios.gas_world "A" "A   046 = 520")))))
                (Some "A   046 = 8") "A   046 = 520" "520")
      as (H & _);
      [ vm_compute; reflexivity | vm_compute; reflexivity
      | vm_compute; reflexivity | vm_compute; reflexivity | ].
    apply (H 520%Z); reflexivity.
  - destruct (set_gas_verification 240
                (scenarios.gas_world "A" "A   046 = 240")
                (snd (hw_call (_write_and_read "A$$W46=240")
                        (scenarios.gas_world "A" "A   046 = 240")))
                (snd (hw_call (_write_and_read "f{self.unit}$$R46")
                        (snd (hw_call (_write_and_read "A$$W46=240")
                                (scenarios.gas_world "A" "A   046 = 240")))))
                (Some "A   046 = 8") "A   046 = 240" "240")
      as (_ & H & _);
      [ vm_compute; reflexivity | vm_compute; reflexivity
      | vm_compute; reflexivity | vm_compute; reflexivity | ].
    apply H; [reflexivity | lia].
Defined.


(** *** Construction *)

(** X27.  The constructor picks the transport from the address: an address
    that starts with [/dev] or [COM] always gives a serial session, colons
    or not; any other address gives a TCP session when it holds exactly
    one colon and is refused with a [ValueError] otherwise.  A session that
    is built is marked open with the baseline schema, no cached firmware
    and no control point, over a client that is not connected yet and
    whose timeout counter is 0 with a limit of 10. *)
Theorem init_spec (address unit : string) :
  (Py.startswith address "/dev" = true \/ Py.startswith address "COM" = true ->
   exists d, init address unit = Ok d /\ util.address (hw d) = address) /\
  (Py.startswith address "/dev" = false ->
   Py.startswith address "COM" = false ->
   ((exists d, init address unit = Ok d) <-> count_char ":" address = 1%nat) /\
   (count_char ":" address <> 1%nat ->
    init address unit = Raise (ValueError "address must be hostname:port"))) /\
  (forall d, init address unit = Ok d ->
     open d = true /\ unit_id d = unit /\ keys d = baseline_keys /\
     firmware d = None /\ control_point d = None /\
     util.open (hw d) = false /\ timeouts (hw d) = 0%Z /\
     max_timeouts (hw d) = 10%Z).
Proof.
  unfold init.
  destruct (Py.startswith address "/dev" || Py.startswith address "COM")
    eqn:Hs.
  - split; [|split].
    + intros _. eexists. split; reflexivity.
    + intros H1 H2. rewrite H1, H2 in Hs. discriminate Hs.
    + intros d [= <-]. repeat split.
  - apply orb_false_iff in Hs. destruct Hs as [Hs1 Hs2].
    destruct (util_more.tcp_client_cases address)
      as [(Hc & c & -> & Ho & Ht & Hm & _) | (Hc & ->)].
    + split; [|split].
      * intros [H | H]; congruence.
      * intros _ _. split; [split; [auto | intros _; eexists; reflexivity]|].
        intros H. contradiction.
      * intros d [= <-]. repeat split; assumption.
    + split; [|split].
      * intros [H | H]; congruence.
      * intros _ _. split; [split|].
        -- intros [d H]. discriminate H.
        -- intros H. contradiction.
        -- reflexivity.
      * intros d H. discriminate H.
Qed.

(** A serial port, a gateway, and an address without port. *)
Lemma init_spec_witness :
  (exists d, init "COM3" "A" = Ok d /\ util.address (hw d) = "COM3") /\
  (exists d, init "192.168.1.5:4001" "B" = Ok d) /\
  init "alicat.local" "A" = Raise (ValueError "address must be hostname:port").
Proof.
  split; [|split].
  - apply (proj1 (init_spec "COM3" "A")). right. reflexivity.
  - destruct (init_spec "192.168.1.5:4001" "B") as (_ & H & _).
    destruct (H eq_refl eq_refl) as [[_ Hex] _]. apply Hex. reflexivity.
  - destruct (init_spec "alicat.local" "A") as (_ & H & _).
    destruct (H eq_refl eq_refl) as [_ Hr]. apply Hr. discriminate.
Defined.

(** *** The text of the setpoint command *)

Lemma str_of_digit_length (z : Z) :
  (0 <= z <= 9)%Z -> String.length (Py.str_of_int z) = 1%nat.
Proof.
  intros H.
  assert (E : (z = 0 \/ z = 1 \/ z = 2 \/ z = 3 \/ z = 4 \/ z = 5 \/ z = 6 \/
               z = 7 \/ z = 8 \/ z = 9)%Z) by lia.
  repeat (destruct E as [-> | E]; [reflexivity|]). subst z. reflexivity.
Qed.

Lemma string_length_append (s t : string) :
  String.length (s ++ t) = (String.length s + String.length t)%nat.
Proof. induction s as [|c s IH]; cbn; [reflexivity | rewrite IH; reflexivity]. Qed.

(** X28.  For every finite setpoint the setpoint command is the unit, the
    letter [S], an optional minus sign, the digits of the integer part, a
    point and exactly two digits; a NaN or an infinity is sent as [nan],
    [inf] or [-inf], without a point. *)
Theorem setpoint_command_two_decimals (unit : string) (x : Py.float) :
  match x with
  | S754_nan => setpoint_command unit x = (unit ++ "Snan")%string
  | S754_infinity s =>
      setpoint_command unit x =
        (unit ++ "S" ++ (if s then "-inf" else "inf"))%string
  | S754_zero s =>
      setpoint_command unit x =
        (unit ++ "S" ++ (if s then "-" else "") ++ "0.00")%string
  | S754_finite s m e =>
      exists whole cents : Z,
        (0 <= whole)%Z /\ (0 <= cents < 100)%Z /\
        (100 * whole + cents = Py.hundredths m e)%Z /\
        setpoint_command unit x =
          (unit ++ "S" ++ (if s then "-" else "") ++ Py.str_of_int whole ++
           "." ++ Py.two_digits cents)%string /\
        String.length (Py.two_digits cents) = 2%nat
  end.
Proof.
  destruct x as [s | s | | s m e]; try reflexivity.
  assert (Hn : (0 <= Py.hundredths m e)%Z).
  { unfold Py.hundredths. destruct (Z.leb_spec 0 e) as [He | He].
    - apply Z.mul_nonneg_nonneg; [|lia].
      apply Z.mul_nonneg_nonneg; [lia|]. apply Z.pow_nonneg. lia.
    - unfold Py.div_nearest_even.
      assert (Hq : (0 <= Z.pos m * 100 / 2 ^ (- e))%Z).
      { apply Z.div_pos; [lia|]. apply Z.pow_pos_nonneg; lia. }
      destruct (_ ?= _)%Z; [destruct (Z.even _)| |]; lia. }
  exists (Py.hundredths m e / 100)%Z, (Py.hundredths m e mod 100)%Z.
  pose proof (Z.mod_pos_bound (Py.hundredths m e) 100 ltac:(lia)) as Hc.
  split; [apply Z.div_pos; lia|]. split; [exact Hc|].
  split; [rewrite <- Z.div_mod by lia; reflexivity|].
  split; [reflexivity|].
  unfold Py.two_digits. rewrite string_length_append.
  rewrite !str_of_digit_length; [reflexivity | |].
  - pose proof (Z.mod_pos_bound (Py.hundredths m e mod 100) 10 ltac:(lia)).
    lia.
  - split; [apply Z.div_pos; lia|].
    apply Z.lt_succ_r. apply Z.div_lt_upper_bound; lia.
Qed.


(** *** Reads built on [get] *)

Lemma get_returns_only_open (w : World) (m : dict) :
  fst (get w) = Ok m -> open (fst w) = true.
Proof.
  destruct (open (fst w)) eqn:Ho; [reflexivity|].
  unfold get. run_calls. rewrite Ho. cbn [negb fst]. discriminate.
Qed.

(** X29.  [is_locked] makes the one read of [get] and returns the lock flag
    of the line that this read decoded: [True] exactly when the line ends
    (before its overrange markers) with the lock token.  It raises whatever
    [get] raises and otherwise always finds the flag set, so it never
    returns the flag of an earlier read. *)
Theorem is_locked_reports_line (w : World) :
  snd (is_locked w) = snd (get w) /\
  (forall e, fst (get w) = Raise e -> fst (is_locked w) = Raise e) /\
  (forall m, fst (get w) = Ok m ->
     exists b, fst (is_locked w) = Ok b /\
               button_lock (fst (snd (get w))) = Some b) /\
  (forall w1 line lck values,
     open (fst w) = true ->
     hw_call (_write_and_read (unit_id (fst w))) w = (Ok (Some line), w1) ->
     decode (unit_id (fst w)) line = Ok (lck, values) ->
     fst (is_locked w) = Ok lck).
Proof.
  assert (Hset : forall m, fst (get w) = Ok m ->
            exists b, button_lock (fst (snd (get w))) = Some b).
  { intros m Hm. pose proof (get_returns_only_open w m Hm) as Ho.
    rewrite (get_open w Ho) in Hm |- *.
    destruct (hw_call (_write_and_read (unit_id (fst w))) w)
      as [[[line|]|e] w']; try discriminate Hm.
    destruct (decode (unit_id (fst w')) line) as [[lck values]|e];
      [|discriminate Hm].
    exists lck. reflexivity. }
  assert (Hview : is_locked w =
            match fst (get w) with
            | Raise e => (Raise e, snd (get w))
            | Ok _ =>
                match button_lock (fst (snd (get w))) with
                | Some b => (Ok b, snd (get w))
                | None => (Raise AttributeError, snd (get w))
                end
            end).
  { unfold is_locked. run_calls.
    destruct (get w) as [[m|e] w']; cbn [fst snd]; [|reflexivity].
    destruct (button_lock (fst w')); reflexivity. }
  split; [|split; [|split]].
  - rewrite Hview. destruct (fst (get w)); [|reflexivity].
    destruct (button_lock _); reflexivity.
  - intros e He. rewrite Hview, He. reflexivity.
  - intros m Hm. destruct (Hset m Hm) as [b Hb]. exists b.
    rewrite Hview, Hm, Hb. split; reflexivity.
  - intros w1 line lck values Ho Hrun Hdec.
    rewrite Hview. rewrite (get_line w w1 line Ho Hrun), Hdec.
    reflexivity.
Qed.

(** A locked front panel, and the same unit unlocked. *)
Lemma is_locked_reports_line_witness :
  fst (is_locked scenarios.locked_world) = Ok true /\
  fst (is_locked scenarios.five_token_world) = Ok false.
Proof.
  split.
  - destruct (is_locked_reports_line scenarios.locked_world)
      as (_ & _ & _ & H).
    apply (H (snd (hw_call (_write_and_read "A") scenarios.locked_world))
             "A 14.2 25.1 2.502 2.499 LCK" true
             ["14.2"; "25.1"; "2.502"; "2.499"]);
      vm_compute; reflexivity.
  - destruct (is_locked_reports_line scenarios.five_token_world)
      as (_ & _ & _ & H).
    apply (H (snd (hw_call (_write_and_read "A") scenarios.five_token_world))
             "A 14.2 25.1 2.502 2.499 A" false
             ["14.2"; "25.1"; "2.502"; "2.499"; "A"]);
      vm_compute; reflexivity.
Defined.

Lemma dict_get_set_same (k : string) (v : value) (d : dict) :
  dict_get k (dict_set k v d) = Some v.
Proof.
  induction d as [|[k' v'] d IH]; cbn [dict_set dict_get].
  - rewrite String.eqb_refl. reflexivity.
  - destruct (String.eqb k k') eqn:E; cbn [dict_get].
    + rewrite String.eqb_refl. reflexivity.
    + rewrite E. exact IH.
Qed.

Lemma dict_get_set_other (k k0 : string) (v : value) (d : dict) :
  k0 <> k -> dict_get k0 (dict_set k v d) = dict_get k0 d.
Proof.
  intros Hne. induction d as [|[k' v'] d IH]; cbn [dict_set dict_get].
  - destruct (String.eqb_spec k0 k); [contradiction | reflexivity].
  - destruct (String.eqb_spec k k') as [<- | Hk]; cbn [dict_get].
    + destruct (String.eqb_spec k0 k); [contradiction | reflexivity].
    + destruct (String.eqb k0 k'); [reflexivity | exact IH].
Qed.

Lemma dict_set_keys_absent (k : string) (v : value) (d : dict) :
  ~ In k (map fst d) -> dict_set k v d = d ++ [(k, v)].
Proof.
  induction d as [|[k' v'] d IH]; cbn [dict_set map fst In app]; intros Hn.
  - reflexivity.
  - destruct (String.eqb_spec k k') as [-> | Hk].
    + exfalso. apply Hn. left. reflexivity.
    + rewrite IH; [reflexivity|]. intros Hin. apply Hn. right. exact Hin.
Qed.

(** X30.  [FlowController.get] is [FlowMeter.get] with one entry more: it
    makes the same exchange, ends in the same state and raises what
    [FlowMeter.get] raises; when that returns a mapping, the result holds
    under [control_point] the cached control point ([None] when unset),
    not something read from the device, and every other key holds what
    [FlowMeter.get] gave it.  When the schema has no field of that name
    the entry is the last one. *)
Theorem controller_get_adds_control_point (w : World) :
  snd (controller_get w) = snd (get w) /\
  (forall e, fst (get w) = Raise e -> fst (controller_get w) = Raise e) /\
  (forall m, fst (get w) = Ok m ->
     exists m',
       fst (controller_get w) = Ok m' /\
       dict_get "control_point" m' =
         Some (control_point_value (control_point (fst w))) /\
       (forall k, k <> "control_point"%string ->
          dict_get k m' = dict_get k m) /\
       (~ In "control_point"%string (map fst m) ->
        m' = m ++ [("control_point"%string,
                    control_point_value (control_point (fst w)))])).
Proof.
  assert (Hcp : control_point (fst (snd (get w))) = control_point (fst w)).
  { destruct (open (fst w)) eqn:Ho.
    - rewrite (get_open w Ho).
      destruct (hw_exchange (unit_id (fst w)) w)
        as (o & w' & Hrun & [Hs _] & _).
      rewrite Hrun. destruct o as [[line|]|e0]; cbn [snd fst].
      + destruct (decode (unit_id (fst w')) line) as [[lck values]|e];
          cbn [snd fst]; [|rewrite Hs; reflexivity].
        rewrite Hs. reflexivity.
      + rewrite Hs. reflexivity.
      + rewrite Hs. reflexivity.
    - unfold get. run_calls. rewrite Ho. reflexivity. }
  unfold controller_get. run_calls. fold control_point_value.
  destruct (get w) as [[m|e] w']; cbn [fst snd] in *.
  - split; [reflexivity|]. split; [discriminate|].
    intros m0 [= <-]. eexists. split; [reflexivity|]. rewrite Hcp.
    split; [apply dict_get_set_same|].
    split; [intros k Hk; apply dict_get_set_other; exact Hk|].
    apply dict_set_keys_absent.
  - split; [reflexivity|]. split; [|discriminate]. intros e0 H. exact H.
Qed.


(** A controller whose cached control point is the gauge pressure. *)
Lemma controller_get_adds_control_point_witness :
  exists m',
    fst (controller_get scenarios.pressure_mode_world) = Ok m' /\
    dict_get "control_point" m' = Some (VStr "gauge pressure").
Proof.
  assert (Hg : exists m, fst (get scenarios.pressure_mode_world) = Ok m)
    by (vm_compute; eexists; reflexivity).
  destruct Hg as [m Hg].
  destruct (controller_get_adds_control_point scenarios.pressure_mode_world)
    as (_ & _ & H).
  destruct (H m Hg) as (m' & Hm & Hcp & _).
  exists m'. split; [exact Hm | exact Hcp].
Defined.


End driver_more.
